(** * LCC from ISBN: the resolution pipeline of [lcc_simple.py] and [main.py]

    A shallow embedding of the two scripts: the sqlite cache
    ([sqlite_search], [sqlite_create], [sql_tablecreate], [sql_tableinsert]),
    the normaliser [fix_isbn], the Classify and Harvard adapters
    ([get_oclc_data], [json_query], [harvard_get]), the Library of Congress
    and Blacklight adapters ([loc_search], [get_blacklight]) and the row
    loop of [__main__] with its adapter chain, output rows and
    write-through. *)

From Stdlib Require Import Bool Arith ZArith List Ascii String Lia.
Import ListNotations.

Local Open Scope string_scope.
Local Open Scope list_scope.
Local Open Scope nat_scope.

(** ** Python results

    A call either returns a value or raises; the exceptions are the ones the
    scripts can meet. *)

Inductive exn : Type :=
| IndexError
| KeyError
| TypeError
| ExpatError
| StopIteration
| OperationalError
| RecursionError.

Inductive res (A : Type) : Type :=
| Ret (a : A)
| Raise (e : exn).

Arguments Ret {A} a.
Arguments Raise {A} e.

(** [bool(x)] for a value that is [None] or a [str]. *)
Definition truthy (x : option string) : bool :=
  match x with
  | None => false
  | Some s => negb (String.eqb s "")
  end.

(** [l[i]] with Python's negative indices. *)
Definition py_index {A} (l : list A) (i : Z) : option A :=
  if (0 <=? i)%Z then nth_error l (Z.to_nat i)
  else if (0 <=? Z.of_nat (List.length l) + i)%Z
       then nth_error l (Z.to_nat (Z.of_nat (List.length l) + i))
       else None.

(** ** Characters and strings *)

Definition is_digit (c : ascii) : bool :=
  (48 <=? nat_of_ascii c) && (nat_of_ascii c <=? 57).

Definition is_upper (c : ascii) : bool :=
  (65 <=? nat_of_ascii c) && (nat_of_ascii c <=? 90).

(** ASCII-only case folding, as sqlite's LIKE does it. *)
Definition tolower (c : ascii) : ascii :=
  if is_upper c then ascii_of_nat (nat_of_ascii c + 32) else c.

Fixpoint lower (s : string) : string :=
  match s with
  | EmptyString => EmptyString
  | String c s' => String (tolower c) (lower s')
  end.

Fixpoint forall_chars (p : ascii -> bool) (s : string) : bool :=
  match s with
  | EmptyString => true
  | String c s' => p c && forall_chars p s'
  end.

(** [sub in s] for Python strings. *)
Fixpoint contains (sub s : string) : bool :=
  prefix sub s ||
  match s with
  | EmptyString => false
  | String _ s' => contains sub s'
  end.

(** ** ISBNs

    The characters of a canonical ISBN and its check digits. *)

Definition isbn_char (c : ascii) : bool :=
  is_digit c || Ascii.eqb c "X".

Definition digit_val (c : ascii) : nat :=
  if is_digit c then nat_of_ascii c - 48 else 10.

(** Weighted sum with weights [w], [w-1], ... over the characters. *)
Fixpoint isbn10_sum (w : nat) (s : string) : nat :=
  match s with
  | EmptyString => 0
  | String c s' => w * digit_val c + isbn10_sum (w - 1) s'
  end.

(** Weighted sum with weights 1,3,1,3,... ; [odd] says the next weight is 1. *)
Fixpoint isbn13_sum (odd : bool) (s : string) : nat :=
  match s with
  | EmptyString => 0
  | String c s' =>
      (if odd then 1 else 3) * digit_val c + isbn13_sum (negb odd) s'
  end.

(** Modelled from the spec: the canonical form of an ISBN (section 3,
    [isbnlib] itself is not part of the repository): ten characters, nine
    digits and a digit or [X], with the mod-11 check, or thirteen digits with
    the mod-10 check. *)
Definition canonical_isbn (s : string) : bool :=
  match String.length s with
  | 10 =>
      forall_chars is_digit (substring 0 9 s)
      && forall_chars isbn_char (substring 9 1 s)
      && (isbn10_sum 10 s mod 11 =? 0)
  | 13 =>
      forall_chars is_digit s && (isbn13_sum true s mod 10 =? 0)
  | _ => false
  end.

(** ** The sqlite cache *)

Module Sqlite.

(** A row of table [main]: the columns [ISBN], [LC] and [LCSource], all of
    declared type [text]. *)
Definition row : Type := (string * string * string)%type.

Definition row_isbn (r : row) : string := fst (fst r).
Definition row_lc (r : row) : string := snd (fst r).
Definition row_source (r : row) : string := snd r.

(** The database file as the scripts see it: a path that [sqlite3.connect]
    cannot open, a path where no file is yet, a file without table [main],
    or a file holding the table.  The rows are in rowid order, the order of
    insertion (nothing is ever deleted) and the order in which a scan of the
    table returns them. *)
Inductive dbfile : Type :=
| Unopenable
| Missing
| NoTable
| Table (rows : list row).

(** [sqlite3.connect(dbfile)]: fails on a path that cannot be opened and
    creates an empty file where there is none. *)
Definition connect (f : dbfile) : option dbfile :=
  match f with
  | Unopenable => None
  | Missing => Some NoTable
  | NoTable => Some NoTable
  | Table rows => Some (Table rows)
  end.

(** [os.path.exists(dbfile)]; a file that cannot be opened is there. *)
Definition exists_file (f : dbfile) : bool :=
  match f with
  | Missing => false
  | _ => true
  end.

(** [table_columns = {"ISBN": "text", "LC": "text", "LCSource": "text"}] *)
Definition table_columns : list (string * string) :=
  [("ISBN", "text"); ("LC", "text"); ("LCSource", "text")].

(** Python's [s.rstrip(",")]. *)
Fixpoint rstrip_comma (s : string) : string :=
  match s with
  | EmptyString => EmptyString
  | String c s' =>
      match rstrip_comma s' with
      | EmptyString => if Ascii.eqb c "," then EmptyString else String c EmptyString
      | t => String c t
      end
  end.

(** The statement text [sql_tablecreate] builds. *)
Definition create_string (table_name : string) (cols : list (string * string)) : string :=
  let body :=
    fold_left (fun acc kv => acc ++ fst kv ++ " " ++ snd kv ++ ",")%string cols
              ("CREATE TABLE IF NOT EXISTS " ++ table_name ++ " (")%string in
  (rstrip_comma body ++ ")")%string.

(** Whether a column definition carries a uniqueness constraint; the ones of
    [table_columns] are a bare type name. *)
Definition column_is_unique (sql_type : string) : bool :=
  contains "UNIQUE" sql_type || contains "PRIMARY KEY" sql_type.

(** [sql_tablecreate]: CREATE TABLE IF NOT EXISTS on an open connection. *)
Definition sql_tablecreate (f : dbfile) : bool * dbfile :=
  match f with
  | Table rows => (true, Table rows)
  | _ => (true, Table [])
  end.

(** [sqlite_create]: connect, create the table, commit, close.  The
    [connect] is not guarded. *)
Definition sqlite_create (f : dbfile) : res unit * dbfile :=
  match connect f with
  | None => (Raise OperationalError, f)
  | Some f' => (Ret tt, snd (sql_tablecreate f'))
  end.

(** *** String literals

    [sql_tableinsert] doubles every quote of a value and wraps it in quotes;
    sqlite's tokenizer reads a literal up to the first quote that is not
    doubled. *)

Fixpoint sql_escape (s : string) : string :=
  match s with
  | EmptyString => EmptyString
  | String c s' =>
      if Ascii.eqb c "'" then String "'" (String "'" (sql_escape s'))
      else String c (sql_escape s')
  end.

(** Reads the body of a literal after its opening quote: the value and the
    text after the closing quote. *)
Fixpoint read_literal (s : string) : option (string * string) :=
  match s with
  | EmptyString => None
  | String c s' =>
      if Ascii.eqb c "'" then
        match s' with
        | String d s'' =>
            if Ascii.eqb d "'" then
              match read_literal s'' with
              | Some (v, rest) => Some (String "'" v, rest)
              | None => None
              end
            else Some (EmptyString, s')
        | EmptyString => Some (EmptyString, EmptyString)
        end
      else
        match read_literal s' with
        | Some (v, rest) => Some (String c v, rest)
        | None => None
        end
  end.

(** The argument list [format_string] of the INSERT statement. *)
Definition format_string (values : list string) : string :=
  (rstrip_comma
     (fold_left (fun acc v => acc ++ "'" ++ sql_escape v ++ "',")%string values "")
   ++ ")")%string.

(** sqlite reading ['v1','v2',...)]: the values of the literals. *)
Fixpoint parse_values (fuel : nat) (s : string) : option (list string) :=
  match fuel with
  | O => None
  | S fuel' =>
      match s with
      | String c s' =>
          if Ascii.eqb c "'" then
            match read_literal s' with
            | Some (v, String d rest) =>
                if Ascii.eqb d ")" then
                  match rest with EmptyString => Some [v] | _ => None end
                else if Ascii.eqb d "," then
                  match parse_values fuel' rest with
                  | Some vs => Some (v :: vs)
                  | None => None
                  end
                else None
            | _ => None
            end
          else None
      | EmptyString => None
      end
  end.

(** [INSERT OR IGNORE INTO main VALUES (...)]: OR IGNORE skips a row that
    violates a constraint of the table; the table created from
    [table_columns] has three columns and no constraint, so a row of three
    values is always appended. *)
Definition insert_or_ignore (rows : list row) (values : list string) : option (list row) :=
  match values with
  | [i; l; s] => Some (rows ++ [(i, l, s)])
  | _ => None
  end.

(** [sql_tableinsert] on the cursor of an open connection, with the values
    of [newdata_dict] in order.  An error of sqlite (no table [main], a
    statement that does not parse) is caught and gives [False]. *)
Definition sql_tableinsert (f : dbfile) (values : list string) : bool * dbfile :=
  match f with
  | Table rows =>
      let stmt := format_string values in
      match parse_values (S (String.length stmt)) stmt with
      | Some vs =>
          match insert_or_ignore rows vs with
          | Some rows' => (true, Table rows')
          | None => (false, Table rows)
          end
      | None => (false, Table rows)
      end
  | _ => (false, f)
  end.

(** *** LIKE

    sqlite's LIKE: [%] matches any run of characters, [_] one character,
    anything else itself up to ASCII letter case. *)

Fixpoint sqlite_like (pat s : string) : bool :=
  match pat with
  | EmptyString => match s with EmptyString => true | _ => false end
  | String p pat' =>
      if Ascii.eqb p "%" then
        (fix star (t : string) : bool :=
           sqlite_like pat' t
           || match t with
              | EmptyString => false
              | String _ t' => star t'
              end) s
      else if Ascii.eqb p "_" then
        match s with
        | EmptyString => false
        | String _ s' => sqlite_like pat' s'
        end
      else
        match s with
        | EmptyString => false
        | String c s' => Ascii.eqb (tolower p) (tolower c) && sqlite_like pat' s'
        end
  end.

(** The pattern of [where_string = f"ISBN like '{isbn}';"]: the literal
    sqlite reads from the interpolated text.  An ISBN with a quote in it can
    leave other text than the closing [;] after the literal; the statement
    is then not this query any more and the model takes [execute] to fail.
    A canonical ISBN holds no quote. *)
Definition where_pattern (isbn : string) : option string :=
  match read_literal (isbn ++ "';")%string with
  | Some (p, ";") => Some p
  | _ => None
  end.

Inductive variant : Type :=
| Simple   (* lcc_simple.py *)
| Gui.     (* main.py *)

(** What [sqlite_search] reports besides its result. *)
Inductive search_note : Type :=
| Quiet
| UnableToOpen.

(** [sqlite_search]: SELECT DISTINCT ISBN, LC, LCSource FROM main WHERE ISBN
    LIKE the pattern, then [entry[0]]: the first row of the scan that
    matches (DISTINCT drops later copies of a row, not the first).  A
    failing [execute] (no table) returns [None].  When [connect] fails,
    main.py logs and returns [None]; lcc_simple.py calls [sqlite_create],
    whose own [connect] raises. *)
Definition sqlite_search (v : variant) (f : dbfile) (isbn : string)
  : res (option row) * search_note * dbfile :=
  match connect f with
  | None =>
      match v with
      | Gui => (Ret None, UnableToOpen, f)
      | Simple => (Raise OperationalError, Quiet, f)
      end
  | Some (Table rows) =>
      match where_pattern isbn with
      | Some p => (Ret (find (fun r => sqlite_like p (row_isbn r)) rows), Quiet, Table rows)
      | None => (Ret None, Quiet, Table rows)
      end
  | Some f' => (Ret None, Quiet, f')
  end.

(** The rows the file holds. *)
Definition rows_of (f : dbfile) : list row :=
  match f with
  | Table rows => rows
  | _ => []
  end.

(** A row that records a call number: its LCC is not empty and its source is
    not the mark of an unresolved ISBN. *)
Definition recorded (r : row) : Prop :=
  row_lc r <> "" /\ row_source r <> "NOTFOUND".

(** The result of a lookup alone. *)
Definition lookup (v : variant) (f : dbfile) (isbn : string) : res (option row) :=
  fst (fst (sqlite_search v f isbn)).

End Sqlite.

(** ** The normaliser

    [isbnlib] is a library outside the repository; [fix_isbn] is embedded
    over its functions.  [get_isbnlike] returns what Python's [len] and
    [isbnlib.clean] accept; its type stays abstract. *)

Section Normalizer.

Variable isbnlike : Type.
Variable len_isbnlike : isbnlike -> nat.
Variable canonical : string -> string.
Variable is_isbn10 : string -> bool.
Variable is_isbn13 : string -> bool.
Variable get_isbnlike : string -> isbnlike.
Variable clean : isbnlike -> string.
Variable get_canonical_isbn : string -> string.

(** [len(lib_isbn) in (10, 13)] *)
Definition in_10_13 (n : nat) : bool := (n =? 10) || (n =? 13).

(** The value of [isgood] for a string of length 10 or 13. *)
Definition isgood (lib_isbn : string) : bool :=
  if String.length lib_isbn =? 10 then is_isbn10 lib_isbn else is_isbn13 lib_isbn.

(** A string that passes the check of [fix_isbn]: length 10 or 13 and
    [isgood]. *)
Definition valid (lib_isbn : string) : bool :=
  in_10_13 (String.length lib_isbn) && isgood lib_isbn.

Definition fix_isbn (isbn : string) : option string :=
  let lib_isbn := canonical isbn in
  if in_10_13 (String.length lib_isbn) && isgood lib_isbn then Some lib_isbn
  else if String.length lib_isbn <? 10 then None
  else
    let found := get_isbnlike isbn in
    if len_isbnlike found <? 10 then None
    else
      let lib_isbn := clean found in
      if String.length lib_isbn <? 10 then None
      else
        let lib_isbn := get_canonical_isbn lib_isbn in
        if String.length lib_isbn <? 10 then None
        else if String.eqb lib_isbn "" then None
        else if in_10_13 (String.length lib_isbn) then
          if isgood lib_isbn then Some lib_isbn else None
        else None.

End Normalizer.

(** ** HTTP *)

(** What [requests.get] gives: an exception, or a response with [r.ok] and
    [r.text]. *)
Inductive http : Type :=
| ConnectionError
| Response (ok : bool) (text : string).

(** ** The Classify adapter *)

Module Dom.

(** A minidom tree: elements with their attributes and children, and text. *)
#[warnings="-register-all"]
Inductive node : Type :=
| Element (tagName : string) (attributes : list (string * string)) (childNodes : list node)
| Text (data : string).

(** The element itself when its tag is [name], then its descendants, in
    document order. *)
Fixpoint elements (name : string) (n : node) : list node :=
  match n with
  | Text _ => []
  | Element t _ cs =>
      (if String.eqb t name then [n] else []) ++ flat_map (elements name) cs
  end.

(** [xdoc.getElementsByTagName(name)] on the document whose root is [root]. *)
Definition doc_getElementsByTagName (root : node) (name : string) : list node :=
  elements name root.

(** [e.getElementsByTagName(name)]: descendants only. *)
Definition getElementsByTagName (e : node) (name : string) : list node :=
  match e with
  | Text _ => []
  | Element _ _ cs => flat_map (elements name) cs
  end.

Fixpoint assoc (k : string) (l : list (string * string)) : option string :=
  match l with
  | [] => None
  | (k', x) :: l' => if String.eqb k' k then Some x else assoc k l'
  end.

(** [e.attributes[k].value]; a missing attribute is a [KeyError]. *)
Definition attribute (e : node) (k : string) : res string :=
  match e with
  | Text _ => Raise KeyError
  | Element _ attrs _ =>
      match assoc k attrs with
      | Some x => Ret x
      | None => Raise KeyError
      end
  end.

End Dom.

Module Classify.
Import Dom.

Definition base : string := "http://classify.oclc.org/classify2/Classify?".

Section Adapter.

(** [requests.utils.requote_uri]; [None] when it raises. *)
Variable requote_uri : string -> option string.
(** The network: the answer to the [n]-th request of the run, for its URL. *)
Variable http_get : nat -> string -> http.
(** [xml.dom.minidom.parseString]: the root of the document, [None] when
    the text is not well-formed (the parser raises). *)
Variable parseString : string -> option node.

(** The loop over [mostPopular]: every element sets [lcc_value] to its
    [nsfa], the last one stays. *)
Fixpoint most_popular (ms : list node) (lcc_value : option string) : res (option string) :=
  match ms with
  | [] => Ret lcc_value
  | m :: ms' =>
      match attribute m "nsfa" with
      | Raise e => Raise e
      | Ret nsfa => most_popular ms' (Some nsfa)
      end
  end.

(** The loop over [work]: the [wi] of the first work that has both
    attributes and whose [schemes] contains [LCC]. *)
Fixpoint first_lcc_work (ws : list node) : option string :=
  match ws with
  | [] => None
  | work :: ws' =>
      match attribute work "wi" with
      | Raise _ => first_lcc_work ws'
      | Ret m_wi =>
          match attribute work "schemes" with
          | Raise _ => first_lcc_work ws'
          | Ret schemes =>
              if contains "LCC" schemes then Some m_wi else first_lcc_work ws'
          end
      end
  end.

(** [nexturl] for a quoted value. *)
Definition nexturl (parmtype quoted : string) : string :=
  (base ++ parmtype ++ "=" ++ quoted ++ "&summary=true")%string.

(** The work identifier a response sends [get_oclc_data] to: the response
    is well-formed, its code is [4] and one of its works lists [LCC]. *)
Definition follows (r : http) : option string :=
  match r with
  | Response true wq =>
      match parseString wq with
      | Some xdoc =>
          match doc_getElementsByTagName xdoc "response" with
          | response :: _ =>
              match attribute response "code" with
              | Ret respCode =>
                  if String.eqb respCode "0" || String.eqb respCode "2" then None
                  else if String.eqb respCode "4" then
                    match doc_getElementsByTagName xdoc "works" with
                    | works :: _ => first_lcc_work (getElementsByTagName works "work")
                    | [] => None
                    end
                  else None
              | Raise _ => None
              end
          | [] => None
          end
      | None => None
      end
  | _ => None
  end.

(** The last lines: [lcc_value] when it is truthy, else [None]. *)
Definition finish (lcc_value : option string) : option string :=
  if truthy lcc_value then lcc_value else None.

(** [get_oclc_data].  The state is the list of URLs requested so far.
    [depth] bounds the nesting of calls, as the interpreter's recursion limit
    does: a call at depth 0 raises [RecursionError]. *)
Fixpoint get_oclc_data (depth : nat) (parmtype parmvalue : string) (reqs : list string)
  : res (option string) * list string :=
  match depth with
  | O => (Raise RecursionError, reqs)
  | S depth' =>
      match requote_uri parmvalue with
      | None => (Ret None, reqs)
      | Some quoted =>
          let reqs1 := reqs ++ [nexturl parmtype quoted] in
          match http_get (List.length reqs) (nexturl parmtype quoted) with
          | ConnectionError => (Ret None, reqs1)
          | Response false _ => (Ret None, reqs1)
          | Response true wq =>
              match parseString wq with
              | None => (Raise ExpatError, reqs1)
              | Some xdoc =>
                  match doc_getElementsByTagName xdoc "response" with
                  | [] => (Raise IndexError, reqs1)
                  | response :: _ =>
                      match attribute response "code" with
                      | Raise e => (Raise e, reqs1)
                      | Ret respCode =>
                          if String.eqb respCode "0" || String.eqb respCode "2" then
                            match doc_getElementsByTagName xdoc "recommendations" with
                            | [] => (Raise IndexError, reqs1)
                            | recommendations :: _ =>
                                if 0 <? List.length (doc_getElementsByTagName xdoc "lcc") then
                                  match getElementsByTagName recommendations "lcc" with
                                  | [] => (Raise IndexError, reqs1)
                                  | local_lcc :: _ =>
                                      match most_popular
                                              (getElementsByTagName local_lcc "mostPopular") None with
                                      | Raise e => (Raise e, reqs1)
                                      | Ret lcc_value => (Ret (finish lcc_value), reqs1)
                                      end
                                  end
                                else (Ret None, reqs1)
                            end
                          else if String.eqb respCode "4" then
                            match doc_getElementsByTagName xdoc "works" with
                            | [] => (Raise IndexError, reqs1)
                            | works :: _ =>
                                match first_lcc_work (getElementsByTagName works "work") with
                                | None => (Ret None, reqs1)
                                | Some m_wi =>
                                    match get_oclc_data depth' "wi" m_wi reqs1 with
                                    | (Raise e, reqs2) => (Raise e, reqs2)
                                    | (Ret lcc_value, reqs2) => (Ret (finish lcc_value), reqs2)
                                    end
                                end
                            end
                          else (Ret None, reqs1)
                      end
                  end
              end
          end
      end
  end.

End Adapter.
End Classify.

(** ** The Harvard adapter *)

Module Json.

(** What [r.json()] returns. *)
#[warnings="-register-all"]
Inductive json : Type :=
| JNull
| JBool (b : bool)
| JNum (z : Z)
| JStr (s : string)
| JList (l : list json)
| JDict (d : list (string * json)).

Fixpoint lookup (k : string) (d : list (string * json)) : option json :=
  match d with
  | [] => None
  | (k', x) :: d' => if String.eqb k' k then Some x else lookup k d'
  end.

(** [x[k]] for a string key [k], on [x] that may be [None]: only a dict has
    string keys. *)
Definition getitem (x : option json) (k : string) : res json :=
  match x with
  | Some (JDict d) =>
      match lookup k d with
      | Some y => Ret y
      | None => Raise KeyError
      end
  | _ => Raise TypeError
  end.

(** [bool(x)] *)
Definition json_truthy (x : json) : bool :=
  match x with
  | JNull => false
  | JBool b => b
  | JNum z => negb (z =? 0)%Z
  | JStr s => negb (String.eqb s "")
  | JList l => match l with [] => false | _ => true end
  | JDict d => match d with [] => false | _ => true end
  end.

Definition is_str (k : string) (x : json) : bool :=
  match x with
  | JStr s => String.eqb s k
  | _ => false
  end.

(** [k in x] for a string [k]. *)
Definition json_in (k : string) (x : json) : res bool :=
  match x with
  | JDict d => Ret (match lookup k d with Some _ => true | None => false end)
  | JList l => Ret (existsb (is_str k) l)
  | JStr s => Ret (contains k s)
  | _ => Raise TypeError
  end.

(** [for volfield in x]: whether some item equals the string [k]; iterating
    over a value that is not a container raises. *)
Definition iter_has (k : string) (x : json) : res bool :=
  match x with
  | JDict d => Ret (match lookup k d with Some _ => true | None => false end)
  | JList l => Ret (existsb (is_str k) l)
  | JStr s => Ret false
  | _ => Raise TypeError
  end.

End Json.

Module Harvard.
Import Json Sqlite.

Section Adapter.

Variable http_get : nat -> string -> http.
(** [r.json()]; [None] when the body is not JSON. *)
Variable json_loads : string -> option json.

Definition service_url (isbn : string) : string :=
  ("https://api.lib.harvard.edu/v2/items.json?identifier=" ++ isbn)%string.

(** [json_query]: the record, [None] on a failed request, a bad status or a
    body that is not JSON; [wq[0]] on an empty list raises. *)
Definition json_query (isbn : string) (n : nat) : res (option json) :=
  match http_get n (service_url isbn) with
  | ConnectionError => Ret None
  | Response false _ => Ret None
  | Response true text =>
      match json_loads text with
      | None => Ret None
      | Some (JList []) => Raise IndexError
      | Some (JList (x :: _)) => Ret (Some x)
      | Some (JDict d) => Ret (Some (JDict d))
      | Some _ => Ret None
      end
  end.

(** The loop [for volfield in record_data] of [harvard_get]: at the item
    [classification], the first entry of the list (or the value itself) is
    taken and its [#text] returned when its [@authority] is [lcc]. *)
Definition classification (record_data : json) : res (option json) :=
  match iter_has "classification" record_data with
  | Raise e => Raise e
  | Ret false => Ret None
  | Ret true =>
      match getitem (Some record_data) "classification" with
      | Raise e => Raise e
      | Ret c =>
          let first :=
            match c with
            | JList [] => Raise IndexError
            | JList (x :: _) => Ret x
            | _ => Ret c
            end in
          match first with
          | Raise e => Raise e
          | Ret h_lcc_j =>
              match getitem (Some h_lcc_j) "@authority" with
              | Raise e => Raise e
              | Ret a =>
                  if is_str "lcc" a then
                    match getitem (Some h_lcc_j) "#text" with
                    | Raise e => Raise e
                    | Ret harv_lcc => Ret (Some harv_lcc)
                    end
                  else Ret None
              end
          end
      end
  end.

(** [harvard_get].  lcc_simple.py probes [record_data['items']] under a
    [try] first; main.py does not. *)
Definition harvard_get (v : variant) (m_isbn : string) (n : nat) : res (option json) :=
  match json_query m_isbn n with
  | Raise _ => Ret None
  | Ret record_data =>
      match getitem record_data "items" with
      | Raise e =>
          match v with
          | Simple => Ret None
          | Gui => Raise e
          end
      | Ret items =>
          if json_truthy items then
            match json_in "mods" items with
            | Raise e => Raise e
            | Ret true =>
                match getitem (Some items) "mods" with
                | Raise e => Raise e
                | Ret mods => classification mods
                end
            | Ret false =>
                match record_data with
                | Some rd => classification rd
                | None => Ret None
                end
            end
          else Ret None
      end
  end.

End Adapter.
End Harvard.

(** ** The Library of Congress adapter *)

Module Loc.
Import Json.

Section Adapter.

(** [sruthi.searchretrieve(sru_base, query=isbn)] for the [n]-th request of
    the run: the records, as the dicts and lists [sruthi] builds from MARC
    XML; [None] when it raises. *)
Variable searchretrieve : nat -> string -> string -> option (list json).

(** [for x in value]: the items a loop over a JSON value visits; a loop over
    a value that is not a container raises. *)
Definition iter_items (value : json) : res (list json) :=
  match value with
  | JList l => Ret l
  | JDict d => Ret (map (fun kv => JStr (fst kv)) d)
  | JStr s => Ret (map (fun c => JStr (String c EmptyString)) (list_ascii_of_string s))
  | _ => Raise TypeError
  end.

(** The loop over [record['datafield']]: [x['tag']] is read under no [try];
    at the first field with tag [050] the text of its subfield is returned,
    or [None] when reading it raises. *)
Fixpoint first_050 (fields : list json) : res (option json) :=
  match fields with
  | [] => Ret None
  | x :: fields' =>
      match getitem (Some x) "tag" with
      | Raise e => Raise e
      | Ret tag =>
          if is_str "050" tag then
            match getitem (Some x) "subfield" with
            | Raise _ => Ret None
            | Ret subfield =>
                match getitem (Some subfield) "text" with
                | Raise _ => Ret None
                | Ret text => Ret (Some text)
                end
            end
          else first_050 fields'
      end
  end.

(** [loc_search] *)
Definition loc_search (isbn sru_base : string) (n : nat) : res (option json) :=
  match searchretrieve n sru_base isbn with
  | None => Ret None
  | Some records =>
      match records with
      | [] => Ret None
      | record :: _ =>
          match getitem (Some record) "datafield" with
          | Raise _ => Ret None
          | Ret datafield =>
              match iter_items datafield with
              | Raise e => Raise e
              | Ret fields => first_050 fields
              end
          end
      end
  end.

End Adapter.
End Loc.

(** ** The Blacklight adapters *)

Module Blacklight.
Import Dom.

(** Python's [str.isspace] on a character; characters are code points below
    256. *)
Definition is_space (c : ascii) : bool :=
  let n := nat_of_ascii c in
  ((9 <=? n) && (n <=? 13)) || ((28 <=? n) && (n <=? 32)) || (n =? 133) || (n =? 160).

(** [s.lstrip()], [s.rstrip()] and [s.strip()] *)
Fixpoint lstrip (s : string) : string :=
  match s with
  | EmptyString => EmptyString
  | String c s' => if is_space c then lstrip s' else s
  end.

Fixpoint rstrip (s : string) : string :=
  match s with
  | EmptyString => EmptyString
  | String c s' =>
      match rstrip s' with
      | EmptyString => if is_space c then EmptyString else String c EmptyString
      | t => String c t
      end
  end.

Definition strip (s : string) : string := rstrip (lstrip s).

(** [s.split(sep)] for a separator of one character. *)
Fixpoint split (sep : ascii) (s : string) : list string :=
  match s with
  | EmptyString => [EmptyString]
  | String c s' =>
      if Ascii.eqb c sep then EmptyString :: split sep s'
      else
        match split sep s' with
        | piece :: pieces => String c piece :: pieces
        | [] => [String c EmptyString]
        end
  end.

(** [re.sub(r'\n', '', s)] *)
Fixpoint remove_newlines (s : string) : string :=
  match s with
  | EmptyString => EmptyString
  | String c s' =>
      if Ascii.eqb c "010" then remove_newlines s' else String c (remove_newlines s')
  end.

Definition is_lower (c : ascii) : bool :=
  (97 <=? nat_of_ascii c) && (nat_of_ascii c <=? 122).

(** [re.sub(r'([a-z])\|', r'|\g<1>', s)]: every lower-case letter followed
    by a bar changes places with it, from the left, matches not
    overlapping. *)
Fixpoint swap_codes (s : string) : string :=
  match s with
  | EmptyString => EmptyString
  | String c s' =>
      match s' with
      | String d s'' =>
          if is_lower c && Ascii.eqb d "|" then String "|" (String c (swap_codes s''))
          else String c (swap_codes s')
      | EmptyString => String c EmptyString
      end
  end.

(** [s[2:]] *)
Definition drop2 (s : string) : string :=
  match s with
  | String _ (String _ s') => s'
  | _ => EmptyString
  end.

(** The loop over [sub_list]: the first piece that is not empty and starts
    with [a] gives [loop[2:].strip()]. *)
Fixpoint first_a (sub_list : list string) : option string :=
  match sub_list with
  | [] => None
  | piece :: pieces =>
      if negb (String.eqb piece "") && prefix "a" piece then Some (strip (drop2 piece))
      else first_a pieces
  end.

(** From the text of the subfields block to the call number. *)
Definition subfield_a (text : string) : option string :=
  first_a (split "|" (swap_codes (remove_newlines text))).

(** *** The tree of BeautifulSoup *)

(** [tag.text]: the strings below a node, in order. *)
Fixpoint text (n : node) : string :=
  match n with
  | Text d => d
  | Element _ _ cs => String.concat "" (map text cs)
  end.

(** The values of a [class] attribute: the runs of characters that are not
    whitespace. *)
Fixpoint tokens (s : string) : list string :=
  match s with
  | EmptyString => []
  | String c s' =>
      if is_space c then tokens s'
      else
        match s' with
        | EmptyString => [String c EmptyString]
        | String d _ =>
            if is_space d then String c EmptyString :: tokens s'
            else
              match tokens s' with
              | t :: ts => String c t :: ts
              | [] => [String c EmptyString]
              end
        end
  end.

Definition has_class (cls : string) (e : node) : bool :=
  match e with
  | Element _ attrs _ =>
      match assoc "class" attrs with
      | Some value => existsb (String.eqb cls) (tokens value)
      | None => false
      end
  | Text _ => false
  end.

(** [tag.find_all('div', cls)]: the [div] elements below the node that carry
    the class, in document order. *)
Definition find_all_div (cls : string) (n : node) : list node :=
  filter (has_class cls) (getElementsByTagName n "div").

(** [tag.find('div', attrs={'class': cls})] *)
Definition find_div (cls : string) (n : node) : option node :=
  hd_error (find_all_div cls n).

(** [tag.attrs['href']]; [None] when the key is missing. *)
Definition href (tag : node) : option string :=
  match tag with
  | Element _ attrs _ => assoc "href" attrs
  | Text _ => None
  end.

Section Adapter.

(** [requests.get] for the [n]-th request of the run, and the tree
    [BeautifulSoup(text, 'html.parser')] builds, as its root. *)
Variable http_get : nat -> string -> http.
Variable BeautifulSoup : string -> node.

(** The loop over the fields of one detail page: a field whose [tag_ind]
    text holds [050] and that has a subfields block sets [calltext], to the
    call number or to [None]. *)
Fixpoint scan_fields (fields : list node) (calltext : option string) : option string :=
  match fields with
  | [] => calltext
  | marcfield :: fields' =>
      match find_div "tag_ind" marcfield with
      | None => scan_fields fields' calltext
      | Some tag_ind =>
          if contains "050" (text tag_ind) then
            match find_div "subfields" marcfield with
            | None => scan_fields fields' calltext
            | Some subfields => scan_fields fields' (subfield_a (text subfields))
            end
          else scan_fields fields' calltext
      end
  end.

(** The loop over the links of the result page.  A link without [href]
    ends the function with [None]; a link to a record is followed, and a
    failed request for it is passed over. *)
Fixpoint scan_links (base_url1 : string) (tags : list node) (calltext : option string)
         (reqs : list string) : option string * list string :=
  match tags with
  | [] => (calltext, reqs)
  | tag :: tags' =>
      match href tag with
      | None => (None, reqs)
      | Some check_link =>
          if contains "/catalog/" check_link then
            let detailURL := (base_url1 ++ check_link ++ "/librarian_view")%string in
            match http_get (List.length reqs) detailURL with
            | ConnectionError => scan_links base_url1 tags' calltext (reqs ++ [detailURL])
            | Response _ body =>
                scan_links base_url1 tags'
                  (scan_fields (find_all_div "field" (BeautifulSoup body)) calltext)
                  (reqs ++ [detailURL])
            end
          else scan_links base_url1 tags' calltext reqs
      end
  end.

Definition URL_TITLE (base_url1 paramvalue : string) : string :=
  (base_url1 ++ "/catalog?q=" ++ paramvalue ++ "&search_field=all_fields&commit=Search")%string.

(** [get_blacklight]; the state is the list of URLs requested so far. *)
Definition get_blacklight (base_url1 institution paramvalue : string) (reqs : list string)
  : option string * list string :=
  match http_get (List.length reqs) (URL_TITLE base_url1 paramvalue) with
  | ConnectionError => (None, reqs ++ [URL_TITLE base_url1 paramvalue])
  | Response _ body =>
      scan_links base_url1 (getElementsByTagName (BeautifulSoup body) "a") None
                 (reqs ++ [URL_TITLE base_url1 paramvalue])
  end.

End Adapter.
End Blacklight.

(** ** The row loop of [__main__] *)

Module Pipeline.
Import Sqlite.

(** The lines the loop and the cache functions write to the log at level
    ERROR. *)
Inductive event : Type :=
| NotEnoughColumns (row : list string)
| MissingIsbn (row : list string)
| TooShort (original_isbn : string) (row : list string)
| Unfixable (row : list string)
| UnableToOpenSqlite
| UnableToOpenToAdd (values : list string)
| TableInsertError (values : list string)
| UnableToFindLcc (original_isbn fixed_isbn : string).

Definition LOC_Base : string := "http://lx2.loc.gov:210/LCDB?".

(** The source names in the order of the chain. *)
Definition adapter_order : list string :=
  ["OCLC"; "Harvard"; "LofC"; "Stanford"; "Yale"; "JHU"; "Columbia"; "Cornell";
   "PennState"; "NCSU"; "UMichigan"; "UWisc"; "IndianaU"; "Duke"].

Section Run.

(** The remote services, whatever a call to an adapter can read or change. *)
Variable World : Type.

Variable v : variant.
Variable fix_isbn : string -> option string.

(** The four adapter functions; each returns an LCC, [None], or raises. *)
Variable get_oclc_data : string -> string -> World -> res (option string) * World.
Variable harvard_get : string -> World -> res (option string) * World.
Variable loc_search : string -> string -> World -> res (option string) * World.
Variable get_blacklight : string -> string -> string -> World -> res (option string) * World.

(** The settings of the run: main.py reads them from its form, lcc_simple.py
    fixes them to 2, 0 and 0.  [outchoice] 1 is the mode that repeats the
    input row; [colchoice] counts columns from 0. *)
Variable outchoice : Z.
Variable colchoice : Z.
Variable lineskip : Z.

(** The globals of [__main__] and the files it writes.  [calls] is the only
    field the scripts do not have: it records, in order, the source names of
    the adapters that were invoked.  [source] has no value in the scripts
    until its first assignment; it is read only where [lcc] is truthy, after
    an assignment in the same row. *)
Record state : Type := mkState {
  db : dbfile;
  world : World;
  out : list (list string);
  log : list event;
  calls : list string;
  lcc : option string;
  source : string
}.

(** Statements: a state transformer that returns or raises. *)
Definition M (A : Type) : Type := state -> res A * state.

Definition ret {A} (a : A) : M A := fun st => (Ret a, st).

Definition bind {A B} (m : M A) (k : A -> M B) : M B :=
  fun st =>
    match m st with
    | (Ret a, st') => k a st'
    | (Raise e, st') => (Raise e, st')
    end.

Notation "x <- m ;; k" := (bind m (fun x => k))
  (at level 61, m at next level, right associativity).
Notation "m ;; k" := (bind m (fun _ => k))
  (at level 61, right associativity).

Definition raise {A} (e : exn) : M A := fun st => (Raise e, st).

Definition get : M state := fun st => (Ret st, st).

Definition infologger_error (e : event) : M unit :=
  fun st => (Ret tt, mkState st.(db) st.(world) st.(out) (st.(log) ++ [e])
                             st.(calls) st.(lcc) st.(source)).

(** [writer.writerow(newdata)] and [result.flush()] *)
Definition writerow (newdata : list string) : M unit :=
  fun st => (Ret tt, mkState st.(db) st.(world) (st.(out) ++ [newdata]) st.(log)
                             st.(calls) st.(lcc) st.(source)).

Definition set_lcc (l : option string) : M unit :=
  fun st => (Ret tt, mkState st.(db) st.(world) st.(out) st.(log)
                             st.(calls) l st.(source)).

Definition set_source (s : string) : M unit :=
  fun st => (Ret tt, mkState st.(db) st.(world) st.(out) st.(log)
                             st.(calls) st.(lcc) s).

Definition set_db (f : dbfile) : M unit :=
  fun st => (Ret tt, mkState f st.(world) st.(out) st.(log)
                             st.(calls) st.(lcc) st.(source)).

(** A call to an adapter: it runs on the world and is recorded in [calls]. *)
Definition invoke (name : string) (fetch : World -> res (option string) * World)
  : M (option string) :=
  fun st =>
    let (r, w) := fetch st.(world) in
    (r, mkState st.(db) w st.(out) st.(log) (st.(calls) ++ [name]) st.(lcc) st.(source)).

(** One link of the chain:
    [if not lcc: lcc = fetch(...); if lcc: source = name]. *)
Definition attempt (name : string) (fetch : World -> res (option string) * World) : M unit :=
  st <- get ;;
  if truthy st.(lcc) then ret tt
  else
    l <- invoke name fetch ;;
    set_lcc l ;;
    if truthy l then set_source name else ret tt.

(** The adapter chain, in the order of the script. *)
Definition chain (fixed_isbn : string) : M unit :=
  attempt "OCLC" (get_oclc_data "isbn" fixed_isbn) ;;
  attempt "Harvard" (harvard_get fixed_isbn) ;;
  attempt "LofC" (loc_search fixed_isbn LOC_Base) ;;
  attempt "Stanford" (get_blacklight "https://searchworks.stanford.edu" "Stanford" fixed_isbn) ;;
  attempt "Yale" (get_blacklight "https://search.library.yale.edu" "Yale" fixed_isbn) ;;
  attempt "JHU" (get_blacklight "https://catalyst.library.jhu.edu" "JHU" fixed_isbn) ;;
  attempt "Columbia" (get_blacklight "https://clio.columbia.edu" "Columbia" fixed_isbn) ;;
  attempt "Cornell" (get_blacklight "https://newcatalog.library.cornell.edu" "Cornell" fixed_isbn) ;;
  attempt "PennState" (get_blacklight "https://catalog.libraries.psu.edu" "PennState" fixed_isbn) ;;
  attempt "NCSU" (get_blacklight "https://catalog.lib.ncsu.edu" "NCSU" fixed_isbn) ;;
  attempt "UMichigan" (get_blacklight "https://search.lib.umich.edu" "UMichigan" fixed_isbn) ;;
  attempt "UWisc" (get_blacklight "https://search.library.wisc.edu" "UWisc" fixed_isbn) ;;
  attempt "IndianaU" (get_blacklight "https://iucat.iu.edu" "IndianaU" fixed_isbn) ;;
  attempt "Duke" (get_blacklight "https://find.library.duke.edu" "Duke" fixed_isbn).

(** The calls of the chain as a list, each with its source name. *)
Definition adapters (fixed_isbn : string)
  : list (string * (World -> res (option string) * World)) :=
  [("OCLC", get_oclc_data "isbn" fixed_isbn);
   ("Harvard", harvard_get fixed_isbn);
   ("LofC", loc_search fixed_isbn LOC_Base);
   ("Stanford", get_blacklight "https://searchworks.stanford.edu" "Stanford" fixed_isbn);
   ("Yale", get_blacklight "https://search.library.yale.edu" "Yale" fixed_isbn);
   ("JHU", get_blacklight "https://catalyst.library.jhu.edu" "JHU" fixed_isbn);
   ("Columbia", get_blacklight "https://clio.columbia.edu" "Columbia" fixed_isbn);
   ("Cornell", get_blacklight "https://newcatalog.library.cornell.edu" "Cornell" fixed_isbn);
   ("PennState", get_blacklight "https://catalog.libraries.psu.edu" "PennState" fixed_isbn);
   ("NCSU", get_blacklight "https://catalog.lib.ncsu.edu" "NCSU" fixed_isbn);
   ("UMichigan", get_blacklight "https://search.lib.umich.edu" "UMichigan" fixed_isbn);
   ("UWisc", get_blacklight "https://search.library.wisc.edu" "UWisc" fixed_isbn);
   ("IndianaU", get_blacklight "https://iucat.iu.edu" "IndianaU" fixed_isbn);
   ("Duke", get_blacklight "https://find.library.duke.edu" "Duke" fixed_isbn)].

(** A run of links, one after the other. *)
Fixpoint attempts (l : list (string * (World -> res (option string) * World))) : M unit :=
  match l with
  | [] => ret tt
  | (name, fetch) :: l' => attempt name fetch ;; attempts l'
  end.

(** The adapters of [l], called in turn from world [w], all return and none
    finds an LCC: the world they leave. *)
Fixpoint all_notfound (l : list (string * (World -> res (option string) * World)))
         (w : World) : option World :=
  match l with
  | [] => Some w
  | (_, fetch) :: l' =>
      match fetch w with
      | (Ret found, w') => if truthy found then None else all_notfound l' w'
      | (Raise _, _) => None
      end
  end.

(** [sqlite_search(sqllite_fullpath, fixed_isbn)] on the cache file. *)
Definition search (fixed_isbn : string) : M (option row) :=
  fun st =>
    match sqlite_search v st.(db) fixed_isbn with
    | (r, note, f) =>
        let lg := match note with
                  | UnableToOpen => st.(log) ++ [UnableToOpenSqlite]
                  | Quiet => st.(log)
                  end in
        (r, mkState f st.(world) st.(out) lg st.(calls) st.(lcc) st.(source))
    end.

(** The write-through: connect, [sql_tableinsert], commit, close. *)
Definition write_through (values : list string) : M unit :=
  st <- get ;;
  match connect st.(db) with
  | None => infologger_error (UnableToOpenToAdd values)
  | Some f =>
      let (ok, f') := sql_tableinsert f values in
      set_db f' ;;
      if ok then ret tt else infologger_error (TableInsertError values)
  end.

(** The text of [lcc] once it is known to be truthy. *)
Definition lcc_text (l : option string) : string :=
  match l with Some s => s | None => "" end.

(** The output row [newdata]. *)
Definition newdata (row : list string) (original_isbn fixed_isbn : string)
           (l : option string) (src : string) : list string :=
  if (outchoice =? 1)%Z then
    if truthy l then row ++ [lcc_text l; src] else row ++ [""; "NOTFOUND"]
  else
    if truthy l then [original_isbn; lcc_text l; fixed_isbn; src]
    else [original_isbn; ""; fixed_isbn; "NOTFOUND"].

(** [if sql_entry: lcc = sql_entry[1]; source = sql_entry[2]] *)
Definition use_entry (sql_entry : option row) : M unit :=
  match sql_entry with
  | Some r => set_lcc (Some (row_lc r)) ;; set_source (row_source r)
  | None => ret tt
  end.

(** "Finished looking, now to write out results": the output row, the
    write-through under [if lcc and not sql_entry] and the log line under
    [if not lcc]. *)
Definition write_results (row : list string) (original_isbn fixed_isbn : string)
           (sql_entry : option Sqlite.row) : M unit :=
  st <- get ;;
  writerow (newdata row original_isbn fixed_isbn st.(lcc) st.(source)) ;;
  (if truthy st.(lcc) && match sql_entry with None => true | Some _ => false end
   then write_through [fixed_isbn; lcc_text st.(lcc); st.(source)]
   else ret tt) ;;
  if truthy st.(lcc) then ret tt
  else infologger_error (UnableToFindLcc original_isbn fixed_isbn).

(** The [else] branch of [if not fixed_isbn]: cache, chain, results. *)
Definition resolve (row : list string) (original_isbn fixed_isbn : string) : M unit :=
  sql_entry <- search fixed_isbn ;;
  use_entry sql_entry ;;
  chain fixed_isbn ;;
  write_results row original_isbn fixed_isbn sql_entry.

(** From [fixed_isbn = fix_isbn(row[colchoice])] on. *)
Definition normalize (row : list string) (original_isbn : string) : M unit :=
  let fixed_isbn := fix_isbn original_isbn in
  if truthy fixed_isbn then resolve row original_isbn (lcc_text fixed_isbn)
  else
    infologger_error (Unfixable row) ;;
    if (outchoice =? 1)%Z then writerow (row ++ [""; ""]) else ret tt.

(** The body of [for row in reader]. *)
Definition process_row (row : list string) : M unit :=
  match row with
  | [] => ret tt
  | row0 :: _ =>
      set_lcc None ;;
      if (Z.of_nat (List.length row) <? colchoice - 1)%Z then
        infologger_error (NotEnoughColumns row)
      else if String.eqb row0 "" then
        infologger_error (MissingIsbn row) ;;
        if (outchoice =? 1)%Z then writerow (row ++ [""; ""]) else ret tt
      else
        match py_index row colchoice with
        | None => raise IndexError
        | Some original_isbn =>
            if String.length original_isbn <? 10 then
              infologger_error (TooShort original_isbn row) ;;
              if (outchoice =? 1)%Z then writerow (row ++ [""; ""])
              else normalize row original_isbn
            else normalize row original_isbn
        end
  end.

(** A data row whose ISBN was normalised: it has enough columns and a first
    field, its ISBN column holds [original_isbn], not too short to go on,
    and [fix_isbn] turns that into [fixed_isbn]. *)
Definition normalized (row : list string) (original_isbn fixed_isbn : string) : Prop :=
  (exists row0 rest, row = row0 :: rest /\ row0 <> "")
  /\ (Z.of_nat (List.length row) <? colchoice - 1)%Z = false
  /\ py_index row colchoice = Some original_isbn
  /\ (10 <= String.length original_isbn \/ outchoice <> 1%Z)
  /\ fix_isbn original_isbn = Some fixed_isbn
  /\ fixed_isbn <> "".

Fixpoint process_rows (rows : list (list string)) : M unit :=
  match rows with
  | [] => ret tt
  | row :: rows' => process_row row ;; process_rows rows'
  end.

(** The header lines: [next(reader)] for each, written out in repeat mode;
    the rest of the input is what the loop reads. *)
Fixpoint skip_lines (n : nat) (rows : list (list string)) : M (list (list string)) :=
  match n with
  | O => ret rows
  | S n' =>
      match rows with
      | [] => raise StopIteration
      | row1 :: rows' =>
          (if (outchoice =? 1)%Z then writerow row1 else ret tt) ;;
          skip_lines n' rows'
      end
  end.

(** What main.py does before it opens the files:
    [if not os.path.exists(sqllite_fullpath): sqlite_create(...)];
    lcc_simple.py has no such step. *)
Definition startup : M unit :=
  match v with
  | Simple => ret tt
  | Gui =>
      st <- get ;;
      if exists_file st.(db) then ret tt
      else
        match sqlite_create st.(db) with
        | (Ret _, f) => set_db f
        | (Raise e, _) => raise e
        end
  end.

(** The whole run on the rows of the input file. *)
Definition main (input : list (list string)) : M unit :=
  startup ;;
  rows <- skip_lines (Z.to_nat lineskip) input ;;
  process_rows rows.

End Run.

Arguments db {World} _.
Arguments world {World} _.
Arguments out {World} _.
Arguments log {World} _.
Arguments calls {World} _.
Arguments lcc {World} _.
Arguments source {World} _.
Arguments ret {World A} _ _.
Arguments bind {World A B} _ _ _.
Arguments raise {World A} _ _.
Arguments get {World} _.

End Pipeline.

(** ** The adapters wired to the row loop

    The two modelled adapters as the row loop calls them; the world is the
    list of URLs requested so far.  [loc_search] and [get_blacklight] stay
    parameters of the loop. *)

Module Wiring.
Import Json.

Section Wired.

Variable requote_uri : string -> option string.
Variable http_get : nat -> string -> http.
Variable parseString : string -> option Dom.node.
Variable json_loads : string -> option json.
Variable v : Sqlite.variant.
(** The interpreter's bound on nested calls. *)
Variable recursion_limit : nat.

Definition get_oclc_data (parmtype parmvalue : string) (w : list string)
  : res (option string) * list string :=
  Classify.get_oclc_data requote_uri http_get parseString recursion_limit parmtype parmvalue w.

(** The row loop carries a call number as text; [harvard_get] returns the
    [#text] of the record, a string in the records of the service, and any
    other JSON value is dropped here. *)
Definition harvard_get (m_isbn : string) (w : list string)
  : res (option string) * list string :=
  (match Harvard.harvard_get http_get json_loads v m_isbn (List.length w) with
   | Raise e => Raise e
   | Ret (Some (JStr s)) => Ret (Some s)
   | Ret _ => Ret None
   end,
   w ++ [Harvard.service_url m_isbn]).

End Wired.
End Wiring.

(** ** Stand-ins for the examples

    Mock services and a small normaliser on which the definitions are run. *)

Module Mock.
Import Dom Json Sqlite.

(** Keeps digits and [X]; the length decides whether it is an ISBN at all. *)
Fixpoint keep_isbn_chars (s : string) : string :=
  match s with
  | EmptyString => EmptyString
  | String c s' =>
      if isbn_char c then String c (keep_isbn_chars s') else keep_isbn_chars s'
  end.

Definition canonical (s : string) : string :=
  let t := keep_isbn_chars s in
  if (String.length t =? 10) || (String.length t =? 13) then t else "".

Definition is_isbn10 (s : string) : bool :=
  (String.length s =? 10) && canonical_isbn s.

Definition is_isbn13 (s : string) : bool :=
  (String.length s =? 13) && canonical_isbn s.

Definition get_isbnlike (s : string) : list string := [s].

Definition clean (l : list string) : string := String.concat "" l.

Definition fix_isbn : string -> option string :=
  fix_isbn (list string) (@List.length string) canonical is_isbn10 is_isbn13
           get_isbnlike clean canonical.

Definition requote_uri (s : string) : option string := Some s.

(** A Classify document for "multiple works", one work with LCC. *)
Definition multiple_works (wi : string) : node :=
  Element "classify" []
    [Element "response" [("code", "4")] [];
     Element "works" []
       [Element "work" [("schemes", "DDC LCC"); ("wi", wi)] []]].

(** A Classify document for a single work with its most popular LCC. *)
Definition single_work (nsfa : string) : node :=
  Element "classify" []
    [Element "response" [("code", "2")] [];
     Element "recommendations" []
       [Element "lcc" [] [Element "mostPopular" [("nsfa", nsfa)] []]]].

(** The mock parser knows two texts. *)
Definition parseString (wq : string) : option node :=
  if String.eqb wq "<multiple/>" then Some (multiple_works "1151002411")
  else if String.eqb wq "<single/>" then Some (single_work "PS3623.A59")
  else None.

(** A Classify service that answers every request with "multiple works". *)
Definition always_multiple (n : nat) (url : string) : http :=
  Response true "<multiple/>".

(** A Classify service that answers the ISBN with "multiple works" and the
    work identifier with a single work. *)
Definition multiple_then_single (n : nat) (url : string) : http :=
  if n =? 0 then Response true "<multiple/>" else Response true "<single/>".

(** No service answers: every request fails to connect. *)
Definition offline (n : nat) (url : string) : http := ConnectionError.

(** Classify answers with a page that is not XML. *)
Definition not_xml (n : nat) (url : string) : http := Response true "<html>".

Definition json_loads (text : string) : option json := None.

(** Adapters that find nothing, and the world they do not touch. *)
Definition none2 (a b : string) (w : list string) : res (option string) * list string :=
  (Ret None, w).
Definition none3 (a b c : string) (w : list string) : res (option string) * list string :=
  (Ret None, w).

(** The run of one of the scripts against a network where nothing answers,
    with the modelled Classify and Harvard adapters. *)
Definition offline_run (v : variant) (outchoice : Z) (input : list (list string))
  : Pipeline.M (list string) unit :=
  Pipeline.main (list string) v fix_isbn
    (Wiring.get_oclc_data requote_uri offline parseString 1000)
    (Wiring.harvard_get offline json_loads v)
    none2 none3 outchoice 0 0 input.

(** A run with mock adapters: [oclc] and [harvard] are what the first two
    return, the others find nothing. *)
Definition mock_oclc (answer : option string) (a b : string) (w : list string)
  : res (option string) * list string := (Ret answer, w).
Definition mock_harvard (answer : res (option string)) (a : string) (w : list string)
  : res (option string) * list string := (answer, w).

Definition mock_loc (answer : option string) (a b : string) (w : list string)
  : res (option string) * list string := (Ret answer, w).

(** One row of main.py against mock adapters. *)
Definition row_run (oclc : option string) (harvard : res (option string))
           (loc : option string) (outchoice colchoice : Z) (row : list string)
  : Pipeline.M (list string) unit :=
  Pipeline.process_row (list string) Gui fix_isbn (mock_oclc oclc) (mock_harvard harvard)
                       (mock_loc loc) none3 outchoice colchoice row.

(** A whole run against mock adapters of which only Classify may find
    something. *)
Definition run (v : variant) (oclc : option string) (outchoice : Z)
           (input : list (list string)) : Pipeline.M (list string) unit :=
  Pipeline.main (list string) v fix_isbn (mock_oclc oclc) (mock_harvard (Ret None))
                (mock_loc None) none3 outchoice 0 0 input.

Definition start (f : dbfile) : Pipeline.state (list string) :=
  Pipeline.mkState (list string) f [] [] [] [] None "".

End Mock.

(** ** The four adapters on one network

    [loc_search] and [get_blacklight] as the row loop calls them, on the
    world of the wired Classify and Harvard adapters, and the run of a
    script over all four. *)

Module Remote.
Import Json.

Section Wired.

Variable searchretrieve : nat -> string -> string -> option (list json).
Variable http_get : nat -> string -> http.
Variable BeautifulSoup : string -> Dom.node.

(** As for [harvard_get], the row loop carries a call number as text; the
    world records the endpoint that was asked. *)
Definition loc_search (isbn sru_base : string) (w : list string)
  : res (option string) * list string :=
  (match Loc.loc_search searchretrieve isbn sru_base (List.length w) with
   | Raise e => Raise e
   | Ret (Some (JStr s)) => Ret (Some s)
   | Ret _ => Ret None
   end,
   w ++ [sru_base]).

Definition get_blacklight (base_url1 institution paramvalue : string) (w : list string)
  : res (option string) * list string :=
  let (calltext, w') :=
    Blacklight.get_blacklight http_get BeautifulSoup base_url1 institution paramvalue w in
  (Ret calltext, w').

End Wired.

(** [__main__] of a script with its four adapter functions. *)
Definition script (requote_uri : string -> option string) (http_get : nat -> string -> http)
           (parseString : string -> option Dom.node) (json_loads : string -> option json)
           (searchretrieve : nat -> string -> string -> option (list json))
           (BeautifulSoup : string -> Dom.node) (recursion_limit : nat)
           (v : Sqlite.variant) (fix_isbn : string -> option string)
           (outchoice colchoice lineskip : Z) (input : list (list string))
  : Pipeline.M (list string) unit :=
  Pipeline.main (list string) v fix_isbn
    (Wiring.get_oclc_data requote_uri http_get parseString recursion_limit)
    (Wiring.harvard_get http_get json_loads v)
    (loc_search searchretrieve)
    (get_blacklight http_get BeautifulSoup)
    outchoice colchoice lineskip input.

End Remote.

(** ** Pages for the examples

    A Blacklight catalogue of two records. *)

Module MockPages.
Import Dom.

(** A result page with two hits and a named anchor between them. *)
Definition results_with_anchor : node :=
  Element "[document]" []
    [Element "html" []
       [Element "a" [("href", "/catalog/101")] [Text "Station eleven"];
        Element "a" [("name", "more")] [];
        Element "a" [("href", "/catalog/102")] [Text "Station eleven (large print)"]]].

(** A result page with two hits and a link to the help page. *)
Definition results : node :=
  Element "[document]" []
    [Element "html" []
       [Element "a" [("href", "/catalog/101")] [Text "Station eleven"];
        Element "a" [("href", "/help")] [Text "Help"];
        Element "a" [("href", "/catalog/102")] [Text "Station eleven (large print)"]]].

(** The librarian view of a record with one field 050. *)
Definition librarian_view : node :=
  Element "[document]" []
    [Element "div" [("class", "field marc_field")]
       [Element "div" [("class", "tag_ind")] [Text "050 00"];
        Element "div" [("class", "subfields")] [Text "a| PS3623.A59"]]].

Definition BeautifulSoup (body : string) : node :=
  if String.eqb body "<results-with-anchor/>" then results_with_anchor
  else if String.eqb body "<results/>" then results
  else librarian_view.

(** The catalogue answers the first request with the page [first] and
    every later one with a librarian view. *)
Definition catalogue (first : string) (n : nat) (url : string) : http :=
  if n =? 0 then Response true first else Response true "<record/>".

(** An SRU endpoint that cannot be reached: [searchretrieve] raises. *)
Definition sru_offline (n : nat) (sru_base isbn : string) : option (list Json.json) :=
  None.

End MockPages.

(** * Properties *)

(** ** Strings *)

Lemma append_assoc (a b c : string) : ((a ++ b) ++ c = a ++ (b ++ c))%string.
Proof.
  induction a as [|x a IH]; simpl; [reflexivity | now rewrite IH].
Qed.

Lemma append_nil_r (a : string) : (a ++ "" = a)%string.
Proof.
  induction a as [|x a IH]; simpl; [reflexivity | now rewrite IH].
Qed.

Lemma length_append (a b : string) :
  String.length (a ++ b) = String.length a + String.length b.
Proof.
  induction a as [|x a IH]; simpl; [reflexivity | now rewrite IH].
Qed.

(** Right-nested appends with the literal heads computed. *)
Ltac norm_append := repeat (rewrite ?append_assoc; cbn [append]).

(** A character of an ISBN is neither a wildcard of LIKE nor a quote. *)
Lemma isbn_char_plain (c : ascii) :
  isbn_char c = true ->
  Ascii.eqb c "%" = false /\ Ascii.eqb c "_" = false /\ Ascii.eqb c "'" = false.
Proof.
  destruct c as [[] [] [] [] [] [] [] []]; intros H; try discriminate H;
    repeat split; reflexivity.
Qed.

(** Case folding does not identify two different ISBN characters. *)
Lemma tolower_isbn_char_inj (c d : ascii) :
  isbn_char c = true -> isbn_char d = true -> tolower c = tolower d -> c = d.
Proof.
  destruct c as [[] [] [] [] [] [] [] []]; intros Hc; try discriminate Hc;
    destruct d as [[] [] [] [] [] [] [] []]; intros Hd; try discriminate Hd;
    intros H; try reflexivity; discriminate H.
Qed.

Lemma lower_isbn_inj (a b : string) :
  forall_chars isbn_char a = true -> forall_chars isbn_char b = true ->
  lower a = lower b -> a = b.
Proof.
  revert b; induction a as [|c a IH]; intros [|d b] Ha Hb H; simpl in *;
    try reflexivity; try discriminate H.
  apply andb_true_iff in Ha as [Hc Ha]. apply andb_true_iff in Hb as [Hd Hb].
  injection H as H1 H2.
  f_equal; [now apply tolower_isbn_char_inj | now apply IH].
Qed.

Lemma is_digit_isbn_char (c : ascii) : is_digit c = true -> isbn_char c = true.
Proof. unfold isbn_char; intros ->; reflexivity. Qed.

Lemma forall_chars_digit_isbn (s : string) :
  forall_chars is_digit s = true -> forall_chars isbn_char s = true.
Proof.
  induction s as [|c s IH]; simpl; [reflexivity|].
  intros H; apply andb_true_iff in H as [Hc Hs].
  now rewrite (is_digit_isbn_char _ Hc), IH.
Qed.

(** Every character of a canonical ISBN is a digit or [X]. *)
Lemma canonical_isbn_chars (s : string) :
  canonical_isbn s = true -> forall_chars isbn_char s = true.
Proof.
  unfold canonical_isbn.
  destruct (Nat.eq_dec (String.length s) 10) as [E|N10].
  - rewrite E.
    do 10 (destruct s as [|? s]; [discriminate E|]).
    destruct s; [|discriminate E].
    cbn [substring forall_chars].
    intros H.
    apply andb_true_iff in H as [H _]. apply andb_true_iff in H as [H9 H1].
    repeat (apply andb_true_iff in H9 as [?%is_digit_isbn_char H9]).
    apply andb_true_iff in H1 as [H1 _].
    repeat (apply andb_true_iff; split; try assumption); try reflexivity.
  - destruct (Nat.eq_dec (String.length s) 13) as [E|N13].
    + rewrite E. intros H. apply andb_true_iff in H as [H _].
      now apply forall_chars_digit_isbn.
    + intros H.
      destruct (String.length s) as [|[|[|[|[|[|[|[|[|[|[|[|[|[|n]]]]]]]]]]]]]];
        try discriminate H; congruence.
Qed.

(** ** The cache functions *)

Module SqliteFacts.
Import Sqlite.

(** The statement [sql_tablecreate] sends declares three text columns and
    nothing else. *)
Lemma create_string_main :
  create_string "main" table_columns
  = "CREATE TABLE IF NOT EXISTS main (ISBN text,LC text,LCSource text)".
Proof. reflexivity. Qed.

Lemma no_unique_column :
  existsb (fun kv => column_is_unique (snd kv)) table_columns = false.
Proof. reflexivity. Qed.

Lemma rstrip_comma_snoc_comma (s : string) :
  rstrip_comma (s ++ ",") = rstrip_comma s.
Proof.
  induction s as [|c s IH]; simpl; [reflexivity | now rewrite IH].
Qed.

Lemma rstrip_comma_snoc (s : string) (c : ascii) :
  Ascii.eqb c "," = false ->
  rstrip_comma (s ++ String c "") = (s ++ String c "")%string.
Proof.
  intros Hc; induction s as [|d s IH]; simpl.
  - now rewrite Hc.
  - rewrite IH. destruct s; reflexivity.
Qed.

(** Reading back an escaped value: the literal ends at the quote that closes
    it, whatever follows, as long as that is not one more quote. *)
Lemma read_literal_escape (x rest : string) :
  prefix "'" rest = false ->
  read_literal (sql_escape x ++ String "'" rest) = Some (x, rest).
Proof.
  intros Hrest; induction x as [|c x IH]; simpl.
  - destruct rest as [|d rest]; [reflexivity|].
    simpl in Hrest. destruct d as [[] [] [] [] [] [] [] []]; try reflexivity.
    destruct rest; discriminate Hrest.
  - destruct (Ascii.eqb c "'") eqn:E.
    + apply Ascii.eqb_eq in E; subst c. simpl. now rewrite IH.
    + simpl. rewrite E. now rewrite IH.
Qed.

(** The text of the three values, as [sql_tableinsert] builds it. *)
Lemma format_string_three (i l s : string) :
  format_string [i; l; s]
  = ("'" ++ sql_escape i ++ "','" ++ sql_escape l ++ "','" ++ sql_escape s ++ "')")%string.
Proof.
  unfold format_string.
  assert (E : fold_left (fun acc v => acc ++ "'" ++ sql_escape v ++ "',")%string [i; l; s] ""
              = ((("'" ++ sql_escape i ++ "','" ++ sql_escape l ++ "','" ++ sql_escape s)
                  ++ "'") ++ ",")%string).
  { cbn [fold_left]. norm_append. reflexivity. }
  rewrite E, rstrip_comma_snoc_comma, rstrip_comma_snoc by reflexivity.
  norm_append. reflexivity.
Qed.

Lemma parse_values_more (fuel : nat) (x rest : string) :
  parse_values (S fuel) (String "'" (sql_escape x ++ String "'" (String "," rest)))
  = match parse_values fuel rest with
    | Some vs => Some (x :: vs)
    | None => None
    end.
Proof.
  cbn [parse_values]. rewrite Ascii.eqb_refl.
  rewrite read_literal_escape by reflexivity. reflexivity.
Qed.

Lemma parse_values_last (fuel : nat) (x : string) :
  parse_values (S fuel) (String "'" (sql_escape x ++ String "'" ")")) = Some [x].
Proof.
  cbn [parse_values]. rewrite Ascii.eqb_refl.
  rewrite read_literal_escape by reflexivity. reflexivity.
Qed.

(** sqlite reads the three values back unchanged: the doubling of quotes is
    a correct escape. *)
Lemma parse_format_three (fuel : nat) (i l s : string) :
  3 <= fuel ->
  parse_values fuel (format_string [i; l; s]) = Some [i; l; s].
Proof.
  intros Hf. rewrite format_string_three.
  destruct fuel as [|[|[|fuel]]]; try lia.
  change ("'" ++ sql_escape i ++ "','" ++ sql_escape l ++ "','" ++ sql_escape s ++ "')")%string
    with (String "'" (sql_escape i ++ String "'" (String ","
           (String "'" (sql_escape l ++ String "'" (String ","
             (String "'" (sql_escape s ++ String "'" ")")))))))).
  now rewrite !parse_values_more, parse_values_last.
Qed.

(** [sql_tableinsert] on an existing table appends the row, always. *)
Lemma sql_tableinsert_appends (rows : list row) (i l s : string) :
  sql_tableinsert (Table rows) [i; l; s] = (true, Table (rows ++ [(i, l, s)])).
Proof.
  unfold sql_tableinsert.
  rewrite parse_format_three.
  - reflexivity.
  - rewrite format_string_three. simpl. rewrite length_append. simpl. lia.
Qed.

(** Without the table nothing is written. *)
Lemma sql_tableinsert_no_table (f : dbfile) (values : list string) :
  (forall rows, f <> Table rows) -> sql_tableinsert f values = (false, f).
Proof.
  destruct f; intros H; try reflexivity. now destruct (H rows).
Qed.

(** The pattern of a lookup with an ISBN is the ISBN. *)
Lemma where_pattern_plain (isbn : string) :
  forall_chars isbn_char isbn = true -> where_pattern isbn = Some isbn.
Proof.
  unfold where_pattern. intros H.
  assert (G : read_literal (isbn ++ "';") = Some (isbn, ";")).
  { induction isbn as [|c x IH]; [reflexivity|].
    simpl in H. apply andb_true_iff in H as [Hc Hx].
    destruct (isbn_char_plain _ Hc) as (_ & _ & Hq).
    simpl. rewrite Hq, (IH Hx). reflexivity. }
  now rewrite G.
Qed.

(** With an ISBN as pattern, LIKE is equality up to ASCII letter case. *)
Lemma sqlite_like_plain (pat s : string) :
  forall_chars isbn_char pat = true ->
  sqlite_like pat s = String.eqb (lower pat) (lower s).
Proof.
  revert s; induction pat as [|p pat IH]; intros s H.
  - destruct s; reflexivity.
  - simpl in H. apply andb_true_iff in H as [Hp Hpat].
    destruct (isbn_char_plain _ Hp) as (H1 & H2 & _).
    simpl. rewrite H1, H2.
    destruct s as [|c s]; [reflexivity|].
    simpl. rewrite (IH _ Hpat).
    now destruct (Ascii.eqb (tolower p) (tolower c)).
Qed.

(** The lookup for a canonical ISBN, spelled out. *)
Lemma sqlite_search_table (v : variant) (rows : list row) (i : string) :
  canonical_isbn i = true ->
  sqlite_search v (Table rows) i
  = (Ret (find (fun r => String.eqb (lower i) (lower (row_isbn r))) rows), Quiet, Table rows).
Proof.
  intros Hc. pose proof (canonical_isbn_chars _ Hc) as Hi.
  unfold sqlite_search. simpl. rewrite (where_pattern_plain _ Hi).
  do 2 f_equal. f_equal.
  induction rows as [|r rows IH]; [reflexivity|].
  simpl. rewrite (sqlite_like_plain _ _ Hi), IH. reflexivity.
Qed.

Lemma find_some_split {A} (p : A -> bool) (l : list A) (x : A) :
  find p l = Some x ->
  exists pre post, l = pre ++ x :: post /\ p x = true
                   /\ forall y, In y pre -> p y = false.
Proof.
  induction l as [|a l IH]; simpl; [discriminate|].
  destruct (p a) eqn:E.
  - intros [= ->]. exists [], l. repeat split; [assumption | intros y []].
  - intros H. destruct (IH H) as (pre & post & -> & Hx & Hpre).
    exists (a :: pre), post. repeat split; [assumption|].
    intros y [<-|Hy]; [assumption | now apply Hpre].
Qed.

Lemma find_none_iff {A} (p : A -> bool) (l : list A) :
  find p l = None <-> forall y, In y l -> p y = false.
Proof.
  split.
  - intros H y Hy. exact (find_none p l H y Hy).
  - induction l as [|a l IH]; intros H; [reflexivity|].
    simpl. rewrite (H a (or_introl eq_refl)). apply IH.
    intros y Hy. apply H. now right.
Qed.

Lemma find_app {A} (p : A -> bool) (l1 l2 : list A) :
  find p (l1 ++ l2) = match find p l1 with Some x => Some x | None => find p l2 end.
Proof.
  induction l1 as [|a l1 IH]; simpl; [reflexivity|].
  now destruct (p a).
Qed.

(** Round trip on a table that has no row for the ISBN yet. *)
Lemma insert_then_lookup (v : variant) (rows : list row) (i l s : string) :
  canonical_isbn i = true ->
  (forall r, In r rows -> lower (row_isbn r) <> lower i) ->
  lookup v (snd (sql_tableinsert (Table rows) [i; l; s])) i = Ret (Some (i, l, s)).
Proof.
  intros Hc Hnew. rewrite sql_tableinsert_appends. unfold lookup; simpl snd.
  rewrite (sqlite_search_table v _ _ Hc). simpl. f_equal.
  rewrite find_app.
  assert (E : find (fun r => String.eqb (lower i) (lower (row_isbn r))) rows = None).
  { apply find_none_iff. intros r Hr. apply String.eqb_neq.
    intros E. now apply (Hnew r Hr). }
  rewrite E. simpl. unfold row_isbn; simpl. now rewrite String.eqb_refl.
Qed.

(** A later row for the same ISBN does not change what the lookup returns. *)
Lemma lookup_keeps_first (v : variant) (rows : list row) (i : string) (r r' : row) :
  canonical_isbn i = true ->
  lookup v (Table rows) i = Ret (Some r) ->
  lookup v (Table (rows ++ [r'])) i = Ret (Some r).
Proof.
  intros Hc. unfold lookup. rewrite !(sqlite_search_table v _ _ Hc). simpl.
  intros [= H]. now rewrite find_app, H.
Qed.

End SqliteFacts.

(** ** The cache store: lookup and insert *)

Section CacheStore.
Import Sqlite SqliteFacts.

(** C8, amended: for every table and every canonical ISBN [i], the lookup
    never raises, returns a record exactly when the table holds a row whose
    ISBN equals [i] up to ASCII letter case, and the record it returns is the
    first such row; when the ISBNs of the table are canonical themselves,
    this is equality with [i]. *)
Theorem lookup_matches_up_to_case (v : variant) (rows : list row) (i : string) :
  canonical_isbn i = true ->
  (exists o, lookup v (Table rows) i = Ret o)
  /\ ((exists r, lookup v (Table rows) i = Ret (Some r))
      <-> (exists r, In r rows /\ lower (row_isbn r) = lower i))
  /\ (forall r, lookup v (Table rows) i = Ret (Some r) ->
        lower (row_isbn r) = lower i
        /\ exists pre post, rows = pre ++ r :: post
             /\ forall q, In q pre -> lower (row_isbn q) <> lower i)
  /\ (Forall (fun r => canonical_isbn (row_isbn r) = true) rows ->
        ((exists r, lookup v (Table rows) i = Ret (Some r))
         <-> (exists r, In r rows /\ row_isbn r = i))
        /\ forall r, lookup v (Table rows) i = Ret (Some r) -> row_isbn r = i).
Proof.
  intros Hc. unfold lookup. rewrite (sqlite_search_table v rows i Hc). simpl.
  set (p := fun r : row => String.eqb (lower i) (lower (row_isbn r))).
  assert (Hsome : forall r, Ret (find p rows) = Ret (Some r) ->
            lower (row_isbn r) = lower i
            /\ exists pre post, rows = pre ++ r :: post
                 /\ forall q, In q pre -> lower (row_isbn q) <> lower i).
  { intros r [= H]. destruct (find_some_split p rows r H) as (pre & post & E & Hr & Hpre).
    split; [symmetry; now apply String.eqb_eq|].
    exists pre, post. split; [assumption|].
    intros q Hq E'. specialize (Hpre q Hq). unfold p in Hpre.
    rewrite E', String.eqb_refl in Hpre. discriminate. }
  assert (Hiff : (exists r, Ret (find p rows) = Ret (Some r))
                 <-> (exists r, In r rows /\ lower (row_isbn r) = lower i)).
  { split.
    - intros [r H]. exists r. destruct (Hsome r H) as (E & pre & post & -> & _).
      split; [|assumption]. apply in_or_app. right. now left.
    - intros (r & Hr & E). destruct (find p rows) as [r'|] eqn:F; [now exists r'|].
      pose proof (find_none p rows F r Hr) as N. unfold p in N.
      rewrite E, String.eqb_refl in N. discriminate. }
  split; [now eexists|]. split; [exact Hiff|]. split; [exact Hsome|].
  intros Hall.
  assert (Hexact : forall r, In r rows -> lower (row_isbn r) = lower i -> row_isbn r = i).
  { intros r Hr E. rewrite Forall_forall in Hall.
    apply lower_isbn_inj; try assumption; apply canonical_isbn_chars; auto. }
  split.
  - rewrite Hiff. split; intros (r & Hr & E); exists r; split; auto.
    now rewrite E.
  - intros r H. destruct (Hsome r H) as (E & pre & post & Hrows & _).
    apply Hexact; [|assumption]. rewrite Hrows. apply in_or_app. right. now left.
Qed.

(** A lookup on a concrete table. *)
Lemma lookup_matches_up_to_case_witness :
  canonical_isbn "9780143127741" = true
  /\ exists o, lookup Gui (Table [("9780143127741", "PS3623.A59", "OCLC")]) "9780143127741" = Ret o.
Proof.
  split; [reflexivity|].
  apply (lookup_matches_up_to_case Gui [("9780143127741", "PS3623.A59", "OCLC")] "9780143127741").
  reflexivity.
Defined.

(** C8 as stated fails: the ISBN [080442957X] is canonical, the table holds
    no row with that ISBN, and the lookup returns the row stored under
    [080442957x]. *)
Lemma lookup_not_exact :
  canonical_isbn "080442957X" = true
  /\ (forall r, In r [("080442957x", "PZ3", "OCLC")] -> row_isbn r <> "080442957X")
  /\ lookup Gui (Table [("080442957x", "PZ3", "OCLC")]) "080442957X"
     = Ret (Some ("080442957x", "PZ3", "OCLC")).
Proof.
  split; [reflexivity|]. split; [|reflexivity].
  intros r [<-|[]]. discriminate.
Qed.

(** C4 at the failing input: a second insert for an ISBN the table already
    holds, with another LCC, is not a no-op.  The table ends with two rows
    for that ISBN; the lookup still returns the first. *)
Theorem second_insert_appends :
  let first := ["9780143127741"; "PS3623.A59"; "OCLC"] in
  let second := ["9780143127741"; "QA76.9"; "Harvard"] in
  let f1 := snd (sql_tableinsert (Table []) first) in
  let f2 := snd (sql_tableinsert f1 second) in
  f1 = Table [("9780143127741", "PS3623.A59", "OCLC")]
  /\ f2 = Table [("9780143127741", "PS3623.A59", "OCLC");
                 ("9780143127741", "QA76.9", "Harvard")]
  /\ lookup Gui f2 "9780143127741" = Ret (Some ("9780143127741", "PS3623.A59", "OCLC")).
Proof. repeat split. Qed.

(** The same for every table and every pair of inserts. *)
Lemma insert_twice (rows : list row) (i l s l' s' : string) :
  snd (sql_tableinsert (snd (sql_tableinsert (Table rows) [i; l; s])) [i; l'; s'])
  = Table (rows ++ [(i, l, s); (i, l', s')]).
Proof.
  rewrite sql_tableinsert_appends. cbn [snd].
  rewrite sql_tableinsert_appends. cbn [snd].
  now rewrite <- app_assoc.
Qed.

End CacheStore.

(** ** The Classify adapter *)

Module ClassifyFacts.
Import Dom Classify.

Section Facts.

Variable requote_uri : string -> option string.
Variable http_get : nat -> string -> http.
Variable parseString : string -> option node.

Local Abbreviation get_oclc_data := (get_oclc_data requote_uri http_get parseString).
Local Abbreviation follows := (follows parseString).

(** One call: it stops where the response does not send it on, and calls
    itself with [wi] and the work identifier where it does. *)
Lemma get_oclc_data_step (depth : nat) (parmtype parmvalue : string) (reqs : list string) :
  get_oclc_data (S depth) parmtype parmvalue reqs
  = match requote_uri parmvalue with
    | None => (Ret None, reqs)
    | Some quoted =>
        match follows (http_get (List.length reqs) (nexturl parmtype quoted)) with
        | Some m_wi =>
            match get_oclc_data depth "wi" m_wi (reqs ++ [nexturl parmtype quoted]) with
            | (Raise e, reqs2) => (Raise e, reqs2)
            | (Ret lcc_value, reqs2) => (Ret (finish lcc_value), reqs2)
            end
        | None => get_oclc_data 1 parmtype parmvalue reqs
        end
    end.
Proof.
  cbn [Classify.get_oclc_data]. unfold Classify.follows.
  destruct (requote_uri parmvalue) as [quoted|]; [|reflexivity].
  destruct (http_get (List.length reqs) (nexturl parmtype quoted)) as [|[] wq];
    try reflexivity.
  destruct (parseString wq) as [xdoc|]; [|reflexivity].
  destruct (doc_getElementsByTagName xdoc "response") as [|response ?]; [reflexivity|].
  destruct (attribute response "code") as [respCode|]; [|reflexivity].
  destruct (String.eqb respCode "0" || String.eqb respCode "2"); [reflexivity|].
  destruct (String.eqb respCode "4"); [|reflexivity].
  destruct (doc_getElementsByTagName xdoc "works") as [|works ?]; [reflexivity|].
  destruct (first_lcc_work (getElementsByTagName works "work")); reflexivity.
Qed.

(** The loops over attributes raise nothing but [KeyError]. *)
Lemma attribute_raises (n : node) (k : string) (e : exn) :
  attribute n k = Raise e -> e = KeyError.
Proof.
  destruct n as [t attrs cs|d]; simpl; [|congruence].
  destruct (assoc k attrs); congruence.
Qed.

Lemma most_popular_raises (ms : list node) (l : option string) (e : exn) :
  most_popular ms l = Raise e -> e = KeyError.
Proof.
  revert l; induction ms as [|m ms IH]; intros l; simpl; [discriminate|].
  destruct (attribute m "nsfa") eqn:Ha.
  - apply IH.
  - intros [= <-]. now apply attribute_raises in Ha.
Qed.

(** A call that is not sent on does not nest. *)
Lemma get_oclc_data_flat (parmtype parmvalue quoted : string) (reqs : list string) :
  requote_uri parmvalue = Some quoted ->
  follows (http_get (List.length reqs) (nexturl parmtype quoted)) = None ->
  fst (get_oclc_data 1 parmtype parmvalue reqs) <> Raise RecursionError
  /\ snd (get_oclc_data 1 parmtype parmvalue reqs) = reqs ++ [nexturl parmtype quoted].
Proof.
  intros Hq. cbn [Classify.get_oclc_data]. unfold Classify.follows. rewrite Hq.
  destruct (http_get (List.length reqs) (nexturl parmtype quoted)) as [|[] wq];
    try (intros _; split; [discriminate | reflexivity]).
  destruct (parseString wq) as [xdoc|]; [|intros _; split; [discriminate | reflexivity]].
  destruct (doc_getElementsByTagName xdoc "response") as [|response ?];
    [intros _; split; [discriminate | reflexivity]|].
  destruct (attribute response "code") as [respCode|e] eqn:Hcode.
  2:{ intros _. apply attribute_raises in Hcode; subst e.
      split; [discriminate | reflexivity]. }
  destruct (String.eqb respCode "0" || String.eqb respCode "2").
  - intros _.
    destruct (doc_getElementsByTagName xdoc "recommendations") as [|recommendations ?];
      [split; [discriminate | reflexivity]|].
    destruct (0 <? List.length (doc_getElementsByTagName xdoc "lcc"));
      [|split; [discriminate | reflexivity]].
    destruct (getElementsByTagName recommendations "lcc") as [|local_lcc ?];
      [split; [discriminate | reflexivity]|].
    destruct (most_popular (getElementsByTagName local_lcc "mostPopular") None)
      as [found|e] eqn:Hm; [split; [discriminate | reflexivity]|].
    apply most_popular_raises in Hm; subst e. split; [discriminate | reflexivity].
  - destruct (String.eqb respCode "4"); [|intros _; split; [discriminate | reflexivity]].
    destruct (doc_getElementsByTagName xdoc "works") as [|works ?];
      [intros _; split; [discriminate | reflexivity]|].
    intros ->. split; [discriminate | reflexivity].
Qed.

(** Brings two readings of the same option together. *)
Ltac agree :=
  repeat match goal with
         | H : Some _ = None |- _ => discriminate H
         | H : None = Some _ |- _ => discriminate H
         | H : Some _ = Some _ |- _ => injection H as H; subst
         | H1 : ?a = Some _, H2 : ?a = _ |- _ => rewrite H1 in H2
         end.

(** A call whose response does not send it on is the same at every depth,
    does not exhaust the depth and makes at most one request. *)
Lemma last_call (depth : nat) (parmtype parmvalue : string) (reqs : list string) :
  (forall quoted, requote_uri parmvalue = Some quoted ->
     follows (http_get (List.length reqs) (nexturl parmtype quoted)) = None) ->
  get_oclc_data (S depth) parmtype parmvalue reqs = get_oclc_data 1 parmtype parmvalue reqs
  /\ fst (get_oclc_data 1 parmtype parmvalue reqs) <> Raise RecursionError
  /\ exists extra, snd (get_oclc_data 1 parmtype parmvalue reqs) = reqs ++ extra
                   /\ List.length extra <= 1.
Proof.
  intros H. rewrite (get_oclc_data_step depth).
  destruct (requote_uri parmvalue) as [quoted|] eqn:Hq.
  - rewrite (H quoted eq_refl). split; [reflexivity|].
    destruct (get_oclc_data_flat parmtype parmvalue quoted reqs Hq (H quoted eq_refl))
      as [Hne Hreqs].
    split; [exact Hne|]. exists [nexturl parmtype quoted]. split; [exact Hreqs | simpl; lia].
  - cbn [Classify.get_oclc_data]. rewrite Hq. split; [reflexivity|].
    split; [discriminate|]. exists []. split; [now rewrite app_nil_r | simpl; lia].
Qed.

(** A call at the last depth whose response sends it on raises. *)
Lemma nested_call (parmtype parmvalue quoted m_wi : string) (reqs : list string) :
  requote_uri parmvalue = Some quoted ->
  follows (http_get (List.length reqs) (nexturl parmtype quoted)) = Some m_wi ->
  get_oclc_data 1 parmtype parmvalue reqs
  = (Raise RecursionError, reqs ++ [nexturl parmtype quoted]).
Proof.
  intros Hq Hf. rewrite (get_oclc_data_step 0), Hq, Hf. reflexivity.
Qed.

(** C9, amended: the nested call is made with [wi] and the work identifier,
    and it nests once more exactly when its own response is again a
    "multiple works" response that lists a work with LCC; get_oclc_data
    exceeds depth two in that case and in no other.  Otherwise the result is
    the same at every larger depth and at most two requests are made, the
    second one with [wi]. *)
Theorem oclc_depth_two (i : string) (reqs : list string) :
  (fst (get_oclc_data 2 "isbn" i reqs) = Raise RecursionError
   <-> exists quoted m_wi quoted2 m_wi2,
         requote_uri i = Some quoted
         /\ follows (http_get (List.length reqs) (nexturl "isbn" quoted)) = Some m_wi
         /\ requote_uri m_wi = Some quoted2
         /\ follows (http_get (S (List.length reqs)) (nexturl "wi" quoted2)) = Some m_wi2)
  /\ (fst (get_oclc_data 2 "isbn" i reqs) <> Raise RecursionError ->
        (forall d, get_oclc_data (2 + d) "isbn" i reqs = get_oclc_data 2 "isbn" i reqs)
        /\ exists extra,
             snd (get_oclc_data 2 "isbn" i reqs) = reqs ++ extra
             /\ List.length extra <= 2
             /\ forall u, nth_error extra 1 = Some u -> exists quoted2, u = nexturl "wi" quoted2).
Proof.
  assert (Hlen : forall u, List.length (reqs ++ [u]) = S (List.length reqs)).
  { intros u. rewrite length_app. simpl. lia. }
  destruct (requote_uri i) as [quoted|] eqn:Hq.
  2:{ (* the URL cannot be built: no request *)
      assert (E : forall d, get_oclc_data (S d) "isbn" i reqs = (Ret None, reqs)).
      { intros d. cbn [Classify.get_oclc_data]. now rewrite Hq. }
      split.
      - rewrite E. split; [discriminate|]. intros (? & ? & ? & ? & H & _). discriminate H.
      - intros _. split; [intros d; cbn [Nat.add]; now rewrite !E|].
        exists []. rewrite E. simpl. rewrite app_nil_r.
        repeat split; [lia|]. intros u H; discriminate H. }
  destruct (follows (http_get (List.length reqs) (nexturl "isbn" quoted))) as [m_wi|] eqn:Hf.
  2:{ (* the first response is final *)
      destruct (last_call 1 "isbn" i reqs) as (E2 & Hne & extra & Hreqs & Hl).
      { intros q' Hq'. rewrite Hq in Hq'. injection Hq' as <-. exact Hf. }
      split.
      - rewrite E2. split; [intros H; now destruct (Hne H)|].
        intros (q' & m & ? & ? & Hq' & Hf' & _). agree.
      - intros _. split.
        + intros d. cbn [Nat.add]. rewrite E2.
          apply (last_call (S d) "isbn" i reqs).
          intros q' Hq'. rewrite Hq in Hq'. injection Hq' as <-. exact Hf.
        + exists extra. rewrite E2. split; [exact Hreqs|]. split; [lia|].
          intros u Hu. destruct extra as [|? [|? ?]]; simpl in *; try discriminate Hu; lia. }
  (* the first response sends the call on *)
  assert (E : forall d, get_oclc_data (S (S d)) "isbn" i reqs
                        = match get_oclc_data (S d) "wi" m_wi (reqs ++ [nexturl "isbn" quoted]) with
                          | (Raise e, reqs2) => (Raise e, reqs2)
                          | (Ret lcc_value, reqs2) => (Ret (finish lcc_value), reqs2)
                          end).
  { intros d. now rewrite (get_oclc_data_step (S d)), Hq, Hf. }
  destruct (requote_uri m_wi) as [quoted2|] eqn:Hq2.
  2:{ assert (E1 : forall d, get_oclc_data (S d) "wi" m_wi (reqs ++ [nexturl "isbn" quoted])
                             = (Ret None, reqs ++ [nexturl "isbn" quoted])).
      { intros d. cbn [Classify.get_oclc_data]. now rewrite Hq2. }
      split.
      - rewrite E, E1. split; [discriminate|].
        intros (q' & m & q2' & ? & Hq' & Hf' & Hq2' & _). agree.
      - intros _. split; [intros d; cbn [Nat.add]; now rewrite !E, !E1|].
        exists [nexturl "isbn" quoted]. rewrite E, E1. simpl.
        repeat split; [lia|]. intros u H; discriminate H. }
  destruct (follows (http_get (S (List.length reqs)) (nexturl "wi" quoted2)))
    as [m_wi2|] eqn:Hf2.
  - (* the second response sends the call on again *)
    assert (E1 : get_oclc_data 1 "wi" m_wi (reqs ++ [nexturl "isbn" quoted])
                 = (Raise RecursionError,
                    (reqs ++ [nexturl "isbn" quoted]) ++ [nexturl "wi" quoted2])).
    { apply (nested_call "wi" m_wi quoted2 m_wi2); [exact Hq2 | now rewrite Hlen]. }
    split.
    + rewrite E, E1. split; [|intros _; reflexivity]. intros _.
      exists quoted, m_wi, quoted2, m_wi2. repeat split; assumption.
    + rewrite E, E1. intros H. now destruct H.
  - (* the second response is final *)
    destruct (last_call 0 "wi" m_wi (reqs ++ [nexturl "isbn" quoted]))
      as (_ & Hne & extra & Hreqs & Hl).
    { intros q' Hq'. rewrite Hq2 in Hq'. injection Hq' as <-. now rewrite Hlen. }
    assert (Hextra : snd (get_oclc_data 1 "wi" m_wi (reqs ++ [nexturl "isbn" quoted]))
                     = (reqs ++ [nexturl "isbn" quoted]) ++ [nexturl "wi" quoted2]).
    { apply (get_oclc_data_flat "wi" m_wi quoted2 _ Hq2). now rewrite Hlen. }
    assert (Hgood : fst (get_oclc_data 2 "isbn" i reqs) <> Raise RecursionError).
    { rewrite E. destruct (get_oclc_data 1 "wi" m_wi (reqs ++ [nexturl "isbn" quoted]))
        as [[l|e] r2]; cbn [fst] in *; [discriminate | exact Hne]. }
    split.
    + split; [intros H; now destruct (Hgood H)|].
      intros (q' & m & q2' & m2 & Hq' & Hf' & Hq2' & Hf2'). agree.
    + intros _. split.
      * intros d. cbn [Nat.add]. rewrite !E.
        destruct (last_call d "wi" m_wi (reqs ++ [nexturl "isbn" quoted])) as (-> & _).
        { intros q' Hq'. rewrite Hq2 in Hq'. injection Hq' as <-. now rewrite Hlen. }
        reflexivity.
      * exists [nexturl "isbn" quoted; nexturl "wi" quoted2]. rewrite E.
        destruct (get_oclc_data 1 "wi" m_wi (reqs ++ [nexturl "isbn" quoted]))
          as [[l|e] r2]; cbn [snd] in Hextra; subst r2; cbn [snd];
          rewrite <- app_assoc; cbn [app];
          (split; [reflexivity|]); (split; [simpl; lia|]);
          intros u [= <-]; now exists quoted2.
Qed.

(** A response that is not well-formed XML raises out of the adapter: the
    call of [parseString] is under no [try]. *)
Lemma get_oclc_data_not_xml (depth : nat) (parmtype parmvalue quoted wq : string)
      (reqs : list string) :
  requote_uri parmvalue = Some quoted ->
  http_get (List.length reqs) (nexturl parmtype quoted) = Response true wq ->
  parseString wq = None ->
  get_oclc_data (S depth) parmtype parmvalue reqs
  = (Raise ExpatError, reqs ++ [nexturl parmtype quoted]).
Proof.
  intros Hq Hr Hp. cbn [Classify.get_oclc_data]. now rewrite Hq, Hr, Hp.
Qed.

End Facts.

(** Against a service that always answers "multiple works", no depth is
    enough. *)
Lemma always_multiple_exceeds (depth : nat) (parmtype parmvalue : string) (reqs : list string) :
  fst (get_oclc_data Mock.requote_uri Mock.always_multiple Mock.parseString
                     depth parmtype parmvalue reqs) = Raise RecursionError.
Proof.
  revert parmtype parmvalue reqs.
  induction depth as [|depth IH]; intros parmtype parmvalue reqs; [reflexivity|].
  rewrite get_oclc_data_step.
  change (Mock.requote_uri parmvalue) with (Some parmvalue). cbv beta iota.
  change (follows Mock.parseString
            (Mock.always_multiple (List.length reqs) (nexturl parmtype parmvalue)))
    with (Some "1151002411").
  cbv beta iota.
  specialize (IH "wi" "1151002411" (reqs ++ [nexturl parmtype parmvalue])).
  destruct (get_oclc_data Mock.requote_uri Mock.always_multiple Mock.parseString
              depth "wi" "1151002411" (reqs ++ [nexturl parmtype parmvalue]))
    as [[l|e] r2]; cbn [fst] in *; [discriminate IH | exact IH].
Qed.

(** Depth two on a service that answers the work identifier with a single
    work. *)
Lemma oclc_depth_two_witness :
  fst (get_oclc_data Mock.requote_uri Mock.multiple_then_single Mock.parseString
                     2 "isbn" "9780143127741" []) <> Raise RecursionError
  /\ forall d,
       get_oclc_data Mock.requote_uri Mock.multiple_then_single Mock.parseString
                     (2 + d) "isbn" "9780143127741" []
       = get_oclc_data Mock.requote_uri Mock.multiple_then_single Mock.parseString
                       2 "isbn" "9780143127741" [].
Proof.
  assert (H : fst (get_oclc_data Mock.requote_uri Mock.multiple_then_single Mock.parseString
                                 2 "isbn" "9780143127741" []) <> Raise RecursionError)
    by (vm_compute; discriminate).
  split; [exact H|].
  destruct (oclc_depth_two Mock.requote_uri Mock.multiple_then_single Mock.parseString
                           "9780143127741" []) as [_ H2].
  destruct (H2 H) as [H3 _]. exact H3.
Defined.

(** C9 as stated fails: when the service answers the work identifier with
    "multiple works" again, the call made with [wi] calls itself once more
    (the third request below is its nested call), and no depth bounds the
    recursion. *)
Lemma oclc_wi_call_nests_again :
  get_oclc_data Mock.requote_uri Mock.always_multiple Mock.parseString
                3 "isbn" "9780143127741" []
  = (Raise RecursionError,
     ["http://classify.oclc.org/classify2/Classify?isbn=9780143127741&summary=true";
      "http://classify.oclc.org/classify2/Classify?wi=1151002411&summary=true";
      "http://classify.oclc.org/classify2/Classify?wi=1151002411&summary=true"])
  /\ forall depth,
       fst (get_oclc_data Mock.requote_uri Mock.always_multiple Mock.parseString
                          depth "isbn" "9780143127741" []) = Raise RecursionError.
Proof.
  split; [reflexivity|]. intros depth. apply always_multiple_exceeds.
Qed.

End ClassifyFacts.

(** ** The Harvard adapter *)

Module HarvardFacts.
Import Json Harvard Sqlite.

(** When [json_query] returns [None] (no connection, a bad status, a body
    that is not JSON), lcc_simple.py returns [None] and main.py raises on
    [record_data['items']]. *)
Lemma harvard_get_none (http_get : nat -> string -> http)
      (json_loads : string -> option json) (m_isbn : string) (n : nat) :
  json_query http_get json_loads m_isbn n = Ret None ->
  harvard_get http_get json_loads Simple m_isbn n = Ret None
  /\ harvard_get http_get json_loads Gui m_isbn n = Raise TypeError.
Proof.
  intros H. unfold harvard_get. rewrite H. split; reflexivity.
Qed.

Lemma json_query_offline (http_get : nat -> string -> http)
      (json_loads : string -> option json) (m_isbn : string) (n : nat) :
  http_get n (service_url m_isbn) = ConnectionError ->
  json_query http_get json_loads m_isbn n = Ret None.
Proof.
  intros H. unfold json_query. now rewrite H.
Qed.

(** lcc_simple.py's [harvard_get] raises only past its probe of [items]:
    never when that lookup fails. *)
Lemma harvard_get_simple_guard (http_get : nat -> string -> http)
      (json_loads : string -> option json) (m_isbn : string) (n : nat) (e : exn) :
  (forall r, json_query http_get json_loads m_isbn n = Ret r ->
             getitem r "items" = Raise e) ->
  harvard_get http_get json_loads Simple m_isbn n = Ret None.
Proof.
  intros H. unfold harvard_get.
  destruct (json_query http_get json_loads m_isbn n) as [r|]; [|reflexivity].
  now rewrite (H r eq_refl).
Qed.

End HarvardFacts.

(** ** The normaliser *)

Section NormalizerFacts.

Variable isbnlike : Type.
Variable len_isbnlike : isbnlike -> nat.
Variable canonical : string -> string.
Variable is_isbn10 : string -> bool.
Variable is_isbn13 : string -> bool.
Variable get_isbnlike : string -> isbnlike.
Variable clean : isbnlike -> string.
Variable get_canonical_isbn : string -> string.

Local Abbreviation fix_isbn' :=
  (fix_isbn isbnlike len_isbnlike canonical is_isbn10 is_isbn13
            get_isbnlike clean get_canonical_isbn).
Local Abbreviation valid' := (valid is_isbn10 is_isbn13).

Lemma long_not_empty (s : string) : 10 <= String.length s -> String.eqb s "" = false.
Proof.
  destruct s; simpl; [lia | reflexivity].
Qed.

(** The stages of [fix_isbn] in one expression. *)
Lemma fix_isbn_unfold (isbn : string) :
  fix_isbn' isbn
  = if valid' (canonical isbn) then Some (canonical isbn)
    else if String.length (canonical isbn) <? 10 then None
    else if len_isbnlike (get_isbnlike isbn) <? 10 then None
    else if String.length (clean (get_isbnlike isbn)) <? 10 then None
    else if String.length (get_canonical_isbn (clean (get_isbnlike isbn))) <? 10 then None
    else if valid' (get_canonical_isbn (clean (get_isbnlike isbn)))
         then Some (get_canonical_isbn (clean (get_isbnlike isbn)))
         else None.
Proof.
  unfold fix_isbn, valid.
  destruct (in_10_13 (String.length (canonical isbn))
            && isgood is_isbn10 is_isbn13 (canonical isbn)); [reflexivity|].
  destruct (String.length (canonical isbn) <? 10); [reflexivity|].
  destruct (len_isbnlike (get_isbnlike isbn) <? 10); [reflexivity|].
  destruct (String.length (clean (get_isbnlike isbn)) <? 10); [reflexivity|].
  destruct (Nat.ltb_spec (String.length (get_canonical_isbn (clean (get_isbnlike isbn)))) 10)
    as [L|L]; [reflexivity|].
  rewrite (long_not_empty _ L).
  destruct (in_10_13 (String.length (get_canonical_isbn (clean (get_isbnlike isbn)))));
    [|reflexivity].
  now destruct (isgood is_isbn10 is_isbn13 (get_canonical_isbn (clean (get_isbnlike isbn)))).
Qed.

Lemma valid_long (s : string) : valid' s = true -> 10 <= String.length s.
Proof.
  unfold valid, in_10_13. intros H. apply andb_true_iff in H as [H _].
  apply orb_true_iff in H as [H|H]; apply Nat.eqb_eq in H; lia.
Qed.


End NormalizerFacts.


(** ** The row loop *)

Module PipelineFacts.
Import Sqlite Pipeline.

Section Facts.

Variable World : Type.
Variable v : variant.
Variable fix_isbn : string -> option string.
Variable get_oclc_data : string -> string -> World -> res (option string) * World.
Variable harvard_get : string -> World -> res (option string) * World.
Variable loc_search : string -> string -> World -> res (option string) * World.
Variable get_blacklight : string -> string -> string -> World -> res (option string) * World.
Variable outchoice : Z.
Variable colchoice : Z.
Variable lineskip : Z.

Local Abbreviation state := (Pipeline.state World).
Local Abbreviation mkState := (Pipeline.mkState World).
Local Abbreviation fetcher := (World -> res (option string) * World)%type.
Local Abbreviation attempt := (Pipeline.attempt World).
Local Abbreviation attempts := (Pipeline.attempts World).
Local Abbreviation all_notfound := (Pipeline.all_notfound World).
Local Abbreviation adapters :=
  (Pipeline.adapters World get_oclc_data harvard_get loc_search get_blacklight).
Local Abbreviation chain :=
  (Pipeline.chain World get_oclc_data harvard_get loc_search get_blacklight).
Local Abbreviation search := (Pipeline.search World v).
Local Abbreviation write_through := (Pipeline.write_through World).
Local Abbreviation newdata := (Pipeline.newdata outchoice).
Local Abbreviation use_entry := (Pipeline.use_entry World).
Local Abbreviation write_results := (Pipeline.write_results World outchoice).
Local Abbreviation resolve :=
  (Pipeline.resolve World v get_oclc_data harvard_get loc_search get_blacklight outchoice).
Local Abbreviation normalize :=
  (Pipeline.normalize World v fix_isbn get_oclc_data harvard_get loc_search
                      get_blacklight outchoice).
Local Abbreviation process_row :=
  (Pipeline.process_row World v fix_isbn get_oclc_data harvard_get loc_search
                        get_blacklight outchoice colchoice).
Local Abbreviation process_rows :=
  (Pipeline.process_rows World v fix_isbn get_oclc_data harvard_get loc_search
                         get_blacklight outchoice colchoice).
Local Abbreviation normalized := (Pipeline.normalized fix_isbn outchoice colchoice).
Local Abbreviation main :=
  (Pipeline.main World v fix_isbn get_oclc_data harvard_get loc_search
                 get_blacklight outchoice colchoice lineskip).

(** *** The chain *)

(** One link, spelled out. *)
Lemma attempt_eq (name : string) (fetch : fetcher) (st : state) :
  attempt name fetch st
  = if truthy (lcc st) then (Ret tt, st)
    else
      match fetch (world st) with
      | (Ret found, w) =>
          (Ret tt, mkState (db st) w (out st) (log st) (calls st ++ [name]) found
                           (if truthy found then name else source st))
      | (Raise e, w) =>
          (Raise e, mkState (db st) w (out st) (log st) (calls st ++ [name])
                            (lcc st) (source st))
      end.
Proof.
  unfold Pipeline.attempt, bind, get, invoke, set_lcc, set_source, ret.
  destruct (truthy (lcc st)); [reflexivity|].
  destruct (fetch (world st)) as [[found|e] w]; [|reflexivity].
  cbn. now destruct (truthy found).
Qed.

Lemma bind_ret_tt (m : M World unit) (st : state) :
  bind m (fun _ => ret tt) st = m st.
Proof.
  unfold bind, ret. now destruct (m st) as [[[]|e] st'].
Qed.

Lemma bind_ext {A B} (m : M World A) (k1 k2 : A -> M World B) :
  (forall a st, k1 a st = k2 a st) -> forall st, bind m k1 st = bind m k2 st.
Proof.
  intros H st. unfold bind. destruct (m st) as [[a|e] st']; [apply H | reflexivity].
Qed.

(** The chain of the script is the run of its adapters in order. *)
Lemma chain_attempts (fixed_isbn : string) (st : state) :
  chain fixed_isbn st = attempts (adapters fixed_isbn) st.
Proof.
  unfold Pipeline.chain, Pipeline.adapters. cbn [Pipeline.attempts].
  revert st. repeat (apply bind_ext; intros _).
  intros st. symmetry. apply bind_ret_tt.
Qed.

Lemma adapters_names (fixed_isbn : string) :
  map fst (adapters fixed_isbn) = adapter_order.
Proof. reflexivity. Qed.

(** Once an LCC is known the remaining links do nothing. *)
Lemma attempts_resolved (l : list (string * fetcher)) (st : state) :
  truthy (lcc st) = true -> attempts l st = (Ret tt, st).
Proof.
  intros H. induction l as [|[name fetch] l IH]; [reflexivity|].
  cbn [Pipeline.attempts]. unfold bind. rewrite attempt_eq, H. exact IH.
Qed.

(** The first adapter that finds an LCC ends the chain: it and the ones
    before it were called, in order, and no other. *)
Lemma attempts_first_found (pre post : list (string * fetcher)) (name : string)
      (fetch : fetcher) (st : state) (w1 w2 : World) (found : option string) :
  truthy (lcc st) = false ->
  all_notfound pre (world st) = Some w1 ->
  fetch w1 = (Ret found, w2) ->
  truthy found = true ->
  attempts (pre ++ (name, fetch) :: post) st
  = (Ret tt, mkState (db st) w2 (out st) (log st)
                     (calls st ++ map fst pre ++ [name]) found name).
Proof.
  revert st. induction pre as [|[n f] pre IH]; intros st Hl Hpre Hf Ht.
  - cbn in Hpre. injection Hpre as <-.
    cbn [app Pipeline.attempts]. unfold bind. rewrite attempt_eq, Hl, Hf, Ht.
    now apply attempts_resolved.
  - cbn in Hpre. destruct (f (world st)) as [[r|e] w] eqn:E; [|discriminate].
    destruct (truthy r) eqn:Hr; [discriminate|].
    cbn [app Pipeline.attempts]. unfold bind. rewrite attempt_eq, Hl, E, Hr.
    rewrite IH; try assumption.
    cbn. now rewrite <- app_assoc.
Qed.

(** When no adapter finds an LCC all of them were called, in order. *)
Lemma attempts_none_found (l : list (string * fetcher)) (st : state) (w' : World) :
  truthy (lcc st) = false ->
  all_notfound l (world st) = Some w' ->
  exists found,
    truthy found = false
    /\ attempts l st
       = (Ret tt, mkState (db st) w' (out st) (log st)
                          (calls st ++ map fst l) found (source st)).
Proof.
  revert st. induction l as [|[n f] l IH]; intros st Hl Hall.
  - cbn in Hall. injection Hall as <-. exists (lcc st). split; [assumption|].
    cbn. rewrite app_nil_r. now destruct st.
  - cbn in Hall. destruct (f (world st)) as [[r|e] w] eqn:E; [|discriminate].
    destruct (truthy r) eqn:Hr; [discriminate|].
    cbn [Pipeline.attempts]. unfold bind. rewrite attempt_eq, Hl, E, Hr.
    destruct (IH (mkState (db st) w (out st) (log st) (calls st ++ [n]) r (source st)))
      as (found & Hf & ->); [assumption | assumption |].
    exists found. split; [assumption|]. cbn. now rewrite <- app_assoc.
Qed.

(** Whatever the adapters do, the calls made are an initial part of the
    order, and the chain touches neither the cache nor the files. *)
Lemma attempts_prefix (l : list (string * fetcher)) (st : state) :
  exists k,
    calls (snd (attempts l st)) = calls st ++ firstn k (map fst l)
    /\ db (snd (attempts l st)) = db st
    /\ out (snd (attempts l st)) = out st
    /\ log (snd (attempts l st)) = log st.
Proof.
  revert st. induction l as [|[n f] l IH]; intros st.
  - exists 0. cbn. now rewrite app_nil_r.
  - cbn [Pipeline.attempts]. unfold bind. rewrite attempt_eq.
    destruct (truthy (lcc st)) eqn:Hl.
    + rewrite attempts_resolved by assumption. exists 0. cbn. now rewrite app_nil_r.
    + destruct (f (world st)) as [[r|e] w].
      * destruct (IH (mkState (db st) w (out st) (log st) (calls st ++ [n]) r
                              (if truthy r then n else source st)))
          as (k & Hc & Hd & Ho & Hg).
        exists (S k). rewrite Hc, Hd, Ho, Hg. cbn. now rewrite <- app_assoc.
      * exists 1. cbn. repeat split. 
Qed.

(** *** The cache in the loop *)

(** The lookup leaves everything but the log and a file that did not exist
    as it was. *)
Lemma search_frame (isbn : string) (st : state) :
  fst (search isbn st) = lookup v (db st) isbn
  /\ world (snd (search isbn st)) = world st
  /\ out (snd (search isbn st)) = out st
  /\ calls (snd (search isbn st)) = calls st
  /\ lcc (snd (search isbn st)) = lcc st
  /\ source (snd (search isbn st)) = source st
  /\ rows_of (db (snd (search isbn st))) = rows_of (db st)
  /\ (forall rows, db st = Table rows <-> db (snd (search isbn st)) = Table rows).
Proof.
  unfold Pipeline.search, lookup, sqlite_search.
  destruct st as [d w o lg c l s]; cbn [db world out log calls lcc source].
  destruct d as [| | |rows]; cbn [connect].
  - destruct v; cbn; repeat split; intros H; discriminate H.
  - cbn; repeat split; intros H; discriminate H.
  - cbn; repeat split; intros H; discriminate H.
  - destruct (where_pattern isbn); cbn; repeat split; intros H; exact H.
Qed.

(** The write-through of a row of three values: it never raises, and it
    appends the row when the file holds the table. *)
Lemma write_through_frame (i l s : string) (st : state) :
  fst (write_through [i; l; s] st) = Ret tt
  /\ world (snd (write_through [i; l; s] st)) = world st
  /\ out (snd (write_through [i; l; s] st)) = out st
  /\ calls (snd (write_through [i; l; s] st)) = calls st
  /\ lcc (snd (write_through [i; l; s] st)) = lcc st
  /\ source (snd (write_through [i; l; s] st)) = source st
  /\ rows_of (db (snd (write_through [i; l; s] st)))
     = match db st with Table rows => rows ++ [(i, l, s)] | _ => [] end
  /\ (forall rows, db st = Table rows ->
        db (snd (write_through [i; l; s] st)) = Table (rows ++ [(i, l, s)])).
Proof.
  unfold Pipeline.write_through, bind, get.
  destruct st as [d w o lg c lc sc]; cbn [db world out log calls lcc source].
  destruct d as [| | |rows]; cbn [connect].
  - cbn; repeat split; intros rows H; discriminate H.
  - cbn; repeat split; intros rows H; discriminate H.
  - cbn; repeat split; intros rows H; discriminate H.
  - rewrite SqliteFacts.sql_tableinsert_appends. cbn. repeat split.
    intros rows' [= <-]. reflexivity.
Qed.

(** The results of a row as a state. *)
Lemma write_results_eq (row : list string) (o i : string) (e : option Sqlite.row)
      (st : state) :
  write_results row o i e st
  = let st1 := mkState (db st) (world st)
                       (out st ++ [newdata row o i (lcc st) (source st)])
                       (log st) (calls st) (lcc st) (source st) in
    let st2 := if truthy (lcc st) && match e with None => true | Some _ => false end
               then snd (write_through [i; lcc_text (lcc st); source st] st1)
               else st1 in
    (Ret tt,
     if truthy (lcc st) then st2
     else mkState (db st2) (world st2) (out st2) (log st2 ++ [UnableToFindLcc o i])
                  (calls st2) (lcc st2) (source st2)).
Proof.
  unfold Pipeline.write_results, bind, get, writerow.
  cbn [db world out log calls lcc source].
  destruct (truthy (lcc st) && match e with None => true | Some _ => false end) eqn:G.
  - pose proof (write_through_frame i (lcc_text (lcc st)) (source st)
                  (mkState (db st) (world st)
                           (out st ++ [newdata row o i (lcc st) (source st)])
                           (log st) (calls st) (lcc st) (source st))) as (H1 & _).
    destruct (write_through _ _) as [[[]|err] st2]; cbn [fst snd] in *; [|discriminate H1].
    apply andb_true_iff in G as [G _]. rewrite G. reflexivity.
  - unfold ret. cbn. destruct (truthy (lcc st)); reflexivity.
Qed.

(** The results of a row: one output row, and the write-through exactly
    under its guard. *)
Lemma write_results_frame (row : list string) (o i : string) (e : option Sqlite.row)
      (st : state) :
  fst (write_results row o i e st) = Ret tt
  /\ world (snd (write_results row o i e st)) = world st
  /\ calls (snd (write_results row o i e st)) = calls st
  /\ lcc (snd (write_results row o i e st)) = lcc st
  /\ source (snd (write_results row o i e st)) = source st
  /\ out (snd (write_results row o i e st))
     = out st ++ [newdata row o i (lcc st) (source st)]
  /\ (truthy (lcc st) && match e with None => true | Some _ => false end = false ->
      db (snd (write_results row o i e st)) = db st)
  /\ (truthy (lcc st) && match e with None => true | Some _ => false end = true ->
      rows_of (db (snd (write_results row o i e st)))
      = match db st with
        | Table rows => rows ++ [(i, lcc_text (lcc st), source st)]
        | _ => []
        end
      /\ forall rows, db st = Table rows ->
           db (snd (write_results row o i e st))
           = Table (rows ++ [(i, lcc_text (lcc st), source st)])).
Proof.
  rewrite write_results_eq. cbv zeta. cbn [fst snd].
  destruct (truthy (lcc st) && match e with None => true | Some _ => false end) eqn:G.
  - destruct (write_through_frame i (lcc_text (lcc st)) (source st)
                (mkState (db st) (world st)
                         (out st ++ [newdata row o i (lcc st) (source st)])
                         (log st) (calls st) (lcc st) (source st)))
      as (H1 & H2 & H3 & H4 & H5 & H6 & H7 & H8).
    cbn [db world out log calls lcc source] in *.
    apply andb_true_iff in G as [G _]. rewrite G.
    repeat split; try assumption; discriminate.
  - destruct (truthy (lcc st)); cbn [db world out log calls lcc source];
      repeat split; try discriminate; intros; reflexivity.
Qed.

(** *** A resolved row *)

(** A lookup that returns a record reads it from the table. *)
Lemma lookup_some_table (f : dbfile) (i : string) (r : Sqlite.row) :
  lookup v f i = Ret (Some r) -> exists rows, f = Table rows /\ In r rows.
Proof.
  unfold lookup, sqlite_search.
  destruct f as [| | |rows]; cbn [connect].
  - destruct v; discriminate.
  - discriminate.
  - discriminate.
  - destruct (where_pattern i) as [p|]; cbn; [|discriminate].
    intros [= H]. exists rows. split; [reflexivity|].
    now apply find_some in H.
Qed.

(** After a lookup that found nothing: the chain, then the results. *)
Lemma resolve_miss (row : list string) (o i : string) (st : state) :
  lookup v (db st) i = Ret None ->
  resolve row o i st
  = match chain i (snd (search i st)) with
    | (Ret _, st3) => write_results row o i None st3
    | (Raise e, st3) => (Raise e, st3)
    end.
Proof.
  intros H. destruct (search_frame i st) as (Hs & _). rewrite H in Hs.
  unfold Pipeline.resolve. unfold bind at 1.
  destruct (search i st) as [[e|x] st1]; cbn [fst snd] in *; [|discriminate Hs].
  injection Hs as ->. unfold bind at 1. cbn [Pipeline.use_entry]. unfold ret at 1.
  unfold bind. reflexivity.
Qed.

(** After a lookup that found a record: its LCC and source are taken, then
    the chain and the results. *)
Lemma resolve_hit (row : list string) (o i : string) (st : state) (r : Sqlite.row) :
  lookup v (db st) i = Ret (Some r) ->
  resolve row o i st
  = let st1 := snd (search i st) in
    match chain i (mkState (db st1) (world st1) (out st1) (log st1) (calls st1)
                           (Some (row_lc r)) (row_source r)) with
    | (Ret _, st3) => write_results row o i (Some r) st3
    | (Raise e, st3) => (Raise e, st3)
    end.
Proof.
  intros H. destruct (search_frame i st) as (Hs & _). rewrite H in Hs.
  unfold Pipeline.resolve. unfold bind at 1.
  destruct (search i st) as [[e|x] st1]; cbn [fst snd] in *; [|discriminate Hs].
  injection Hs as ->. unfold bind at 1. cbn [Pipeline.use_entry].
  unfold bind, set_lcc, set_source. reflexivity.
Qed.

(** The source of an LCC the chain found is the name of one of its
    adapters. *)
Lemma attempts_source (l : list (string * fetcher)) (st : state) :
  truthy (lcc st) = false ->
  truthy (lcc (snd (attempts l st))) = true ->
  In (source (snd (attempts l st))) (map fst l).
Proof.
  revert st. induction l as [|[n f] l IH]; intros st Hl.
  - cbn. rewrite Hl. discriminate.
  - cbn [Pipeline.attempts]. unfold bind. rewrite attempt_eq, Hl.
    destruct (f (world st)) as [[found|e] w].
    + destruct (truthy found) eqn:Hf.
      * rewrite attempts_resolved by exact Hf. intros _. now left.
      * intros H. right. now apply IH.
    + cbn. rewrite Hl. discriminate.
Qed.

(** C1: for an ISBN the cache has no record of, the adapters are tried in
    the order OCLC, Harvard, LofC, Stanford, Yale, JHU, Columbia, Cornell,
    PennState, NCSU, UMichigan, UWisc, IndianaU, Duke: the calls made are
    always an initial part of that order; when the adapters before one all
    return without an LCC and that one returns a non-empty LCC, exactly
    these were called, the row is resolved with that LCC and that adapter's
    name, and no later adapter was called; when all fourteen return without
    an LCC, all were called and the row is written as NOTFOUND. *)
Theorem adapters_tried_in_order (row : list string) (o i : string) (st : state) :
  lcc st = None ->
  lookup v (db st) i = Ret None ->
  (exists k, calls (snd (resolve row o i st)) = calls st ++ firstn k adapter_order)
  /\ (forall pre name fetch post w1 found w2,
        adapters i = pre ++ (name, fetch) :: post ->
        all_notfound pre (world st) = Some w1 ->
        fetch w1 = (Ret (Some found), w2) ->
        found <> "" ->
        fst (resolve row o i st) = Ret tt
        /\ calls (snd (resolve row o i st)) = calls st ++ map fst pre ++ [name]
        /\ world (snd (resolve row o i st)) = w2
        /\ lcc (snd (resolve row o i st)) = Some found
        /\ source (snd (resolve row o i st)) = name
        /\ out (snd (resolve row o i st))
           = out st ++ [if (outchoice =? 1)%Z then row ++ [found; name]
                        else [o; found; i; name]])
  /\ (forall w',
        all_notfound (adapters i) (world st) = Some w' ->
        fst (resolve row o i st) = Ret tt
        /\ calls (snd (resolve row o i st)) = calls st ++ adapter_order
        /\ world (snd (resolve row o i st)) = w'
        /\ truthy (lcc (snd (resolve row o i st))) = false
        /\ out (snd (resolve row o i st))
           = out st ++ [if (outchoice =? 1)%Z then row ++ [""; "NOTFOUND"]
                        else [o; ""; i; "NOTFOUND"]]).
Proof.
  intros Hl Hmiss.
  destruct (search_frame i st) as (_ & Hw & Ho & Hc & Hlc & Hsrc & _).
  rewrite (resolve_miss row o i st Hmiss), chain_attempts.
  set (st1 := snd (search i st)) in *.
  assert (Hl1 : truthy (lcc st1) = false) by now rewrite Hlc, Hl.
  split; [|split].
  - destruct (attempts_prefix (adapters i) st1) as (k & Hk & _).
    exists k. rewrite adapters_names, Hc in Hk.
    destruct (attempts (adapters i) st1) as [[[]|e] st3]; cbn [snd] in *; [|exact Hk].
    destruct (write_results_frame row o i None st3) as (_ & _ & -> & _). exact Hk.
  - intros pre name fetch post w1 found w2 Hsplit Hpre Hfetch Hne.
    assert (Ht : truthy (Some found) = true).
    { cbn. now apply negb_true_iff, String.eqb_neq. }
    rewrite Hsplit.
    rewrite (attempts_first_found pre post name fetch st1 w1 w2 (Some found));
      try assumption; [|now rewrite Hw].
    match goal with
    | |- context [write_results row o i None ?s] =>
        destruct (write_results_frame row o i None s)
          as (H1 & H2 & H3 & H4 & H5 & H6 & _)
    end.
    cbn [db world out log calls lcc source] in *.
    rewrite H1, H2, H3, H4, H5, H6, Hc, Ho.
    unfold Pipeline.newdata. rewrite Ht. cbn [lcc_text]. repeat split.
  - intros w' Hall.
    destruct (attempts_none_found (adapters i) st1 w') as (found & Hf & ->);
      [assumption | now rewrite Hw |].
    match goal with
    | |- context [write_results row o i None ?s] =>
        destruct (write_results_frame row o i None s)
          as (H1 & H2 & H3 & H4 & H5 & H6 & _)
    end.
    cbn [db world out log calls lcc source] in *.
    rewrite H1, H2, H3, H4, H6, Hc, Ho, adapters_names.
    unfold Pipeline.newdata. rewrite Hf. repeat split.
Qed.

(** C2, amended: when the lookup returns a record whose LCC is not empty,
    the row is resolved with the LCC and source of that record, no adapter
    is called, and the cache is left as it is. *)
Theorem cache_hit_skips_adapters (row : list string) (o i : string) (st : state)
        (r : Sqlite.row) :
  lookup v (db st) i = Ret (Some r) ->
  row_lc r <> "" ->
  fst (resolve row o i st) = Ret tt
  /\ calls (snd (resolve row o i st)) = calls st
  /\ world (snd (resolve row o i st)) = world st
  /\ lcc (snd (resolve row o i st)) = Some (row_lc r)
  /\ source (snd (resolve row o i st)) = row_source r
  /\ out (snd (resolve row o i st))
     = out st ++ [if (outchoice =? 1)%Z then row ++ [row_lc r; row_source r]
                  else [o; row_lc r; i; row_source r]]
  /\ db (snd (resolve row o i st)) = db st.
Proof.
  intros Hhit Hne.
  destruct (search_frame i st) as (_ & Hw & Ho & Hc & _ & _ & _ & Htab).
  destruct (lookup_some_table (db st) i r Hhit) as (rows & Hd & _).
  pose proof (proj1 (Htab rows) Hd) as Hd1.
  assert (Ht : truthy (Some (row_lc r)) = true).
  { cbn. now apply negb_true_iff, String.eqb_neq. }
  rewrite (resolve_hit row o i st r Hhit). cbv zeta.
  rewrite chain_attempts, attempts_resolved by exact Ht.
  match goal with
  | |- context [write_results row o i (Some r) ?s] =>
      destruct (write_results_frame row o i (Some r) s)
        as (H1 & H2 & H3 & H4 & H5 & H6 & H7 & _)
  end.
  cbn [db world out log calls lcc source] in *.
  rewrite H1, H2, H3, H4, H5, H6, H7, Hw, Ho, Hc, Hd1, Hd
    by (rewrite Ht; reflexivity).
  unfold Pipeline.newdata. rewrite Ht. cbn [lcc_text]. repeat split.
Qed.

(** [resolve] in one expression. *)
Lemma resolve_eq (row : list string) (o i : string) (st : state) :
  resolve row o i st
  = match search i st with
    | (Ret e, st1) =>
        match chain i (match e with
                       | Some r => mkState (db st1) (world st1) (out st1) (log st1)
                                           (calls st1) (Some (row_lc r)) (row_source r)
                       | None => st1
                       end) with
        | (Ret _, st3) => write_results row o i e st3
        | (Raise x, st3) => (Raise x, st3)
        end
    | (Raise x, st1) => (Raise x, st1)
    end.
Proof.
  unfold Pipeline.resolve. unfold bind at 1.
  destruct (search i st) as [[[r|]|x] st1]; try reflexivity.
Qed.

(** A row is written exactly when [resolve] returns, and it is the row of
    the final [lcc] and [source]. *)
Lemma resolve_out (row : list string) (o i : string) (st : state) :
  out (snd (resolve row o i st))
  = match fst (resolve row o i st) with
    | Ret _ => out st ++ [newdata row o i (lcc (snd (resolve row o i st)))
                                  (source (snd (resolve row o i st)))]
    | Raise _ => out st
    end.
Proof.
  rewrite resolve_eq.
  destruct (search_frame i st) as (_ & _ & Ho & _).
  destruct (search i st) as [[e|x] st1]; cbn [fst snd] in *; [|exact Ho].
  rewrite chain_attempts.
  match goal with
  | |- context [attempts ?l ?s] =>
      destruct (attempts_prefix l s) as (_ & _ & _ & Hout & _);
      destruct (attempts l s) as [[[]|x] st3]
  end; cbn [fst snd] in *.
  - destruct (write_results_frame row o i e st3) as (-> & _ & _ & -> & -> & -> & _).
    rewrite Hout. destruct e; cbn [out]; now rewrite Ho.
  - rewrite Hout. destruct e; cbn [out]; now rewrite Ho.
Qed.

(** From [fix_isbn] on, as a state. *)
Lemma normalize_eq (row : list string) (o : string) (st : state) :
  normalize row o st
  = if truthy (fix_isbn o) then resolve row o (lcc_text (fix_isbn o)) st
    else (Ret tt,
          mkState (db st) (world st)
                  (out st ++ if (outchoice =? 1)%Z then [row ++ [""; ""]] else [])
                  (log st ++ [Unfixable row]) (calls st) (lcc st) (source st)).
Proof.
  unfold Pipeline.normalize.
  destruct (truthy (fix_isbn o)); [reflexivity|].
  unfold bind, infologger_error, writerow, ret.
  destruct (outchoice =? 1)%Z; cbn; [reflexivity|].
  now rewrite app_nil_r.
Qed.

(** The body of the loop on a row with a first field, as a state. *)
Lemma process_row_eq (row0 : string) (rest : list string) (st : state) :
  process_row (row0 :: rest) st
  = let row := row0 :: rest in
    let st0 := fun lg => mkState (db st) (world st) (out st) lg (calls st) None (source st) in
    if (Z.of_nat (List.length row) <? colchoice - 1)%Z then
      (Ret tt, st0 (log st ++ [NotEnoughColumns row]))
    else if String.eqb row0 "" then
      (Ret tt,
       mkState (db st) (world st)
               (out st ++ if (outchoice =? 1)%Z then [row ++ [""; ""]] else [])
               (log st ++ [MissingIsbn row]) (calls st) None (source st))
    else
      match py_index row colchoice with
      | None => (Raise IndexError, st0 (log st))
      | Some o =>
          if String.length o <? 10 then
            if (outchoice =? 1)%Z then
              (Ret tt,
               mkState (db st) (world st) (out st ++ [row ++ [""; ""]])
                       (log st ++ [TooShort o row]) (calls st) None (source st))
            else normalize row o (st0 (log st ++ [TooShort o row]))
          else normalize row o (st0 (log st))
      end.
Proof.
  unfold Pipeline.process_row. cbv zeta.
  unfold bind at 1. unfold set_lcc at 1.
  cbn [db world out log calls lcc source].
  destruct (Z.of_nat (List.length (row0 :: rest)) <? colchoice - 1)%Z; [reflexivity|].
  destruct (String.eqb row0 "").
  { unfold bind, infologger_error, writerow, ret.
    destruct (outchoice =? 1)%Z; cbn; [reflexivity | now rewrite app_nil_r]. }
  destruct (py_index (row0 :: rest) colchoice) as [o|]; [|reflexivity].
  destruct (String.length o <? 10); [|reflexivity].
  unfold bind at 1. unfold infologger_error at 1.
  cbn [db world out log calls lcc source].
  destruct (outchoice =? 1)%Z; reflexivity.
Qed.

(** The ways through the body of the loop that do not reach [resolve], and
    the one that does. *)
Lemma process_row_cases (row : list string) (st : state) :
  (fst (process_row row st) = Ret tt
   /\ db (snd (process_row row st)) = db st
   /\ world (snd (process_row row st)) = world st
   /\ calls (snd (process_row row st)) = calls st
   /\ (forall o i, ~ normalized row o i))
  \/ (fst (process_row row st) = Raise IndexError
      /\ snd (process_row row st)
         = mkState (db st) (world st) (out st) (log st) (calls st) None (source st)
      /\ (forall o i, ~ normalized row o i))
  \/ (exists o i,
        normalized row o i
        /\ process_row row st
           = resolve row o i
               (mkState (db st) (world st) (out st)
                        (log st ++ if String.length o <? 10 then [TooShort o row] else [])
                        (calls st) None (source st))).
Proof.
  destruct row as [|row0 rest].
  { left. cbn. repeat split. intros o i ((? & ? & H & _) & _). discriminate H. }
  rewrite process_row_eq. cbv zeta.
  destruct (Z.of_nat (List.length (row0 :: rest)) <? colchoice - 1)%Z eqn:Hlen.
  { left. cbn. repeat split. intros o i (_ & H & _). congruence. }
  destruct (String.eqb_spec row0 "") as [->|Hrow0].
  { left. cbn. repeat split.
    intros o i ((? & ? & [= <- <-] & H) & _); now apply H. }
  destruct (py_index (row0 :: rest) colchoice) as [o|] eqn:Hidx.
  2:{ right. left. cbn. repeat split. intros o i (_ & _ & H & _). congruence. }
  assert (Hnorm : forall st1,
            db st1 = db st -> world st1 = world st -> calls st1 = calls st ->
            (10 <= String.length o \/ outchoice <> 1%Z) ->
            (fst (normalize (row0 :: rest) o st1) = Ret tt
             /\ db (snd (normalize (row0 :: rest) o st1)) = db st
             /\ world (snd (normalize (row0 :: rest) o st1)) = world st
             /\ calls (snd (normalize (row0 :: rest) o st1)) = calls st
             /\ forall o' i, ~ normalized (row0 :: rest) o' i)
            \/ (exists i,
                  normalized (row0 :: rest) o i
                  /\ normalize (row0 :: rest) o st1 = resolve (row0 :: rest) o i st1)).
  { intros st1 Hd Hw Hc Hok. rewrite normalize_eq.
    destruct (truthy (fix_isbn o)) eqn:Hfix.
    - right. destruct (fix_isbn o) as [i|] eqn:Hi; [|discriminate Hfix].
      exists i. split; [|reflexivity].
      repeat split; try assumption.
      + exists row0, rest. now split.
      + intros ->. discriminate Hfix.
    - left. cbn. repeat split; try assumption.
      intros o' i (_ & _ & Ho' & _ & Hi & Hne).
      rewrite Hidx in Ho'. injection Ho' as <-. rewrite Hi in Hfix.
      cbn in Hfix. apply negb_false_iff, String.eqb_eq in Hfix. contradiction. }
  destruct (Nat.ltb_spec (String.length o) 10) as [Hshort|Hlong].
  - destruct (Z.eqb_spec outchoice 1) as [Hone|Hout].
    + left. cbn. repeat split.
      intros o' i (_ & _ & Ho' & [H|H] & _); [|now apply H].
      rewrite Hidx in Ho'. injection Ho' as <-. lia.
    + match goal with
      | |- context [normalize _ _ ?s] =>
          destruct (Hnorm s eq_refl eq_refl eq_refl (or_intror Hout)) as [H|(i & Hn & E)]
      end; [left; exact H|].
      right. right. exists o, i. split; [exact Hn|].
      replace (String.length o <? 10) with true by (symmetry; now apply Nat.ltb_lt).
      exact E.
  - match goal with
    | |- context [normalize _ _ ?s] =>
        destruct (Hnorm s eq_refl eq_refl eq_refl (or_introl Hlong)) as [H|(i & Hn & E)]
    end; [left; exact H|].
    right. right. exists o, i. split; [exact Hn|].
    replace (String.length o <? 10) with false by (symmetry; now apply Nat.ltb_ge).
    rewrite app_nil_r. exact E.
Qed.

(** *** The write-through *)

(** What [resolve] does to the cache, from the start of a row: nothing,
    or, after a lookup that found nothing and a chain that found an LCC, one
    row appended to the table. *)
Lemma resolve_db (row : list string) (o i : string) (st : state) :
  lcc st = None ->
  (rows_of (db (snd (resolve row o i st))) = rows_of (db st)
   /\ (forall rows, db st = Table rows -> db (snd (resolve row o i st)) = Table rows)
   /\ (truthy (lcc (snd (resolve row o i st))) = false
       \/ lookup v (db st) i <> Ret None
       \/ fst (resolve row o i st) <> Ret tt
       \/ forall rows, db st <> Table rows))
  \/ (lookup v (db st) i = Ret None
      /\ fst (resolve row o i st) = Ret tt
      /\ truthy (lcc (snd (resolve row o i st))) = true
      /\ In (source (snd (resolve row o i st))) adapter_order
      /\ exists rows,
           db st = Table rows
           /\ db (snd (resolve row o i st))
              = Table (rows ++ [(i, lcc_text (lcc (snd (resolve row o i st))),
                                 source (snd (resolve row o i st)))])).
Proof.
  intros Hl. rewrite resolve_eq.
  destruct (search_frame i st) as (Hlook & _ & _ & _ & Hlc & _ & Hrows & Htab).
  destruct (search i st) as [[e|x] st1]; cbn [fst snd] in *.
  2:{ left. split; [exact Hrows|]. split; [apply Htab|]. right. right. left. discriminate. }
  rewrite chain_attempts.
  destruct e as [r|].
  - (* a record was found: the guard of the write-through is false *)
    left.
    match goal with
    | |- context [attempts ?l ?s] =>
        destruct (attempts_prefix l s) as (_ & _ & Hdb & _);
        destruct (attempts l s) as [[[]|x] st3]
    end; cbn [fst snd db] in *.
    + destruct (write_results_frame row o i (Some r) st3) as (_ & _ & _ & _ & _ & _ & H7 & _).
      rewrite H7 by apply andb_false_r. rewrite Hdb.
      split; [exact Hrows|]. split; [apply Htab|]. right. left. rewrite <- Hlook. discriminate.
    + rewrite Hdb. split; [exact Hrows|]. split; [apply Htab|].
      right. left. rewrite <- Hlook. discriminate.
  - (* nothing was found: the chain runs from [lcc = None] *)
    assert (Hl1 : truthy (lcc st1) = false) by now rewrite Hlc, Hl.
    destruct (attempts_prefix (adapters i) st1) as (_ & _ & Hdb & _).
    pose proof (attempts_source (adapters i) st1 Hl1) as Hsrc.
    rewrite adapters_names in Hsrc.
    destruct (attempts (adapters i) st1) as [[[]|x] st3]; cbn [fst snd] in *.
    2:{ left. rewrite Hdb. split; [exact Hrows|]. split; [apply Htab|].
        right. right. left. discriminate. }
    destruct (write_results_frame row o i None st3)
      as (H1 & _ & _ & H4 & H5 & _ & H7 & H8).
    rewrite andb_true_r in H7, H8.
    destruct (truthy (lcc st3)) eqn:Ht.
    + destruct (H8 eq_refl) as [Hr8 Ht8].
      destruct (db st1) as [| | |rows] eqn:Hd1.
      1-3: left; rewrite Hr8, Hdb, <- Hrows; cbn [rows_of];
        (split; [reflexivity|]);
        (split; [intros rows E; apply Htab in E; discriminate E|]);
        right; right; right; intros rows E; apply Htab in E; discriminate E.
      right. rewrite H1, H4, H5, Ht.
      split; [now rewrite <- Hlook|]. split; [reflexivity|]. split; [reflexivity|].
      split; [now apply Hsrc|].
      exists rows. split; [now apply Htab|].
      apply Ht8. exact Hdb.
    + left. rewrite H7, Hdb by reflexivity.
      split; [exact Hrows|]. split; [apply Htab|]. left. now rewrite H4.
Qed.

Lemma truthy_text (l : option string) : truthy l = true -> lcc_text l <> "".
Proof.
  destruct l as [x|]; cbn; [|discriminate].
  intros H. now apply negb_true_iff, String.eqb_neq in H.
Qed.

Lemma normalized_unique (row : list string) (o i o' i' : string) :
  normalized row o i -> normalized row o' i' -> o' = o /\ i' = i.
Proof.
  intros (_ & _ & Ho & _ & Hi & _) (_ & _ & Ho' & _ & Hi' & _).
  rewrite Ho in Ho'. injection Ho' as <-. rewrite Hi in Hi'. injection Hi' as <-.
  now split.
Qed.

(** What one row does to the rows of the cache. *)
Lemma process_row_rows (row : list string) (st : state) :
  rows_of (db (snd (process_row row st))) = rows_of (db st)
  \/ exists i l s,
       l <> "" /\ In s adapter_order
       /\ rows_of (db (snd (process_row row st))) = rows_of (db st) ++ [(i, l, s)].
Proof.
  destruct (process_row_cases row st)
    as [(_ & -> & _)|[(_ & -> & _)|(o & i & _ & ->)]]; try (left; reflexivity).
  match goal with
  | |- context [resolve row o i ?s] => destruct (resolve_db row o i s eq_refl)
      as [(H & _)|(_ & _ & Ht & Hs & rows & Hd & ->)]
  end; cbn [db] in *; [left; exact H|].
  right. eexists _, _, _. split; [exact (truthy_text _ Ht)|]. split; [exact Hs|].
  now rewrite Hd.
Qed.

Lemma recorded_adapter (i l s : string) :
  l <> "" -> In s adapter_order -> recorded (i, l, s).
Proof.
  intros Hl Hs. split; [exact Hl|]. cbn.
  intros ->. cbn in Hs. repeat (destruct Hs as [Hs|Hs]; [discriminate Hs|]). exact Hs.
Qed.

Lemma process_rows_recorded (rows : list (list string)) (st : state) :
  Forall recorded (rows_of (db st)) ->
  Forall recorded (rows_of (db (snd (process_rows rows st)))).
Proof.
  revert st. induction rows as [|row rows IH]; intros st H; [exact H|].
  cbn [Pipeline.process_rows]. unfold bind.
  assert (H' : Forall recorded (rows_of (db (snd (process_row row st))))).
  { destruct (process_row_rows row st) as [->|(i & l & s & Hl & Hs & ->)]; [exact H|].
    apply Forall_app. split; [exact H|]. constructor; [|constructor].
    now apply recorded_adapter. }
  destruct (process_row row st) as [[[]|e] st1]; cbn [snd] in *; [|exact H'].
  now apply IH.
Qed.

Lemma skip_lines_db (n : nat) (rows : list (list string)) (st : state) :
  db (snd (skip_lines World outchoice n rows st)) = db st.
Proof.
  revert rows st. induction n as [|n IH]; intros rows st; [reflexivity|].
  cbn [skip_lines]. destruct rows as [|row1 rows]; [reflexivity|].
  unfold bind at 1.
  destruct (outchoice =? 1)%Z; unfold writerow, ret; cbn [fst snd]; now rewrite IH.
Qed.

Lemma startup_rows (st : state) :
  rows_of (db (snd (startup World v st))) = rows_of (db st).
Proof.
  unfold startup. destruct v; [reflexivity|].
  unfold bind, get. destruct st as [d w o lg c l s]. cbn [db].
  destruct d; reflexivity.
Qed.

(** Over a whole run no row of the cache comes to record NOTFOUND or an
    empty LCC. *)
Lemma main_recorded (input : list (list string)) (st : state) :
  Forall recorded (rows_of (db st)) ->
  Forall recorded (rows_of (db (snd (main input st)))).
Proof.
  intros H. unfold Pipeline.main. unfold bind at 1.
  pose proof (startup_rows st) as Hs.
  destruct (startup World v st) as [[[]|e] st1]; cbn [snd] in *;
    [|now rewrite Hs].
  unfold bind.
  pose proof (skip_lines_db (Z.to_nat lineskip) input st1) as Hk.
  destruct (skip_lines World outchoice (Z.to_nat lineskip) input st1) as [[rows|e] st2];
    cbn [snd] in *; [|now rewrite Hk, Hs].
  apply process_rows_recorded. now rewrite Hk, Hs.
Qed.


(** C7: the row written for a data row whose ISBN was normalised is, in
    repeat mode (outchoice 1), the input row with the LCC and its source
    appended, or with an empty field and NOTFOUND when no LCC was found; in
    simple mode it is the original ISBN, the LCC, the fixed ISBN and the
    source, or the original ISBN, an empty field, the fixed ISBN and
    NOTFOUND.  Exactly that row is written when the row completes, and none
    when an adapter raises. *)
Theorem normalized_row_output (row : list string) (o i : string) (st : state) :
  normalized row o i ->
  out (snd (process_row row st))
  = match fst (process_row row st) with
    | Ret _ =>
        out st ++
        [match lcc (snd (process_row row st)) with
         | Some found =>
             if String.eqb found "" then
               if (outchoice =? 1)%Z then row ++ [""; "NOTFOUND"]
               else [o; ""; i; "NOTFOUND"]
             else
               if (outchoice =? 1)%Z
               then row ++ [found; source (snd (process_row row st))]
               else [o; found; i; source (snd (process_row row st))]
         | None =>
             if (outchoice =? 1)%Z then row ++ [""; "NOTFOUND"]
             else [o; ""; i; "NOTFOUND"]
         end]
    | Raise _ => out st
    end.
Proof.
  intros Hn.
  destruct (process_row_cases row st)
    as [(_ & _ & _ & _ & H)|[(_ & _ & H)|(o' & i' & Hn' & ->)]];
    [now destruct (H o i) | now destruct (H o i) |].
  destruct (normalized_unique row o i o' i' Hn Hn') as [-> ->].
  rewrite resolve_out. cbn [out].
  destruct (fst (resolve row o i _)); [|reflexivity].
  f_equal. f_equal. unfold Pipeline.newdata, truthy.
  destruct (lcc (snd (resolve row o i _))) as [found|]; [|reflexivity].
  cbn [lcc_text]. now destruct (String.eqb found ""); destruct (outchoice =? 1)%Z.
Qed.

(** C10, amended: a data row that passes the check on the number of columns
    and whose first field is empty is logged as a missing ISBN and written
    with two empty fields appended in repeat mode, not written in simple
    mode; nothing else happens, whatever the configured column holds: it is
    not read. *)
Theorem missing_isbn_is_first_field (rest : list string) (st : state) :
  (Z.of_nat (List.length ("" :: rest)) <? colchoice - 1)%Z = false ->
  process_row ("" :: rest) st
  = (Ret tt,
     mkState (db st) (world st)
             (out st ++ if (outchoice =? 1)%Z then [("" :: rest) ++ [""; ""]] else [])
             (log st ++ [MissingIsbn ("" :: rest)])
             (calls st) None (source st)).
Proof.
  intros H. rewrite process_row_eq. cbv zeta. now rewrite H.
Qed.

(** A row with too few columns is logged as such and dropped in both modes,
    whatever its first field. *)
Lemma not_enough_columns (row0 : string) (rest : list string) (st : state) :
  (Z.of_nat (List.length (row0 :: rest)) <? colchoice - 1)%Z = true ->
  process_row (row0 :: rest) st
  = (Ret tt,
     mkState (db st) (world st) (out st) (log st ++ [NotEnoughColumns (row0 :: rest)])
             (calls st) None (source st)).
Proof.
  intros H. rewrite process_row_eq. cbv zeta. now rewrite H.
Qed.

(** An adapter that raises ends the run: the rows after it are not read. *)
Lemma process_rows_raise (row : list string) (rows : list (list string)) (st : state)
      (e : exn) :
  fst (process_row row st) = Raise e ->
  process_rows (row :: rows) st = (Raise e, snd (process_row row st)).
Proof.
  intros H. cbn [Pipeline.process_rows]. unfold bind.
  destruct (process_row row st) as [[[]|x] st1]; cbn in *; congruence.
Qed.

End Facts.

(** *** On mock adapters *)

(** The order of the chain on a concrete input: the first two adapters find
    nothing, the third does. *)
Lemma adapters_tried_in_order_witness :
  let st' := snd (Pipeline.resolve (list string) Gui (Mock.mock_oclc None)
                    (Mock.mock_harvard (Ret None)) (Mock.mock_loc (Some "PS3623.A59"))
                    Mock.none3 2 ["9780143127741"] "9780143127741" "9780143127741"
                    (Mock.start (Table []))) in
  calls st' = ["OCLC"; "Harvard"; "LofC"]
  /\ source st' = "LofC"
  /\ out st' = [["9780143127741"; "PS3623.A59"; "9780143127741"; "LofC"]].
Proof.
  destruct (adapters_tried_in_order (list string) Gui (Mock.mock_oclc None)
              (Mock.mock_harvard (Ret None)) (Mock.mock_loc (Some "PS3623.A59"))
              Mock.none3 2 ["9780143127741"] "9780143127741" "9780143127741"
              (Mock.start (Table [])) eq_refl eq_refl) as (_ & H & _).
  destruct (H (firstn 2 (Pipeline.adapters (list string) (Mock.mock_oclc None)
                           (Mock.mock_harvard (Ret None))
                           (Mock.mock_loc (Some "PS3623.A59")) Mock.none3 "9780143127741"))
              "LofC" (Mock.mock_loc (Some "PS3623.A59") "9780143127741" LOC_Base)
              (skipn 3 (Pipeline.adapters (list string) (Mock.mock_oclc None)
                          (Mock.mock_harvard (Ret None))
                          (Mock.mock_loc (Some "PS3623.A59")) Mock.none3 "9780143127741"))
              [] "PS3623.A59" [] eq_refl eq_refl eq_refl ltac:(discriminate))
    as (_ & Hc & _ & _ & Hs & Ho).
  cbv zeta. split; [exact Hc|]. split; [exact Hs | exact Ho].
Defined.

(** A cache hit on a concrete input: the mock Classify would answer, and is
    not asked. *)
Lemma cache_hit_skips_adapters_witness :
  let st' := snd (Pipeline.resolve (list string) Gui (Mock.mock_oclc (Some "QA76.9"))
                    (Mock.mock_harvard (Ret None)) (Mock.mock_loc None)
                    Mock.none3 2 ["9780143127741"] "9780143127741" "9780143127741"
                    (Mock.start (Table [("9780143127741", "PS3623.A59", "OCLC")]))) in
  calls st' = []
  /\ out st' = [["9780143127741"; "PS3623.A59"; "9780143127741"; "OCLC"]]
  /\ db st' = Table [("9780143127741", "PS3623.A59", "OCLC")].
Proof.
  destruct (cache_hit_skips_adapters (list string) Gui (Mock.mock_oclc (Some "QA76.9"))
              (Mock.mock_harvard (Ret None)) (Mock.mock_loc None)
              Mock.none3 2 ["9780143127741"] "9780143127741" "9780143127741"
              (Mock.start (Table [("9780143127741", "PS3623.A59", "OCLC")]))
              ("9780143127741", "PS3623.A59", "OCLC") eq_refl ltac:(discriminate))
    as (_ & Hc & _ & _ & _ & Ho & Hd).
  cbv zeta. split; [exact Hc|]. split; [exact Ho | exact Hd].
Defined.

(** C2 as stated fails: the lookup returns a record, its LCC is empty, and
    the chain is entered; the row is resolved by OCLC with another LCC than
    the record's. *)
Lemma cache_hit_with_empty_lcc_calls_adapters :
  canonical_isbn "9780143127741" = true
  /\ lookup Gui (Table [("9780143127741", "", "Yale")]) "9780143127741"
     = Ret (Some ("9780143127741", "", "Yale"))
  /\ let st' := snd (Mock.row_run (Some "PS3623.A59") (Ret None) None 2 0
                       ["9780143127741"]
                       (Mock.start (Table [("9780143127741", "", "Yale")]))) in
     calls st' = ["OCLC"]
     /\ out st' = [["9780143127741"; "PS3623.A59"; "9780143127741"; "OCLC"]].
Proof. repeat split. Qed.

(** The one-field row of an ISBN-10 is a normalised row for the mock
    normaliser. *)
Lemma mock_row_normalized :
  Pipeline.normalized Mock.fix_isbn 2 0 ["080442957X"] "080442957X" "080442957X".
Proof.
  repeat split; try reflexivity; try discriminate.
  - exists "080442957X", []. split; [reflexivity | discriminate].
  - left. cbn. lia.
Defined.



(** The output row on a concrete input, simple mode. *)
Lemma normalized_row_output_witness :
  out (snd (Mock.row_run (Some "PZ3.G66") (Ret None) None 2 0 ["080442957X"]
                         (Mock.start (Table []))))
  = [["080442957X"; "PZ3.G66"; "080442957X"; "OCLC"]].
Proof.
  unfold Mock.row_run.
  rewrite (normalized_row_output (list string) Gui Mock.fix_isbn
             (Mock.mock_oclc (Some "PZ3.G66")) (Mock.mock_harvard (Ret None))
             (Mock.mock_loc None) Mock.none3 2 0 ["080442957X"] "080442957X" "080442957X"
             (Mock.start (Table [])) mock_row_normalized).
  reflexivity.
Defined.

(** An empty first field before a valid ISBN in the configured column,
    repeat mode. *)
Lemma missing_isbn_is_first_field_witness :
  let st' := snd (Mock.row_run (Some "PZ3.G66") (Ret None) None 1 1
                               [""; "080442957X"] (Mock.start (Table []))) in
  out st' = [[""; "080442957X"; ""; ""]]
  /\ log st' = [MissingIsbn [""; "080442957X"]]
  /\ calls st' = [].
Proof.
  unfold Mock.row_run.
  rewrite (missing_isbn_is_first_field (list string) Gui Mock.fix_isbn
             (Mock.mock_oclc (Some "PZ3.G66")) (Mock.mock_harvard (Ret None))
             (Mock.mock_loc None) Mock.none3 1 1 ["080442957X"] (Mock.start (Table []))
             eq_refl).
  repeat split.
Defined.

(** C10 as stated fails: with the ISBN in column 5, a row of two fields
    whose first field is empty is logged as having too few columns, not as a
    missing ISBN, and nothing is written for it in repeat mode. *)
Lemma empty_first_field_not_missing_isbn :
  let st' := snd (Mock.row_run None (Ret None) None 1 4 [""; "x"] (Mock.start (Table []))) in
  log st' = [NotEnoughColumns [""; "x"]]
  /\ out st' = [].
Proof. repeat split. Qed.

(** C5 at the failing input: with no service answering, main.py stops at the
    first row with the [TypeError] of [harvard_get] and writes nothing,
    where lcc_simple.py completes both rows; and a Classify answer that is
    not XML raises out of [get_oclc_data]. *)
Theorem harvard_failure_aborts_run :
  let input := [["9780143127741"]; ["080442957X"]] in
  (fst (Mock.offline_run Gui 2 input (Mock.start (Table []))) = Raise TypeError
   /\ out (snd (Mock.offline_run Gui 2 input (Mock.start (Table [])))) = []
   /\ calls (snd (Mock.offline_run Gui 2 input (Mock.start (Table []))))
      = ["OCLC"; "Harvard"])
  /\ (fst (Mock.offline_run Simple 2 input (Mock.start (Table []))) = Ret tt
      /\ out (snd (Mock.offline_run Simple 2 input (Mock.start (Table []))))
         = [["9780143127741"; ""; "9780143127741"; "NOTFOUND"];
            ["080442957X"; ""; "080442957X"; "NOTFOUND"]])
  /\ fst (Wiring.get_oclc_data Mock.requote_uri Mock.not_xml Mock.parseString 1000
                               "isbn" "9780143127741" []) = Raise ExpatError.
Proof. vm_compute. repeat split. Qed.

(** *** The scenarios of a first and a second run *)

(** main.py on a fresh directory: Classify resolves the ISBN, the row is
    written and the cache holds it afterwards. *)
Lemma first_run_main :
  let st' := snd (Mock.run Gui (Some "PS3623.A59") 2 [["9780143127741"]]
                           (Mock.start Missing)) in
  out st' = [["9780143127741"; "PS3623.A59"; "9780143127741"; "OCLC"]]
  /\ db st' = Table [("9780143127741", "PS3623.A59", "OCLC")]
  /\ log st' = [].
Proof. repeat split. Qed.

(** The next run finds it in the cache and calls no adapter. *)
Lemma second_run_main :
  let st' := snd (Mock.run Gui (Some "QA76.9") 2 [["9780143127741"]]
                           (Mock.start (Table [("9780143127741", "PS3623.A59", "OCLC")]))) in
  out st' = [["9780143127741"; "PS3623.A59"; "9780143127741"; "OCLC"]]
  /\ calls st' = []
  /\ db st' = Table [("9780143127741", "PS3623.A59", "OCLC")].
Proof. repeat split. Qed.

(** When no adapter finds anything the row is NOTFOUND and the cache stays
    empty. *)
Lemma unresolved_run_main :
  let st' := snd (Mock.run Gui None 2 [["9780143127741"]] (Mock.start Missing)) in
  out st' = [["9780143127741"; ""; "9780143127741"; "NOTFOUND"]]
  /\ calls st' = adapter_order
  /\ db st' = Table []
  /\ log st' = [UnableToFindLcc "9780143127741" "9780143127741"].
Proof. repeat split. Qed.

(** lcc_simple.py on a fresh directory: nothing creates table [main], the
    INSERT fails and the cache stays without it. *)
Lemma first_run_simple :
  let st' := snd (Mock.run Simple (Some "PS3623.A59") 2 [["9780143127741"]]
                           (Mock.start Missing)) in
  out st' = [["9780143127741"; "PS3623.A59"; "9780143127741"; "OCLC"]]
  /\ db st' = NoTable
  /\ log st' = [TableInsertError ["9780143127741"; "PS3623.A59"; "OCLC"]].
Proof. repeat split. Qed.

End PipelineFacts.

(** * Further properties of the code *)

(** ** The cache functions *)

Module CacheProps.
Import Sqlite SqliteFacts.

(** The file after a run of inserts, one row each. *)
Lemma inserts_append (later rows : list row) :
  fold_left (fun f q => snd (sql_tableinsert f [row_isbn q; row_lc q; row_source q]))
            later (Table rows)
  = Table (rows ++ later).
Proof.
  revert rows; induction later as [|[[a b] c] later IH]; intros rows; cbn [fold_left].
  - now rewrite app_nil_r.
  - unfold row_isbn at 2, row_lc at 2, row_source at 2. cbn [fst snd].
    rewrite sql_tableinsert_appends. cbn [snd]. rewrite IH.
    now rewrite <- app_assoc.
Qed.



(** X2: once the lookup for a canonical ISBN returns a row, it returns that
    row after every further run of inserts, also of rows for the same ISBN:
    the first row written for an ISBN is the one the cache serves. *)
Theorem first_row_wins (v : variant) (rows later : list row) (i : string) (r : row) :
  canonical_isbn i = true ->
  lookup v (Table rows) i = Ret (Some r) ->
  lookup v (fold_left (fun f q => snd (sql_tableinsert f [row_isbn q; row_lc q; row_source q]))
                      later (Table rows)) i
  = Ret (Some r).
Proof.
  intros Hc. rewrite inserts_append. unfold lookup.
  rewrite !(sqlite_search_table v _ _ Hc). simpl.
  intros [= H]. now rewrite find_app, H.
Qed.

(** Two later rows for the ISBN of the first. *)
Lemma first_row_wins_witness :
  lookup Simple
         (fold_left (fun f q => snd (sql_tableinsert f [row_isbn q; row_lc q; row_source q]))
                    [("9780143127741", "QA76.9", "Harvard"); ("9780143127741", "", "NOTFOUND")]
                    (Table [("9780143127741", "PS3623.A59", "OCLC")]))
         "9780143127741"
  = Ret (Some ("9780143127741", "PS3623.A59", "OCLC")).
Proof.
  apply (first_row_wins Simple [("9780143127741", "PS3623.A59", "OCLC")]);
    reflexivity.
Defined.

(** X3: [sqlite_search] of main.py never raises, whatever the file and the
    text of the ISBN; the one of lcc_simple.py raises exactly on a file that
    cannot be opened, with the error of [sqlite_create]'s own [connect], and
    on every other file the two return the same. *)
Theorem sqlite_search_raises (f : dbfile) (isbn : string) :
  (exists o, lookup Gui f isbn = Ret o)
  /\ (forall e, lookup Simple f isbn = Raise e <-> f = Unopenable /\ e = OperationalError)
  /\ (f <> Unopenable -> lookup Simple f isbn = lookup Gui f isbn).
Proof.
  unfold lookup, sqlite_search.
  destruct f as [| | |rows]; simpl.
  - split; [now eexists|]. split.
    + intros e. split; [intros [= <-]; now split | intros [_ ->]; reflexivity].
    + intros H; now destruct H.
  - split; [now eexists|]. split; [|reflexivity].
    intros e. split; [discriminate | intros [H _]; discriminate H].
  - split; [now eexists|]. split; [|reflexivity].
    intros e. split; [discriminate | intros [H _]; discriminate H].
  - destruct (where_pattern isbn); simpl;
      (split; [now eexists|]); (split; [|reflexivity]);
      intros e; (split; [discriminate | intros [H _]; discriminate H]).
Qed.

(** On a file without the table both scripts return [None]. *)
Lemma sqlite_search_raises_witness :
  lookup Simple NoTable "9780143127741" = lookup Gui NoTable "9780143127741".
Proof.
  apply (sqlite_search_raises NoTable "9780143127741"). discriminate.
Defined.

(** X4: a lookup reads only.  The rows of the file are the same after it,
    it never creates table [main], and where there was no file its
    [connect] leaves an empty one. *)
Theorem sqlite_search_reads_only (v : variant) (f : dbfile) (isbn : string) :
  rows_of (snd (sqlite_search v f isbn)) = rows_of f
  /\ (forall rows, snd (sqlite_search v f isbn) = Table rows <-> f = Table rows)
  /\ (f = Missing -> snd (sqlite_search v f isbn) = NoTable).
Proof.
  unfold sqlite_search.
  destruct f as [| | |rows]; simpl.
  - destruct v; simpl; (split; [reflexivity|]); (split; [tauto | discriminate]).
  - split; [reflexivity|]. split; [|reflexivity].
    intros rows; split; discriminate.
  - split; [reflexivity|]. split; [tauto | discriminate].
  - destruct (where_pattern isbn); simpl;
      (split; [reflexivity|]); (split; [tauto | discriminate]).
Qed.

(** The file a first lookup leaves where there was none. *)
Lemma sqlite_search_reads_only_witness :
  snd (sqlite_search Simple Missing "9780143127741") = NoTable.
Proof.
  apply (sqlite_search_reads_only Simple Missing "9780143127741"). reflexivity.
Defined.

(** X5: creating the table never costs the cache a row.  On a file that
    can be opened [sqlite_create] returns and leaves table [main] with the
    rows the file had, none where it had no table; on a file that cannot be
    opened it raises and leaves the file as it is. *)
Theorem sqlite_create_keeps_rows (f : dbfile) :
  (f <> Unopenable ->
   fst (sqlite_create f) = Ret tt /\ snd (sqlite_create f) = Table (rows_of f))
  /\ (f = Unopenable -> sqlite_create f = (Raise OperationalError, f)).
Proof.
  split.
  - intros H. destruct f; try (now destruct H); split; reflexivity.
  - intros ->. reflexivity.
Qed.

(** A cache of one row. *)
Lemma sqlite_create_keeps_rows_witness :
  snd (sqlite_create (Table [("080442957X", "PZ3", "OCLC")]))
  = Table [("080442957X", "PZ3", "OCLC")].
Proof.
  apply (sqlite_create_keeps_rows (Table [("080442957X", "PZ3", "OCLC")])).
  discriminate.
Defined.

(** *** The statement of an insert, for any number of values *)

Lemma fold_literals_acc (values : list string) (acc : string) :
  fold_left (fun acc v => acc ++ "'" ++ sql_escape v ++ "',")%string values acc
  = (acc ++ fold_left (fun acc v => acc ++ "'" ++ sql_escape v ++ "',")%string values "")%string.
Proof.
  revert acc. induction values as [|v values IH]; intros acc; cbn [fold_left].
  - now rewrite append_nil_r.
  - rewrite IH. rewrite (IH ("" ++ "'" ++ sql_escape v ++ "',")%string).
    cbn [append]. now rewrite append_assoc.
Qed.

Lemma rstrip_comma_head (c : ascii) (s : string) :
  Ascii.eqb c "," = false -> rstrip_comma (String c s) <> "".
Proof.
  intros Hc. cbn [rstrip_comma]. rewrite Hc. now destruct (rstrip_comma s).
Qed.

Lemma rstrip_comma_app (x y : string) :
  rstrip_comma y <> "" -> rstrip_comma (x ++ y) = (x ++ rstrip_comma y)%string.
Proof.
  intros Hy. induction x as [|c x IH]; [reflexivity|].
  cbn [append rstrip_comma]. rewrite IH.
  destruct (x ++ rstrip_comma y)%string eqn:E; [|reflexivity].
  destruct x; [now destruct Hy | discriminate E].
Qed.

Lemma format_string_one (v : string) :
  format_string [v] = String "'" (sql_escape v ++ String "'" ")").
Proof.
  unfold format_string. cbn [fold_left append].
  replace (sql_escape v ++ "',")%string with ((sql_escape v ++ "'") ++ ",")%string
    by now rewrite append_assoc.
  change (String "'" ((sql_escape v ++ "'") ++ ","))
    with (String "'" (sql_escape v ++ "'") ++ ",")%string.
  rewrite rstrip_comma_snoc_comma.
  change (String "'" (sql_escape v ++ "'")) with (("'" ++ sql_escape v) ++ "'")%string.
  rewrite rstrip_comma_snoc by reflexivity.
  cbn [append]. now rewrite append_assoc.
Qed.

Lemma format_string_more (v w : string) (values : list string) :
  format_string (v :: w :: values)
  = String "'" (sql_escape v ++ String "'" (String "," (format_string (w :: values)))).
Proof.
  unfold format_string. cbn [fold_left].
  rewrite (fold_literals_acc values (("" ++ "'" ++ sql_escape v ++ "',")
                                     ++ "'" ++ sql_escape w ++ "',")%string).
  rewrite (fold_literals_acc values ("" ++ "'" ++ sql_escape w ++ "',")%string).
  set (rest := fold_left _ values "").
  cbn [append].
  set (tail := String "'" ((sql_escape w ++ "',") ++ rest)).
  assert (Hne : rstrip_comma tail <> "") by now apply rstrip_comma_head.
  assert (E : String "'" (((sql_escape v ++ "',") ++ String "'" (sql_escape w ++ "',")) ++ rest)
              = (String "'" (sql_escape v ++ "',") ++ tail)%string).
  { unfold tail. norm_append. reflexivity. }
  rewrite E, (rstrip_comma_app _ _ Hne).
  norm_append. reflexivity.
Qed.

Lemma parse_format (values : list string) (fuel : nat) :
  values <> [] ->
  List.length values <= fuel ->
  parse_values fuel (format_string values) = Some values.
Proof.
  revert fuel. induction values as [|v values IH]; intros fuel Hne Hf; [now destruct Hne|].
  destruct fuel as [|fuel]; [simpl in Hf; lia|].
  destruct values as [|w values].
  - rewrite format_string_one. apply parse_values_last.
  - rewrite format_string_more, parse_values_more.
    rewrite IH; [reflexivity | discriminate | simpl in *; lia].
Qed.

Lemma format_string_length (values : list string) :
  List.length values <= String.length (format_string values).
Proof.
  induction values as [|v values IH]; [simpl; lia|].
  destruct values as [|w values].
  - rewrite format_string_one. simpl. lia.
  - rewrite format_string_more. cbn [String.length List.length] in *.
    rewrite length_append. cbn [String.length]. lia.
Qed.


End CacheProps.

(** ** The Classify adapter *)

Module ClassifyProps.
Import Dom Classify ClassifyFacts.

Lemma finish_not_empty (l : option string) : finish l <> Some "".
Proof.
  unfold finish. destruct l as [s|]; simpl; [|discriminate].
  destruct (String.eqb s "") eqn:E; simpl; [discriminate|].
  intros [= ->]. discriminate E.
Qed.

Lemma prefix_append (a b : string) : prefix a (a ++ b) = true.
Proof.
  induction a as [|c a IH]; simpl; [now destruct b|].
  now rewrite IH; destruct (ascii_dec c c).
Qed.

Lemma nexturl_base (parmtype quoted : string) : prefix base (nexturl parmtype quoted) = true.
Proof. unfold nexturl. apply prefix_append. Qed.

(** X7: the loop over [mostPopular] keeps the [nsfa] of the last element:
    with one more element at the end the result is that element's [nsfa],
    whatever the elements before gave, and a missing [nsfa] anywhere
    raises. *)
Theorem most_popular_last_wins (ms : list node) (m : node) (l : option string) :
  most_popular (ms ++ [m]) l
  = match most_popular ms l with
    | Raise e => Raise e
    | Ret _ =>
        match attribute m "nsfa" with
        | Ret nsfa => Ret (Some nsfa)
        | Raise e => Raise e
        end
    end.
Proof.
  revert l; induction ms as [|a ms IH]; intros l; simpl.
  - now destruct (attribute m "nsfa").
  - destruct (attribute a "nsfa"); [apply IH | reflexivity].
Qed.

Section Props.

Variable requote_uri : string -> option string.
Variable http_get : nat -> string -> http.
Variable parseString : string -> option node.

Local Abbreviation get_oclc_data := (get_oclc_data requote_uri http_get parseString).

(** X8: [get_oclc_data] never returns the empty string: every value it
    returns has passed [if lcc_value: return lcc_value], so a record whose
    [nsfa] is empty gives [None]. *)
Theorem oclc_never_empty (depth : nat) (parmtype parmvalue : string) (reqs : list string) :
  fst (get_oclc_data depth parmtype parmvalue reqs) <> Ret (Some "").
Proof.
  revert parmtype parmvalue reqs.
  induction depth as [|d IH]; intros parmtype parmvalue reqs; [discriminate|].
  cbn [Classify.get_oclc_data].
  destruct (requote_uri parmvalue) as [quoted|]; [|discriminate].
  destruct (http_get (List.length reqs) (nexturl parmtype quoted)) as [|[] wq];
    try discriminate.
  destruct (parseString wq) as [xdoc|]; [|discriminate].
  destruct (doc_getElementsByTagName xdoc "response") as [|response ?]; [discriminate|].
  destruct (attribute response "code") as [respCode|]; [|discriminate].
  destruct (String.eqb respCode "0" || String.eqb respCode "2").
  - destruct (doc_getElementsByTagName xdoc "recommendations") as [|recommendations ?];
      [discriminate|].
    destruct (0 <? List.length (doc_getElementsByTagName xdoc "lcc")); [|discriminate].
    destruct (getElementsByTagName recommendations "lcc") as [|local_lcc ?]; [discriminate|].
    destruct (most_popular (getElementsByTagName local_lcc "mostPopular") None) as [found|];
      [|discriminate].
    cbn [fst]. intros [= H]. now apply finish_not_empty in H.
  - destruct (String.eqb respCode "4"); [|discriminate].
    destruct (doc_getElementsByTagName xdoc "works") as [|works ?]; [discriminate|].
    destruct (first_lcc_work (getElementsByTagName works "work")) as [m_wi|]; [|discriminate].
    destruct (Classify.get_oclc_data requote_uri http_get parseString d "wi" m_wi
                (reqs ++ [nexturl parmtype quoted])) as [[found|e] r2];
      [|discriminate].
    cbn [fst]. intros [= H]. now apply finish_not_empty in H.
Qed.

(** X9: the requests of one call.  [get_oclc_data] only adds to the list of
    requests, it adds at most as many as calls may nest, and every URL it
    requests is one of the Classify service. *)
Theorem oclc_requests_bounded (depth : nat) (parmtype parmvalue : string)
        (reqs : list string) :
  exists extra,
    snd (get_oclc_data depth parmtype parmvalue reqs) = reqs ++ extra
    /\ List.length extra <= depth
    /\ Forall (fun u => prefix base u = true) extra.
Proof.
  revert parmtype parmvalue reqs.
  induction depth as [|d IH]; intros parmtype parmvalue reqs.
  { exists []. simpl. rewrite app_nil_r. repeat split; [lia | constructor]. }
  cbn [Classify.get_oclc_data].
  assert (None_ : exists extra, reqs = reqs ++ extra /\ List.length extra <= S d
                                /\ Forall (fun u => prefix base u = true) extra).
  { exists []. rewrite app_nil_r. repeat split; [simpl; lia | constructor]. }
  destruct (requote_uri parmvalue) as [quoted|]; [|exact None_].
  assert (One : exists extra,
             reqs ++ [nexturl parmtype quoted] = reqs ++ extra
             /\ List.length extra <= S d
             /\ Forall (fun u => prefix base u = true) extra).
  { exists [nexturl parmtype quoted]. repeat split; [simpl; lia|].
    constructor; [apply nexturl_base | constructor]. }
  destruct (http_get (List.length reqs) (nexturl parmtype quoted)) as [|[] wq];
    try exact One.
  destruct (parseString wq) as [xdoc|]; [|exact One].
  destruct (doc_getElementsByTagName xdoc "response") as [|response ?]; [exact One|].
  destruct (attribute response "code") as [respCode|]; [|exact One].
  destruct (String.eqb respCode "0" || String.eqb respCode "2").
  - destruct (doc_getElementsByTagName xdoc "recommendations") as [|recommendations ?];
      [exact One|].
    destruct (0 <? List.length (doc_getElementsByTagName xdoc "lcc")); [|exact One].
    destruct (getElementsByTagName recommendations "lcc") as [|local_lcc ?]; [exact One|].
    destruct (most_popular (getElementsByTagName local_lcc "mostPopular") None);
      exact One.
  - destruct (String.eqb respCode "4"); [|exact One].
    destruct (doc_getElementsByTagName xdoc "works") as [|works ?]; [exact One|].
    destruct (first_lcc_work (getElementsByTagName works "work")) as [m_wi|]; [|exact One].
    destruct (IH "wi" m_wi (reqs ++ [nexturl parmtype quoted])) as (extra & E & L & F).
    destruct (Classify.get_oclc_data requote_uri http_get parseString d "wi" m_wi
                (reqs ++ [nexturl parmtype quoted])) as [[found|e] r2];
      cbn [snd] in *; subst r2;
      exists (nexturl parmtype quoted :: extra);
      (split; [now rewrite <- app_assoc|]);
      (split; [simpl; lia|]);
      (constructor; [apply nexturl_base | exact F]).
Qed.


End Props.


End ClassifyProps.

(** ** The Harvard adapter *)

Module HarvardProps.
Import Json Harvard.

(** X11: of a list under [classification] only the first entry is read.
    The result is decided by that entry's [@authority] and [#text]; an entry
    with authority [lcc] further down the list is never reached. *)
Theorem classification_first_entry (d : list (string * json)) (x : json) (rest : list json) :
  Json.lookup "classification" d = Some (JList (x :: rest)) ->
  classification (JDict d)
  = match getitem (Some x) "@authority" with
    | Raise e => Raise e
    | Ret a =>
        if is_str "lcc" a then
          match getitem (Some x) "#text" with
          | Raise e => Raise e
          | Ret harv_lcc => Ret (Some harv_lcc)
          end
        else Ret None
    end.
Proof.
  intros H. unfold classification, iter_has, getitem at 1. rewrite H. reflexivity.
Qed.

(** A record classified first by Dewey, then by LCC. *)
Lemma classification_first_entry_witness :
  classification
    (JDict [("titleInfo", JStr "Station eleven");
            ("classification",
             JList [JDict [("@authority", JStr "ddc"); ("#text", JStr "813.6")];
                    JDict [("@authority", JStr "lcc"); ("#text", JStr "PS3623.A59")]])])
  = Ret None.
Proof.
  apply (classification_first_entry
           [("titleInfo", JStr "Station eleven");
            ("classification",
             JList [JDict [("@authority", JStr "ddc"); ("#text", JStr "813.6")];
                    JDict [("@authority", JStr "lcc"); ("#text", JStr "PS3623.A59")]])]
           (JDict [("@authority", JStr "ddc"); ("#text", JStr "813.6")])
           [JDict [("@authority", JStr "lcc"); ("#text", JStr "PS3623.A59")]]).
  reflexivity.
Defined.

Section Props.

Variable http_get : nat -> string -> http.
Variable json_loads : string -> option json.

Local Abbreviation json_query := (json_query http_get json_loads).
Local Abbreviation harvard_get := (harvard_get http_get json_loads).

(** X12: the two [harvard_get].  An exception of [json_query] is caught by
    both.  Beyond that they differ in one case only: where
    [record_data['items']] cannot be read, main.py raises what that lookup
    raises and lcc_simple.py returns [None]; in every other case they return
    or raise the same. *)
Theorem harvard_get_variants (m_isbn : string) (n : nat) :
  (forall e v, json_query m_isbn n = Raise e -> harvard_get v m_isbn n = Ret None)
  /\ (harvard_get Sqlite.Gui m_isbn n = harvard_get Sqlite.Simple m_isbn n
      \/ exists r e,
           json_query m_isbn n = Ret r
           /\ getitem r "items" = Raise e
           /\ harvard_get Sqlite.Gui m_isbn n = Raise e
           /\ harvard_get Sqlite.Simple m_isbn n = Ret None).
Proof.
  unfold Harvard.harvard_get. split.
  - intros e v ->. reflexivity.
  - destruct (Harvard.json_query http_get json_loads m_isbn n) as [r|e]; [|now left].
    destruct (getitem r "items") as [items|e] eqn:E; [now left|].
    right. exists r, e. repeat split; assumption.
Qed.

End Props.

(** An empty list as the body: [wq[0]] raises inside [json_query]. *)
Lemma harvard_get_variants_witness :
  harvard_get (fun _ _ => Response true "[]") (fun _ => Some (JList [])) Sqlite.Gui
              "9780143127741" 0
  = Ret None.
Proof.
  apply (harvard_get_variants (fun _ _ => Response true "[]") (fun _ => Some (JList []))
                              "9780143127741" 0) with (e := IndexError).
  reflexivity.
Defined.

End HarvardProps.

(** ** The Library of Congress adapter *)

Module LocProps.
Import Json Loc.

(** X13: the first field with tag [050] decides.  Fields after it are not
    read, and when its [subfield] is not a dict with a [text] (a field with
    several subfields holds a list) the result is [None], whatever later
    fields 050 hold. *)
Theorem first_050_decides (pre : list json) (x : json) (post : list json) (t : json) :
  Forall (fun y => exists t', getitem (Some y) "tag" = Ret t' /\ is_str "050" t' = false) pre ->
  getitem (Some x) "tag" = Ret t ->
  is_str "050" t = true ->
  first_050 (pre ++ x :: post)
  = match getitem (Some x) "subfield" with
    | Raise _ => Ret None
    | Ret subfield =>
        match getitem (Some subfield) "text" with
        | Raise _ => Ret None
        | Ret text => Ret (Some text)
        end
    end.
Proof.
  intros Hpre Hx Ht.
  induction Hpre as [|y pre (t' & Hy & Hn) _ IH]; cbn [app first_050].
  - rewrite Hx, Ht. reflexivity.
  - rewrite Hy, Hn. exact IH.
Qed.

(** A title field, a field 050 with two subfields, a field 050 with one. *)
Lemma first_050_decides_witness :
  first_050
    [JDict [("tag", JStr "245"); ("subfield", JDict [("code", JStr "a"); ("text", JStr "Emma")])];
     JDict [("tag", JStr "050");
            ("subfield", JList [JDict [("code", JStr "a"); ("text", JStr "PR4034")];
                                JDict [("code", JStr "b"); ("text", JStr ".E5 2003")]])];
     JDict [("tag", JStr "050");
            ("subfield", JDict [("code", JStr "a"); ("text", JStr "PR4034.E5")])]]
  = Ret None.
Proof.
  apply (first_050_decides
           [JDict [("tag", JStr "245");
                   ("subfield", JDict [("code", JStr "a"); ("text", JStr "Emma")])]]
           (JDict [("tag", JStr "050");
                   ("subfield", JList [JDict [("code", JStr "a"); ("text", JStr "PR4034")];
                                       JDict [("code", JStr "b"); ("text", JStr ".E5 2003")]])])
           [JDict [("tag", JStr "050");
                   ("subfield", JDict [("code", JStr "a"); ("text", JStr "PR4034.E5")])]]
           (JStr "050")).
  - constructor; [|constructor]. exists (JStr "245"). split; reflexivity.
  - reflexivity.
  - reflexivity.
Defined.

Section Props.

Variable searchretrieve : nat -> string -> string -> option (list json).

Local Abbreviation loc_search := (loc_search searchretrieve).

(** X14: a record whose [datafield] is one dict, not a list of them: the
    loop runs over the keys of the dict, and [x['tag']] on a key, under no
    [try], raises. *)
Theorem loc_search_datafield_dict (isbn sru_base : string) (n : nat)
        (record : json) (others : list json) (k : string) (value : json)
        (d : list (string * json)) :
  searchretrieve n sru_base isbn = Some (record :: others) ->
  getitem (Some record) "datafield" = Ret (JDict ((k, value) :: d)) ->
  loc_search isbn sru_base n = Raise TypeError.
Proof.
  intros Hs Hd. unfold Loc.loc_search. rewrite Hs, Hd. reflexivity.
Qed.


End Props.

(** One field, delivered as a dict. *)
Lemma loc_search_datafield_dict_witness :
  loc_search
    (fun _ _ _ =>
       Some [JDict [("datafield",
                     JDict [("tag", JStr "050");
                            ("subfield", JDict [("code", JStr "a"); ("text", JStr "PZ3")])])]])
    "080442957X" "http://lx2.loc.gov:210/LCDB?" 0
  = Raise TypeError.
Proof.
  apply (loc_search_datafield_dict _ "080442957X" "http://lx2.loc.gov:210/LCDB?" 0
           (JDict [("datafield",
                    JDict [("tag", JStr "050");
                           ("subfield", JDict [("code", JStr "a"); ("text", JStr "PZ3")])])])
           [] "tag" (JStr "050")
           [("subfield", JDict [("code", JStr "a"); ("text", JStr "PZ3")])]);
    reflexivity.
Defined.


End LocProps.

(** ** The Blacklight adapters *)

Module BlacklightProps.
Import Dom Blacklight.

(** *** Strings *)

Lemma forall_chars_lstrip (p : ascii -> bool) (s : string) :
  forall_chars p s = true -> forall_chars p (lstrip s) = true.
Proof.
  induction s as [|c s IH]; simpl; [reflexivity|].
  intros H. destruct (is_space c); [|exact H].
  apply andb_true_iff in H as [_ H]. now apply IH.
Qed.

Lemma forall_chars_rstrip (p : ascii -> bool) (s : string) :
  forall_chars p s = true -> forall_chars p (rstrip s) = true.
Proof.
  induction s as [|c s IH]; simpl; [reflexivity|].
  intros H. apply andb_true_iff in H as [Hc Hs]. specialize (IH Hs).
  destruct (rstrip s) as [|d t].
  - destruct (is_space c); simpl; [reflexivity | now rewrite Hc].
  - simpl in *. now rewrite Hc, IH.
Qed.

Lemma forall_chars_drop2 (p : ascii -> bool) (s : string) :
  forall_chars p s = true -> forall_chars p (drop2 s) = true.
Proof.
  destruct s as [|c [|d s]]; simpl; try reflexivity.
  intros H. apply andb_true_iff in H as [_ H]. now apply andb_true_iff in H as [_ H].
Qed.

Lemma rstrip_idem (s : string) : rstrip (rstrip s) = rstrip s.
Proof.
  induction s as [|c s IH]; [reflexivity|].
  cbn [rstrip]. destruct (rstrip s) as [|d t] eqn:E.
  - destruct (is_space c) eqn:Ec; [reflexivity|]. cbn [rstrip]. now rewrite Ec.
  - cbn [rstrip]. cbn [rstrip] in IH. rewrite IH. reflexivity.
Qed.

(** What [lstrip] leaves is empty or starts with a character that is not
    whitespace. *)
Lemma lstrip_head (s : string) :
  match lstrip s with
  | EmptyString => True
  | String c _ => is_space c = false
  end.
Proof.
  induction s as [|c s IH]; simpl; [exact I|].
  destruct (is_space c) eqn:E; [exact IH | exact E].
Qed.

Lemma rstrip_head (c : ascii) (s : string) :
  is_space c = false -> exists t, rstrip (String c s) = String c t.
Proof.
  intros Hc. cbn [rstrip]. destruct (rstrip s) as [|d t].
  - rewrite Hc. now eexists.
  - now eexists.
Qed.

Lemma strip_idem (s : string) : strip (strip s) = strip s.
Proof.
  unfold strip. pose proof (lstrip_head s) as H.
  destruct (lstrip s) as [|c y]; [reflexivity|].
  destruct (rstrip_head c y H) as [t E]. rewrite E.
  cbn [lstrip]. rewrite H, <- E. apply rstrip_idem.
Qed.

Lemma remove_newlines_none (s : string) :
  forall_chars (fun c => negb (Ascii.eqb c "010")) (remove_newlines s) = true.
Proof.
  induction s as [|c s IH]; simpl; [reflexivity|].
  destruct (Ascii.eqb c "010") eqn:E; [exact IH|]. simpl. now rewrite E, IH.
Qed.

Lemma remove_newlines_id (s : string) :
  forall_chars (fun c => negb (Ascii.eqb c "010")) s = true -> remove_newlines s = s.
Proof.
  induction s as [|c s IH]; simpl; [reflexivity|].
  intros H. apply andb_true_iff in H as [Hc Hs].
  destruct (Ascii.eqb c "010"); [discriminate Hc|]. now rewrite IH.
Qed.

(** [swap_codes] moves characters, it adds none. *)
Lemma swap_codes_chars (p : ascii -> bool) (s : string) :
  (forall_chars p s = true -> forall_chars p (swap_codes s) = true)
  /\ forall c, forall_chars p (String c s) = true ->
               forall_chars p (swap_codes (String c s)) = true.
Proof.
  induction s as [|d s [IH1 IH2]].
  - split; [reflexivity | intros c H; exact H].
  - assert (G : forall c, forall_chars p (String c (String d s)) = true ->
                          forall_chars p (swap_codes (String c (String d s))) = true).
    { intros c H. cbn [swap_codes].
      pose proof H as H'. cbn [forall_chars] in H'.
      apply andb_true_iff in H' as [Hc H']. pose proof H' as Hds.
      apply andb_true_iff in H' as [Hd Hs].
      destruct (is_lower c && Ascii.eqb d "|") eqn:E.
      - apply andb_true_iff in E as [_ E]. apply Ascii.eqb_eq in E. subst d.
        cbn [forall_chars]. rewrite Hd, Hc. simpl. now apply IH1.
      - change (forall_chars p (String c (swap_codes (String d s))) = true).
        cbn [forall_chars]. rewrite Hc. simpl. now apply IH2. }
    split; [|exact G].
    intros H. now apply IH2.
Qed.

Lemma swap_codes_id (s : string) :
  forall_chars (fun c => negb (Ascii.eqb c "|")) s = true -> swap_codes s = s.
Proof.
  enough (G : (forall_chars (fun c => negb (Ascii.eqb c "|")) s = true -> swap_codes s = s)
              /\ forall c, forall_chars (fun c => negb (Ascii.eqb c "|")) s = true ->
                           swap_codes (String c s) = String c s) by apply G.
  induction s as [|d s [IH1 IH2]].
  - split; reflexivity.
  - assert (G : forall c, forall_chars (fun c => negb (Ascii.eqb c "|")) (String d s) = true ->
                          swap_codes (String c (String d s)) = String c (String d s)).
    { intros c H. cbn [swap_codes]. cbn [forall_chars] in H.
      apply andb_true_iff in H as [Hd Hs].
      destruct (Ascii.eqb d "|"); [discriminate Hd|].
      rewrite andb_false_r.
      change (String c (swap_codes (String d s)) = String c (String d s)).
      now rewrite IH2. }
    split; [|exact G].
    intros H. cbn [forall_chars] in H. apply andb_true_iff in H as [_ Hs]. now apply IH2.
Qed.

(** The pieces of a split hold characters of the string, and none is the
    separator. *)
Lemma split_pieces (p : ascii -> bool) (sep : ascii) (s : string) :
  forall_chars p s = true ->
  Forall (fun piece => forall_chars p piece = true
                       /\ forall_chars (fun c => negb (Ascii.eqb c sep)) piece = true)
         (split sep s).
Proof.
  induction s as [|c s IH]; cbn [split forall_chars].
  - intros _. constructor; [split; reflexivity | constructor].
  - intros H. apply andb_true_iff in H as [Hc Hs]. specialize (IH Hs).
    destruct (Ascii.eqb c sep) eqn:E.
    + constructor; [split; reflexivity | exact IH].
    + destruct (split sep s) as [|piece pieces].
      * constructor; [|constructor]. cbn [forall_chars]. now rewrite Hc, E.
      * inversion IH as [|? ? [H1 H2] H3]; subst.
        constructor; [|exact H3]. cbn [forall_chars]. now rewrite Hc, E, H1, H2.
Qed.

Lemma split_no_sep (sep : ascii) (s : string) :
  forall_chars (fun c => negb (Ascii.eqb c sep)) s = true -> split sep s = [s].
Proof.
  induction s as [|c s IH]; cbn [split forall_chars]; [reflexivity|].
  intros H. apply andb_true_iff in H as [Hc Hs].
  destruct (Ascii.eqb c sep); [discriminate Hc|]. now rewrite (IH Hs).
Qed.

Lemma first_a_some (sub_list : list string) (r : string) :
  first_a sub_list = Some r ->
  exists piece, In piece sub_list /\ r = strip (drop2 piece).
Proof.
  induction sub_list as [|piece pieces IH]; cbn [first_a]; [discriminate|].
  destruct (negb (String.eqb piece "") && prefix "a" piece).
  - intros [= <-]. exists piece. split; [now left | reflexivity].
  - intros H. destruct (IH H) as (q & Hq & E). exists q. split; [now right | exact E].
Qed.

Lemma forall_chars_and (p q : ascii -> bool) (s : string) :
  forall_chars (fun c => p c && q c) s = forall_chars p s && forall_chars q s.
Proof.
  induction s as [|c s IH]; simpl; [reflexivity|].
  rewrite IH. destruct (p c), (q c), (forall_chars p s), (forall_chars q s); reflexivity.
Qed.

(** X16: the call number [get_blacklight] takes from a subfields block
    holds no bar and no newline, and no whitespace at either end. *)
Theorem subfield_a_clean (block r : string) :
  subfield_a block = Some r ->
  forall_chars (fun c => negb (Ascii.eqb c "|") && negb (Ascii.eqb c "010")) r = true
  /\ strip r = r.
Proof.
  unfold subfield_a. intros H.
  destruct (first_a_some _ _ H) as (piece & Hin & ->).
  split; [|apply strip_idem].
  pose proof (remove_newlines_none block) as Hn.
  apply (proj1 (swap_codes_chars _ _)) in Hn.
  pose proof (split_pieces _ "|" _ Hn) as Hall.
  rewrite Forall_forall in Hall. destruct (Hall piece Hin) as [H1 H2].
  rewrite forall_chars_and. unfold strip.
  rewrite !forall_chars_rstrip; [reflexivity | |];
    apply forall_chars_lstrip, forall_chars_drop2; assumption.
Qed.

(** A block of two subfields over two lines. *)
Lemma subfield_a_clean_witness :
  subfield_a "a| QA76.73 .P98
b| L88 2015" = Some "QA76.73 .P98"
  /\ strip "QA76.73 .P98" = "QA76.73 .P98".
Proof.
  split; [reflexivity|].
  apply (subfield_a_clean "a| QA76.73 .P98
b| L88 2015" "QA76.73 .P98").
  reflexivity.
Defined.

(** X17: [loop[2:]] drops the code and one character more.  In a block
    that starts with [a|] the character after the bar is lost, whatever it
    is; the layout of the catalogues has a space there. *)
Theorem subfield_a_drops_char (c : ascii) (body : string) :
  forall_chars (fun c => negb (Ascii.eqb c "|") && negb (Ascii.eqb c "010"))
               (String c body) = true ->
  subfield_a (String "a" (String "|" (String c body))) = Some (strip body).
Proof.
  rewrite forall_chars_and. intros H. apply andb_true_iff in H as [Hbar Hnl].
  unfold subfield_a.
  rewrite remove_newlines_id.
  2:{ cbn [forall_chars]. exact Hnl. }
  change (swap_codes (String "a" (String "|" (String c body))))
    with (String "|" (String "a" (swap_codes (String c body)))).
  rewrite (swap_codes_id _ Hbar).
  assert (Hb2 : forall_chars (fun c => negb (Ascii.eqb c "|"))
                             (String "a" (String c body)) = true) by exact Hbar.
  change (split "|" (String "|" (String "a" (String c body))))
    with (EmptyString :: split "|" (String "a" (String c body))).
  rewrite (split_no_sep _ _ Hb2). reflexivity.
Qed.

(** A call number set right after the bar loses its first letter. *)
Lemma subfield_a_drops_char_witness :
  subfield_a "a|QA76.73" = Some "A76.73".
Proof.
  apply (subfield_a_drops_char "Q" "A76.73"). reflexivity.
Defined.

(** *** The loops *)

Lemma scan_fields_app (a b : list node) (calltext : option string) :
  scan_fields (a ++ b) calltext = scan_fields b (scan_fields a calltext).
Proof.
  revert calltext; induction a as [|f a IH]; intros calltext; cbn [app scan_fields];
    [reflexivity|].
  destruct (find_div "tag_ind" f) as [ti|]; [|apply IH].
  destruct (contains "050" (text ti)); [|apply IH].
  destruct (find_div "subfields" f); apply IH.
Qed.



Section Props.

Variable http_get : nat -> string -> http.
Variable BeautifulSoup : string -> node.

Local Abbreviation scan_links := (scan_links http_get BeautifulSoup).
Local Abbreviation get_blacklight := (get_blacklight http_get BeautifulSoup).

Lemma scan_links_no_href (base_url1 : string) (tags : list node) (tag : node)
      (calltext : option string) (reqs : list string) :
  In tag tags -> href tag = None ->
  fst (scan_links base_url1 tags calltext reqs) = None.
Proof.
  intros Hin Hh. revert calltext reqs.
  induction tags as [|t tags IH]; intros calltext reqs; [destruct Hin|].
  cbn [Blacklight.scan_links].
  destruct Hin as [<-|Hin]; [now rewrite Hh|].
  destruct (href t) as [check_link|]; [|reflexivity].
  destruct (contains "/catalog/" check_link); [|now apply IH].
  destruct (http_get (List.length reqs) (base_url1 ++ check_link ++ "/librarian_view"));
    now apply IH.
Qed.

(** X19: one anchor without [href] anywhere on the result page and
    [get_blacklight] returns [None], whatever the records linked before it
    hold. *)
Theorem blacklight_anchor_without_href (base_url1 institution paramvalue : string)
        (reqs : list string) (ok : bool) (body : string) (tag : node) :
  http_get (List.length reqs) (URL_TITLE base_url1 paramvalue) = Response ok body ->
  In tag (getElementsByTagName (BeautifulSoup body) "a") ->
  href tag = None ->
  fst (get_blacklight base_url1 institution paramvalue reqs) = None.
Proof.
  intros Hr Hin Hh. unfold Blacklight.get_blacklight. rewrite Hr.
  now apply (scan_links_no_href _ _ tag).
Qed.

Lemma scan_links_requests (base_url1 : string) (tags : list node)
      (calltext : option string) (reqs : list string) :
  Forall (fun tag => href tag <> None) tags ->
  snd (scan_links base_url1 tags calltext reqs)
  = reqs ++ flat_map (fun tag =>
                        match href tag with
                        | Some check_link =>
                            if contains "/catalog/" check_link
                            then [(base_url1 ++ check_link ++ "/librarian_view")%string]
                            else []
                        | None => []
                        end) tags.
Proof.
  intros H. revert calltext reqs.
  induction H as [|t tags Ht _ IH]; intros calltext reqs; cbn [Blacklight.scan_links flat_map].
  - now rewrite app_nil_r.
  - destruct (href t) as [check_link|]; [|now destruct Ht].
    destruct (contains "/catalog/" check_link); [|apply IH].
    destruct (http_get (List.length reqs) (base_url1 ++ check_link ++ "/librarian_view"));
      rewrite IH, <- app_assoc; reflexivity.
Qed.

(** X20: every link to a record is followed.  When all anchors of the
    result page have an [href], the requests of [get_blacklight] are the
    search and then the librarian view of every link that holds
    [/catalog/], in page order: a call number found on one record does not
    end the loop, and a failed request does not either. *)
Theorem blacklight_follows_every_link (base_url1 institution paramvalue : string)
        (reqs : list string) (ok : bool) (body : string) :
  http_get (List.length reqs) (URL_TITLE base_url1 paramvalue) = Response ok body ->
  Forall (fun tag => href tag <> None) (getElementsByTagName (BeautifulSoup body) "a") ->
  snd (get_blacklight base_url1 institution paramvalue reqs)
  = reqs ++ URL_TITLE base_url1 paramvalue
         :: flat_map (fun tag =>
                        match href tag with
                        | Some check_link =>
                            if contains "/catalog/" check_link
                            then [(base_url1 ++ check_link ++ "/librarian_view")%string]
                            else []
                        | None => []
                        end) (getElementsByTagName (BeautifulSoup body) "a").
Proof.
  intros Hr Hall. unfold Blacklight.get_blacklight. rewrite Hr.
  rewrite (scan_links_requests _ _ _ _ Hall), <- app_assoc. reflexivity.
Qed.

End Props.

(** The page with a named anchor between two hits; the record of the
    first hit holds a call number. *)
Lemma blacklight_anchor_without_href_witness :
  fst (get_blacklight (MockPages.catalogue "<results-with-anchor/>") MockPages.BeautifulSoup
                      "https://searchworks.stanford.edu" "Stanford" "9780143127741" [])
  = None.
Proof.
  apply (blacklight_anchor_without_href
           (MockPages.catalogue "<results-with-anchor/>") MockPages.BeautifulSoup
           "https://searchworks.stanford.edu" "Stanford" "9780143127741" []
           true "<results-with-anchor/>" (Element "a" [("name", "more")] [])).
  - reflexivity.
  - right. left. reflexivity.
  - reflexivity.
Defined.

(** The page with two hits: both records are requested. *)
Lemma blacklight_follows_every_link_witness :
  snd (get_blacklight (MockPages.catalogue "<results/>") MockPages.BeautifulSoup
                      "https://searchworks.stanford.edu" "Stanford" "9780143127741" [])
  = ["https://searchworks.stanford.edu/catalog?q=9780143127741&search_field=all_fields&commit=Search";
     "https://searchworks.stanford.edu/catalog/101/librarian_view";
     "https://searchworks.stanford.edu/catalog/102/librarian_view"].
Proof.
  apply (blacklight_follows_every_link
           (MockPages.catalogue "<results/>") MockPages.BeautifulSoup
           "https://searchworks.stanford.edu" "Stanford" "9780143127741" []
           true "<results/>").
  - reflexivity.
  - repeat constructor; discriminate.
Defined.

End BlacklightProps.

(** ** The row loop *)

Module RunProps.
Import Sqlite Pipeline SqliteFacts PipelineFacts.

Section Props.

Variable World : Type.
Variable v : variant.
Variable fix_isbn : string -> option string.
Variable get_oclc_data : string -> string -> World -> res (option string) * World.
Variable harvard_get : string -> World -> res (option string) * World.
Variable loc_search : string -> string -> World -> res (option string) * World.
Variable get_blacklight : string -> string -> string -> World -> res (option string) * World.
Variable outchoice : Z.
Variable colchoice : Z.
Variable lineskip : Z.

Local Abbreviation state := (Pipeline.state World).
Local Abbreviation mkState := (Pipeline.mkState World).
Local Abbreviation fetcher := (World -> res (option string) * World)%type.
Local Abbreviation attempts := (Pipeline.attempts World).
Local Abbreviation all_notfound := (Pipeline.all_notfound World).
Local Abbreviation adapters :=
  (Pipeline.adapters World get_oclc_data harvard_get loc_search get_blacklight).
Local Abbreviation chain :=
  (Pipeline.chain World get_oclc_data harvard_get loc_search get_blacklight).
Local Abbreviation search := (Pipeline.search World v).
Local Abbreviation write_through := (Pipeline.write_through World).
Local Abbreviation newdata := (Pipeline.newdata outchoice).
Local Abbreviation write_results := (Pipeline.write_results World outchoice).
Local Abbreviation resolve :=
  (Pipeline.resolve World v get_oclc_data harvard_get loc_search get_blacklight outchoice).
Local Abbreviation normalize :=
  (Pipeline.normalize World v fix_isbn get_oclc_data harvard_get loc_search
                      get_blacklight outchoice).
Local Abbreviation process_row :=
  (Pipeline.process_row World v fix_isbn get_oclc_data harvard_get loc_search
                        get_blacklight outchoice colchoice).
Local Abbreviation process_rows :=
  (Pipeline.process_rows World v fix_isbn get_oclc_data harvard_get loc_search
                         get_blacklight outchoice colchoice).
Local Abbreviation normalized := (Pipeline.normalized fix_isbn outchoice colchoice).
Local Abbreviation skip_lines := (Pipeline.skip_lines World outchoice).
Local Abbreviation startup := (Pipeline.startup World v).
Local Abbreviation main :=
  (Pipeline.main World v fix_isbn get_oclc_data harvard_get loc_search
                 get_blacklight outchoice colchoice lineskip).

(** *** The header lines *)

Lemma skip_lines_eq (n : nat) (rows : list (list string)) (st : state) :
  skip_lines n rows st
  = (if n <=? List.length rows then Ret (skipn n rows) else Raise StopIteration,
     mkState (db st) (world st)
             (out st ++ if (outchoice =? 1)%Z then firstn n rows else [])
             (log st) (calls st) (lcc st) (source st)).
Proof.
  revert rows st. induction n as [|n IH]; intros rows st.
  - destruct st. destruct (outchoice =? 1)%Z; cbn; now rewrite app_nil_r.
  - destruct rows as [|row1 rows].
    + destruct st. destruct (outchoice =? 1)%Z; cbn; now rewrite app_nil_r.
    + cbn [Pipeline.skip_lines]. unfold bind.
      destruct (outchoice =? 1)%Z eqn:E.
      * unfold writerow. rewrite IH. cbn. now rewrite <- app_assoc.
      * unfold ret. rewrite IH. reflexivity.
Qed.

(** X21: the header lines.  [lineskip] lines are taken off the input
    before the loop, and in the mode that repeats the input row they are
    copied to the output as they are; nothing else changes.  An input with
    fewer lines ends with [StopIteration], after the lines it has were
    copied. *)
Theorem skip_lines_header (n : nat) (rows : list (list string)) (st : state) :
  (n <= List.length rows ->
   skip_lines n rows st
   = (Ret (skipn n rows),
      mkState (db st) (world st)
              (out st ++ if (outchoice =? 1)%Z then firstn n rows else [])
              (log st) (calls st) (lcc st) (source st)))
  /\ (List.length rows < n ->
      skip_lines n rows st
      = (Raise StopIteration,
         mkState (db st) (world st)
                 (out st ++ if (outchoice =? 1)%Z then rows else [])
                 (log st) (calls st) (lcc st) (source st))).
Proof.
  rewrite skip_lines_eq. split; intros H.
  - apply Nat.leb_le in H. now rewrite H.
  - rewrite firstn_all2 by lia. apply Nat.leb_gt in H. now rewrite H.
Qed.

(** *** Rows that end the run *)

(** X22: the test for too few columns lets short rows through.  A row
    with a first field and [colchoice] or [colchoice - 1] fields passes
    [len(row) < colchoice - 1]; [row[colchoice]] then raises, nothing is
    written or logged for the row, and the rows after it are not read. *)
Theorem short_row_raises (row0 : string) (rest : list string)
        (rows : list (list string)) (st : state) :
  row0 <> "" ->
  (colchoice - 1 <= Z.of_nat (List.length (row0 :: rest)) <= colchoice)%Z ->
  process_rows ((row0 :: rest) :: rows) st
  = (Raise IndexError,
     mkState (db st) (world st) (out st) (log st) (calls st) None (source st)).
Proof.
  intros H0 Hlen.
  assert (E : process_row (row0 :: rest) st
              = (Raise IndexError,
                 mkState (db st) (world st) (out st) (log st) (calls st) None (source st))).
  { rewrite process_row_eq. cbv zeta.
    replace (Z.of_nat (List.length (row0 :: rest)) <? colchoice - 1)%Z with false
      by (symmetry; apply Z.ltb_ge; lia).
    replace (String.eqb row0 "") with false
      by (symmetry; now apply String.eqb_neq).
    unfold py_index.
    replace (0 <=? colchoice)%Z with true
      by (symmetry; apply Z.leb_le; cbn [List.length] in Hlen; lia).
    replace (nth_error (row0 :: rest) (Z.to_nat colchoice)) with (@None string);
      [reflexivity|].
    symmetry. apply nth_error_None. lia. }
  rewrite (process_rows_raise _ _ _ _ _ _ _ _ _ _ _ _ IndexError); now rewrite E.
Qed.

(** *** What a row leaves behind *)

Lemma search_grows (isbn : string) (st : state) :
  out (snd (search isbn st)) = out st
  /\ exists es, log (snd (search isbn st)) = log st ++ es.
Proof.
  unfold Pipeline.search.
  destruct (sqlite_search v (db st) isbn) as [[r note] f]. cbn.
  split; [reflexivity|].
  destruct note; [exists []; now rewrite app_nil_r | now eexists].
Qed.

Lemma write_through_grows (values : list string) (st : state) :
  fst (write_through values st) = Ret tt
  /\ out (snd (write_through values st)) = out st
  /\ exists es, log (snd (write_through values st)) = log st ++ es.
Proof.
  unfold Pipeline.write_through, bind, get, infologger_error, set_db, ret.
  destruct (connect (db st)) as [f|]; cbn.
  - destruct (sql_tableinsert f values) as [[] f']; cbn;
      (split; [reflexivity|]); (split; [reflexivity|]).
    + exists []. now rewrite app_nil_r.
    + now eexists.
  - split; [reflexivity|]. split; [reflexivity|]. now eexists.
Qed.

Lemma write_results_grows (row : list string) (o i : string) (e : option Sqlite.row)
      (st : state) :
  fst (write_results row o i e st) = Ret tt
  /\ out (snd (write_results row o i e st))
     = out st ++ [newdata row o i (lcc st) (source st)]
  /\ exists es, log (snd (write_results row o i e st)) = log st ++ es.
Proof.
  rewrite write_results_eq. cbv zeta. cbn [fst snd].
  split; [reflexivity|].
  set (st1 := mkState (db st) (world st)
                      (out st ++ [newdata row o i (lcc st) (source st)])
                      (log st) (calls st) (lcc st) (source st)).
  destruct (write_through_grows [i; lcc_text (lcc st); source st] st1)
    as (_ & Ho & es & Hl).
  destruct (truthy (lcc st)); cbn [andb].
  - destruct e; cbn [out log].
    + split; [reflexivity|]. exists []. now rewrite app_nil_r.
    + rewrite Ho, Hl. split; [reflexivity|]. now exists es.
  - cbn [out log]. split; [reflexivity|]. now eexists.
Qed.

Lemma resolve_log (row : list string) (o i : string) (st : state) :
  exists es, log (snd (resolve row o i st)) = log st ++ es.
Proof.
  rewrite resolve_eq.
  destruct (search_grows i st) as (_ & es1 & Hs).
  destruct (search i st) as [[e|x] st1]; cbn [snd] in *; [|now exists es1].
  set (st2 := match e with
              | Some r => mkState (db st1) (world st1) (out st1) (log st1)
                                  (calls st1) (Some (row_lc r)) (row_source r)
              | None => st1
              end).
  assert (H2 : log st2 = log st1) by (unfold st2; now destruct e).
  rewrite chain_attempts.
  destruct (attempts_prefix World (adapters i) st2) as (_ & _ & _ & _ & Hc).
  destruct (attempts (adapters i) st2) as [[u|x] st3]; cbn [snd] in *.
  - destruct (write_results_grows row o i e st3) as (_ & _ & es3 & H3).
    rewrite H3, Hc, H2, Hs. exists (es1 ++ es3). now rewrite app_assoc.
  - rewrite Hc, H2, Hs. now exists es1.
Qed.

Lemma process_row_grows (row : list string) (st : state) :
  exists rs es,
    out (snd (process_row row st)) = out st ++ rs
    /\ log (snd (process_row row st)) = log st ++ es
    /\ List.length rs <= 1
    /\ (row <> [] -> fst (process_row row st) = Ret tt -> rs <> [] \/ es <> []).
Proof.
  assert (Hres : forall o lg,
            let st0 := mkState (db st) (world st) (out st) (log st ++ lg) (calls st) None
                               (source st) in
            exists rs es,
              out (snd (normalize row o st0)) = out st ++ rs
              /\ log (snd (normalize row o st0)) = log st ++ es
              /\ List.length rs <= 1
              /\ (fst (normalize row o st0) = Ret tt -> rs <> [] \/ es <> [])).
  { intros o lg st0. rewrite normalize_eq.
    destruct (truthy (fix_isbn o)).
    - destruct (resolve_log row o (lcc_text (fix_isbn o)) st0) as (es & Hl).
      rewrite resolve_out, Hl.
      destruct (fst (resolve row o (lcc_text (fix_isbn o)) st0)).
      + eexists; exists (lg ++ es). cbn [out log st0].
        split; [reflexivity|]. split; [now rewrite app_assoc|].
        split; [simpl; lia|]. intros _. left. discriminate.
      + exists [], (lg ++ es). cbn [out log st0]. rewrite app_nil_r.
        split; [reflexivity|]. split; [now rewrite app_assoc|].
        split; [simpl; lia|]. discriminate.
    - cbn [fst snd out log st0].
      exists (if (outchoice =? 1)%Z then [row ++ [""; ""]] else []), (lg ++ [Unfixable row]).
      split; [reflexivity|]. split; [now rewrite app_assoc|].
      split; [destruct (outchoice =? 1)%Z; simpl; lia|].
      intros _. right. now destruct lg. }
  destruct row as [|row0 rest].
  { exists [], []. cbn. rewrite !app_nil_r. repeat split; [lia|]. intros H; now destruct H. }
  rewrite process_row_eq. cbv zeta.
  destruct (Z.of_nat (List.length (row0 :: rest)) <? colchoice - 1)%Z.
  { exists [], [NotEnoughColumns (row0 :: rest)]. cbn [fst snd out log]. rewrite app_nil_r.
    repeat split; [simpl; lia|]. intros _ _. right. discriminate. }
  destruct (String.eqb row0 "").
  { exists (if (outchoice =? 1)%Z then [(row0 :: rest) ++ [""; ""]] else []),
           [MissingIsbn (row0 :: rest)].
    cbn [fst snd out log]. repeat split; [destruct (outchoice =? 1)%Z; simpl; lia|].
    intros _ _. right. discriminate. }
  destruct (py_index (row0 :: rest) colchoice) as [o|].
  2:{ exists [], []. cbn [fst snd out log]. rewrite !app_nil_r.
      repeat split; [simpl; lia|]. intros _ H; discriminate H. }
  destruct (String.length o <? 10).
  - destruct (outchoice =? 1)%Z eqn:E.
    + exists [(row0 :: rest) ++ [""; ""]], [TooShort o (row0 :: rest)].
      cbn [fst snd out log]. repeat split; [simpl; lia|]. intros _ _. left. discriminate.
    + destruct (Hres o [TooShort o (row0 :: rest)]) as (rs & es & H1 & H2 & H3 & H4).
      exists rs, es. repeat split; try assumption. intros _. exact H4.
  - destruct (Hres o []) as (rs & es & H1 & H2 & H3 & H4).
    rewrite app_nil_r in *.
    exists rs, es. repeat split; try assumption. intros _. exact H4.
Qed.

(** X23: no row is passed over in silence.  A row that is not blank and
    that the loop gets through leaves an output row or a line in the log;
    it never leaves more than one output row, and what was written or
    logged before stays as it was. *)
Theorem row_leaves_trace (row : list string) (st : state) :
  row <> [] ->
  fst (process_row row st) = Ret tt ->
  exists rs es,
    out (snd (process_row row st)) = out st ++ rs
    /\ log (snd (process_row row st)) = log st ++ es
    /\ List.length rs <= 1
    /\ (rs <> [] \/ es <> []).
Proof.
  intros Hrow Hret.
  destruct (process_row_grows row st) as (rs & es & H1 & H2 & H3 & H4).
  exists rs, es. repeat split; try assumption. now apply H4.
Qed.

Lemma process_rows_grows (rows : list (list string)) (st : state) :
  exists rs es,
    out (snd (process_rows rows st)) = out st ++ rs
    /\ log (snd (process_rows rows st)) = log st ++ es
    /\ List.length rs <= List.length rows.
Proof.
  revert st. induction rows as [|row rows IH]; intros st.
  - exists [], []. cbn. rewrite !app_nil_r. repeat split; lia.
  - cbn [Pipeline.process_rows]. unfold bind.
    destruct (process_row_grows row st) as (rs1 & es1 & H1 & H2 & H3 & _).
    destruct (process_row row st) as [[u|x] st1]; cbn [snd] in *.
    + destruct (IH st1) as (rs2 & es2 & G1 & G2 & G3).
      exists (rs1 ++ rs2), (es1 ++ es2).
      rewrite G1, G2, H1, H2, !app_assoc, length_app.
      repeat split; simpl; lia.
    + exists rs1, es1. repeat split; try assumption. simpl; lia.
Qed.

Lemma startup_eq (st : state) :
  startup st
  = (Ret tt,
     mkState (match v, db st with
              | Gui, Missing => Table []
              | _, f => f
              end)
             (world st) (out st) (log st) (calls st) (lcc st) (source st)).
Proof.
  unfold Pipeline.startup. destruct st as [f w o l c lc s].
  destruct v; [reflexivity|].
  unfold bind, get. cbn [db]. destruct f; reflexivity.
Qed.

(** X24: over a whole run the output and the log only grow, and the
    output gains at most one row for each line of the input, header lines
    included. *)
Theorem run_appends (input : list (list string)) (st : state) :
  exists rs es,
    out (snd (main input st)) = out st ++ rs
    /\ log (snd (main input st)) = log st ++ es
    /\ List.length rs <= List.length input.
Proof.
  unfold Pipeline.main, bind. rewrite startup_eq.
  rewrite skip_lines_eq. cbn [db world out log calls lcc source].
  set (n := Z.to_nat lineskip).
  set (st1 := mkState _ _ _ _ _ _ _).
  assert (Hn : List.length (firstn n input) + List.length (skipn n input)
               = List.length input).
  { rewrite <- length_app, firstn_skipn. reflexivity. }
  assert (Hh : List.length (if (outchoice =? 1)%Z then firstn n input else [])
               <= List.length (firstn n input)).
  { destruct (outchoice =? 1)%Z; simpl; lia. }
  destruct (n <=? List.length input).
  - destruct (process_rows_grows (skipn n input) st1) as (rs & es & H1 & H2 & H3).
    exists ((if (outchoice =? 1)%Z then firstn n input else []) ++ rs), es.
    rewrite H1, H2. unfold st1. cbn [out log]. rewrite app_assoc, length_app.
    repeat split. lia.
  - exists (if (outchoice =? 1)%Z then firstn n input else []), [].
    cbn [snd]. unfold st1. cbn [out log]. rewrite app_nil_r.
    repeat split. lia.
Qed.

(** X25: in the mode that repeats the input row, a row that has enough
    columns and that the loop gets through appears in the output with all
    its fields, in order, followed by exactly two more. *)
Theorem repeat_mode_extends_row (row : list string) (st : state) :
  outchoice = 1%Z ->
  row <> [] ->
  (Z.of_nat (List.length row) <? colchoice - 1)%Z = false ->
  fst (process_row row st) = Ret tt ->
  exists a b, out (snd (process_row row st)) = out st ++ [row ++ [a; b]].
Proof.
  intros Ho Hrow Hcols.
  assert (E1 : (outchoice =? 1)%Z = true) by (subst; reflexivity).
  assert (Hres : forall o (st0 : state),
            out st0 = out st ->
            fst (normalize row o st0) = Ret tt ->
            exists a b, out (snd (normalize row o st0)) = out st ++ [row ++ [a; b]]).
  { intros o st0 Hout. rewrite normalize_eq.
    destruct (truthy (fix_isbn o)).
    - rewrite resolve_out.
      destruct (fst (resolve row o (lcc_text (fix_isbn o)) st0)); [|discriminate].
      intros _. unfold Pipeline.newdata. rewrite E1, Hout.
      destruct (truthy _); now eexists; eexists.
    - intros _. cbn [snd out]. rewrite E1, Hout. now eexists; eexists. }
  destruct row as [|row0 rest]; [now destruct Hrow|].
  rewrite process_row_eq. cbv zeta. rewrite Hcols, E1.
  destruct (String.eqb row0 "").
  { intros _. cbn [snd out]. now eexists; eexists. }
  destruct (py_index (row0 :: rest) colchoice) as [o|]; [|discriminate].
  destruct (String.length o <? 10).
  - intros _. cbn [snd out]. now eexists; eexists.
  - apply Hres. reflexivity.
Qed.

(** *** The table of the cache *)

Lemma write_through_table (values : list string) (st : state) :
  (exists rows, db (snd (write_through values st)) = Table rows)
  <-> (exists rows, db st = Table rows).
Proof.
  unfold Pipeline.write_through, bind, get, infologger_error, set_db, ret.
  destruct (db st) as [| | |rows] eqn:E; cbn [connect].
  - cbn. rewrite E. reflexivity.
  - cbn. split; intros [rows H]; discriminate H.
  - cbn. split; intros [rows H]; discriminate H.
  - unfold sql_tableinsert.
    destruct (parse_values _ _) as [vs|]; [destruct (insert_or_ignore rows vs)|];
      cbn; split; intros _; now eexists.
Qed.

Lemma resolve_table (row : list string) (o i : string) (st : state) :
  (exists rows, db (snd (resolve row o i st)) = Table rows)
  <-> (exists rows, db st = Table rows).
Proof.
  rewrite resolve_eq.
  destruct (search_frame World v i st) as (_ & _ & _ & _ & _ & _ & _ & Hs).
  assert (Hs' : (exists rows, db (snd (search i st)) = Table rows)
                <-> (exists rows, db st = Table rows)).
  { split; intros [rows H]; exists rows; now apply Hs. }
  destruct (search i st) as [[e|x] st1]; cbn [snd] in *; [|exact Hs'].
  set (st2 := match e with
              | Some r => mkState (db st1) (world st1) (out st1) (log st1)
                                  (calls st1) (Some (row_lc r)) (row_source r)
              | None => st1
              end).
  assert (H2 : db st2 = db st1) by (unfold st2; now destruct e).
  rewrite chain_attempts.
  destruct (attempts_prefix World (adapters i) st2) as (_ & _ & Hc & _ & _).
  destruct (attempts (adapters i) st2) as [[u|x] st3]; cbn [snd] in *.
  2:{ now rewrite Hc, H2. }
  rewrite <- Hs', <- H2, <- Hc.
  rewrite write_results_eq. cbv zeta. cbn [snd].
  set (st4 := mkState (db st3) (world st3) (out st3 ++ _) (log st3) (calls st3)
                      (lcc st3) (source st3)).
  pose proof (write_through_table [i; lcc_text (lcc st3); source st3] st4) as Hw.
  destruct (truthy (lcc st3)); cbn [andb].
  - destruct e; [reflexivity | exact Hw].
  - reflexivity.
Qed.

Lemma process_row_table (row : list string) (st : state) :
  (exists rows, db (snd (process_row row st)) = Table rows)
  <-> (exists rows, db st = Table rows).
Proof.
  destruct (process_row_cases World v fix_isbn get_oclc_data harvard_get loc_search
              get_blacklight outchoice colchoice row st)
    as [(_ & Hd & _)|[(_ & E & _)|(o & i & _ & E)]].
  - now rewrite Hd.
  - now rewrite E.
  - rewrite E, resolve_table. reflexivity.
Qed.

Lemma process_rows_table (rows : list (list string)) (st : state) :
  (exists rs, db (snd (process_rows rows st)) = Table rs)
  <-> (exists rs, db st = Table rs).
Proof.
  revert st. induction rows as [|row rows IH]; intros st; [reflexivity|].
  cbn [Pipeline.process_rows]. unfold bind.
  pose proof (process_row_table row st) as H.
  destruct (process_row row st) as [[u|x] st1]; cbn [snd] in *.
  - now rewrite IH.
  - exact H.
Qed.

(** X26: table [main] comes from the start of main.py and from nowhere
    else.  The row loop neither creates nor loses it, so a run of
    lcc_simple.py, and a run of main.py on a file that exists, on a cache
    without the table ends without it: nothing is cached.  Only main.py,
    where there is no file, ends with the table. *)
Theorem table_only_from_startup (input : list (list string)) (st : state) :
  ((forall rows, db st <> Table rows) ->
   v = Simple \/ db st <> Missing ->
   forall rows, db (snd (main input st)) <> Table rows)
  /\ (v = Gui -> db st = Missing -> exists rows, db (snd (main input st)) = Table rows).
Proof.
  assert (E : forall st1 : state,
            (exists rows, db (snd (bind (skip_lines (Z.to_nat lineskip) input)
                                        (fun rows => process_rows rows) st1)) = Table rows)
            <-> (exists rows, db st1 = Table rows)).
  { intros st1. unfold bind. rewrite skip_lines_eq.
    destruct (Z.to_nat lineskip <=? List.length input); [|reflexivity].
    now rewrite process_rows_table. }
  assert (M : main input st
              = bind (skip_lines (Z.to_nat lineskip) input)
                     (fun rows => process_rows rows)
                     (mkState (match v, db st with
                               | Gui, Missing => Table []
                               | _, f => f
                               end)
                              (world st) (out st) (log st) (calls st)
                              (lcc st) (source st))).
  { unfold Pipeline.main. unfold bind at 1. now rewrite startup_eq. }
  rewrite M. clear M.
  split.
  - intros Hno Hv rows Hrows.
    assert (H : exists rows, db (mkState (match v, db st with
                                          | Gui, Missing => Table []
                                          | _, f => f
                                          end)
                                         (world st) (out st) (log st) (calls st)
                                         (lcc st) (source st)) = Table rows).
    { apply E. now exists rows. }
    destruct H as [rows' H]. cbn [db] in H.
    destruct Hv as [Hv|Hm].
    + rewrite Hv in H. now apply (Hno rows').
    + destruct v; [now apply (Hno rows')|].
      destruct (db st) eqn:Ed; try discriminate H; try (now destruct Hm).
      now apply (Hno rows').
  - intros Hv Hm. apply E. cbn [db]. rewrite Hv, Hm. now eexists.
Qed.

(** *** An adapter that raises *)

Lemma attempts_raise (pre post : list (string * fetcher)) (name : string)
      (fetch : fetcher) (st : state) (w1 w2 : World) (e : exn) :
  truthy (lcc st) = false ->
  all_notfound pre (world st) = Some w1 ->
  fetch w1 = (Raise e, w2) ->
  exists found,
    attempts (pre ++ (name, fetch) :: post) st
    = (Raise e, mkState (db st) w2 (out st) (log st)
                        (calls st ++ map fst pre ++ [name]) found (source st)).
Proof.
  revert st. induction pre as [|[n f] pre IH]; intros st Hl Hpre Hf.
  - cbn in Hpre. injection Hpre as <-.
    cbn [app Pipeline.attempts]. unfold bind. rewrite attempt_eq, Hl, Hf.
    now eexists.
  - cbn in Hpre. destruct (f (world st)) as [[r|x] w] eqn:E; [|discriminate].
    destruct (truthy r) eqn:Hr; [discriminate|].
    cbn [app Pipeline.attempts]. unfold bind. rewrite attempt_eq, Hl, E, Hr.
    destruct (IH (mkState (db st) w (out st) (log st) (calls st ++ [n]) r (source st)))
      as (found & ->); try assumption.
    exists found. cbn. now rewrite <- app_assoc.
Qed.

(** X27: an exception of an adapter ends the run.  When the cache has no
    record for the ISBN of a row and an adapter raises after the ones
    before it found nothing, the exception leaves the loop: no output row
    is written for the row, the cache keeps its rows, no adapter after the
    failing one is called and no later row is read. *)
Theorem adapter_exception_ends_run (row : list string) (rows : list (list string))
        (o i : string) (st : state) (pre post : list (string * fetcher))
        (name : string) (fetch : fetcher) (w1 w2 : World) (e : exn) :
  normalized row o i ->
  lookup v (db st) i = Ret None ->
  adapters i = pre ++ (name, fetch) :: post ->
  all_notfound pre (world st) = Some w1 ->
  fetch w1 = (Raise e, w2) ->
  fst (process_rows (row :: rows) st) = Raise e
  /\ out (snd (process_rows (row :: rows) st)) = out st
  /\ rows_of (db (snd (process_rows (row :: rows) st))) = rows_of (db st)
  /\ calls (snd (process_rows (row :: rows) st)) = calls st ++ map fst pre ++ [name]
  /\ world (snd (process_rows (row :: rows) st)) = w2.
Proof.
  intros Hn Hmiss Had Hpre Hf.
  destruct (process_row_cases World v fix_isbn get_oclc_data harvard_get loc_search
              get_blacklight outchoice colchoice row st)
    as [(_ & _ & _ & _ & Hnot)|[(_ & _ & Hnot)|(o' & i' & Hn' & E)]];
    try (now destruct (Hnot o i)).
  destruct (normalized_unique _ _ _ _ _ _ _ _ Hn Hn') as [-> ->].
  set (st0 := mkState (db st) (world st) (out st)
                      (log st ++ if String.length o <? 10 then [TooShort o row] else [])
                      (calls st) None (source st)) in *.
  assert (Er : resolve row o i st0
               = match chain i (snd (search i st0)) with
                 | (Ret _, st3) => write_results row o i None st3
                 | (Raise x, st3) => (Raise x, st3)
                 end).
  { apply resolve_miss. exact Hmiss. }
  destruct (search_frame World v i st0) as (_ & Hw & Ho & Hc & Hl & _ & Hr & _).
  rewrite chain_attempts, Had in Er.
  destruct (attempts_raise pre post name fetch (snd (search i st0)) w1 w2 e)
    as (found & Ea).
  { now rewrite Hl. }
  { now rewrite Hw. }
  { exact Hf. }
  rewrite Ea in Er. rewrite Er in E.
  rewrite (process_rows_raise _ _ _ _ _ _ _ _ _ _ _ _ e); rewrite E; cbn [fst snd];
    [|reflexivity].
  cbn [out db calls world]. rewrite Ho, Hr, Hc. repeat split.
Qed.

(** *** An ISBN that comes twice *)

Lemma hit_frame (row : list string) (o i : string) (st : state) (r : Sqlite.row) :
  lookup v (db st) i = Ret (Some r) ->
  row_lc r <> "" ->
  fst (resolve row o i st) = Ret tt
  /\ calls (snd (resolve row o i st)) = calls st
  /\ world (snd (resolve row o i st)) = world st
  /\ lcc (snd (resolve row o i st)) = Some (row_lc r)
  /\ source (snd (resolve row o i st)) = row_source r
  /\ db (snd (resolve row o i st)) = db st
  /\ out (snd (resolve row o i st))
     = out st ++ [newdata row o i (Some (row_lc r)) (row_source r)].
Proof.
  intros Hhit Hlc.
  rewrite (resolve_hit _ _ _ _ _ _ _ _ _ _ _ r Hhit). cbv zeta.
  destruct (search_frame World v i st) as (_ & Hw & Ho & Hc & _ & _ & _ & Hd).
  assert (Ht : truthy (Some (row_lc r)) = true).
  { cbn. apply negb_true_iff. now apply String.eqb_neq. }
  rewrite chain_attempts, attempts_resolved by exact Ht.
  rewrite write_results_eq. cbv zeta. cbn [lcc source db world out log calls].
  rewrite Ht. cbn [andb fst snd lcc source db world out log calls].
  rewrite Hw, Ho, Hc. repeat split.
  destruct (lookup_some_table v _ _ _ Hhit) as (rows & Hrows & _).
  rewrite Hrows. now apply Hd.
Qed.


End Props.

(** *** On mock adapters *)

(** A file of one line read with two header lines. *)
Lemma skip_lines_header_witness :
  Pipeline.skip_lines (list string) 1 2 [["ISBN"; "Title"]] (Mock.start (Table []))
  = (Raise StopIteration,
     Pipeline.mkState (list string) (Table []) [] [["ISBN"; "Title"]] [] [] None "").
Proof.
  apply (skip_lines_header (list string) 1 2 [["ISBN"; "Title"]] (Mock.start (Table []))).
  simpl. lia.
Defined.

(** Two fields where the third is asked for. *)
Lemma short_row_raises_witness :
  Pipeline.process_rows (list string) Gui Mock.fix_isbn (Mock.mock_oclc None)
    (Mock.mock_harvard (Ret None)) (Mock.mock_loc None) Mock.none3 2 2
    [["Station eleven"; "Mandel"]; ["Emma"; "Austen"; "080442957X"]]
    (Mock.start (Table []))
  = (Raise IndexError, Mock.start (Table [])).
Proof.
  apply (short_row_raises (list string) Gui Mock.fix_isbn (Mock.mock_oclc None)
           (Mock.mock_harvard (Ret None)) (Mock.mock_loc None) Mock.none3 2 2
           "Station eleven" ["Mandel"] [["Emma"; "Austen"; "080442957X"]]
           (Mock.start (Table []))).
  - discriminate.
  - simpl. lia.
Defined.

(** A row that no adapter resolves, in the mode of four columns. *)
Lemma row_leaves_trace_witness :
  exists rs es,
    out (snd (Mock.row_run None (Ret None) None 2 0 ["080442957X"] (Mock.start (Table []))))
    = [] ++ rs
    /\ log (snd (Mock.row_run None (Ret None) None 2 0 ["080442957X"] (Mock.start (Table []))))
       = [] ++ es
    /\ List.length rs <= 1
    /\ (rs <> [] \/ es <> []).
Proof.
  apply (row_leaves_trace (list string) Gui Mock.fix_isbn (Mock.mock_oclc None)
           (Mock.mock_harvard (Ret None)) (Mock.mock_loc None) Mock.none3 2 0
           ["080442957X"] (Mock.start (Table []))).
  - discriminate.
  - reflexivity.
Defined.

(** A row of three fields with the ISBN in the first. *)
Lemma repeat_mode_extends_row_witness :
  exists a b,
    out (snd (Mock.row_run (Some "PZ3") (Ret None) None 1 0
                           ["080442957X"; "Emma"; "Austen"] (Mock.start (Table []))))
    = [] ++ [["080442957X"; "Emma"; "Austen"] ++ [a; b]].
Proof.
  apply (repeat_mode_extends_row (list string) Gui Mock.fix_isbn (Mock.mock_oclc (Some "PZ3"))
           (Mock.mock_harvard (Ret None)) (Mock.mock_loc None) Mock.none3 1 0
           ["080442957X"; "Emma"; "Austen"] (Mock.start (Table []))).
  - reflexivity.
  - discriminate.
  - reflexivity.
  - reflexivity.
Defined.

(** Where there is no cache file and Classify resolves the row:
    lcc_simple.py leaves the cache without the table, main.py with it. *)
Lemma table_only_from_startup_witness :
  (forall rows,
     db (snd (Mock.run Simple (Some "PZ3") 2 [["080442957X"]] (Mock.start Missing)))
     <> Table rows)
  /\ (exists rows,
        db (snd (Mock.run Gui (Some "PZ3") 2 [["080442957X"]] (Mock.start Missing)))
        = Table rows).
Proof.
  split.
  - apply (table_only_from_startup (list string) Simple Mock.fix_isbn
             (Mock.mock_oclc (Some "PZ3")) (Mock.mock_harvard (Ret None))
             (Mock.mock_loc None) Mock.none3 2 0 0 [["080442957X"]] (Mock.start Missing)).
    + intros rows; discriminate.
    + left; reflexivity.
  - apply (table_only_from_startup (list string) Gui Mock.fix_isbn
             (Mock.mock_oclc (Some "PZ3")) (Mock.mock_harvard (Ret None))
             (Mock.mock_loc None) Mock.none3 2 0 0 [["080442957X"]] (Mock.start Missing));
      reflexivity.
Defined.

(** The Harvard adapter raises after Classify found nothing. *)
Lemma adapter_exception_ends_run_witness :
  fst (Pipeline.process_rows (list string) Gui Mock.fix_isbn (Mock.mock_oclc None)
         (Mock.mock_harvard (Raise TypeError)) (Mock.mock_loc None) Mock.none3 2 0
         [["080442957X"]; ["9780143127741"]] (Mock.start (Table [])))
  = Raise TypeError
  /\ out (snd (Pipeline.process_rows (list string) Gui Mock.fix_isbn (Mock.mock_oclc None)
                 (Mock.mock_harvard (Raise TypeError)) (Mock.mock_loc None) Mock.none3 2 0
                 [["080442957X"]; ["9780143127741"]] (Mock.start (Table []))))
     = [].
Proof.
  destruct (adapter_exception_ends_run (list string) Gui Mock.fix_isbn (Mock.mock_oclc None)
              (Mock.mock_harvard (Raise TypeError)) (Mock.mock_loc None) Mock.none3 2 0
              ["080442957X"] [["9780143127741"]] "080442957X" "080442957X"
              (Mock.start (Table []))
              [("OCLC", Mock.mock_oclc None "isbn" "080442957X")]
              (tl (tl (Pipeline.adapters (list string) (Mock.mock_oclc None)
                         (Mock.mock_harvard (Raise TypeError)) (Mock.mock_loc None)
                         Mock.none3 "080442957X")))
              "Harvard" (Mock.mock_harvard (Raise TypeError) "080442957X")
              [] [] TypeError)
    as (H1 & H2 & _).
  - exact mock_row_normalized.
  - reflexivity.
  - reflexivity.
  - reflexivity.
  - reflexivity.
  - split; [exact H1 | exact H2].
Defined.


End RunProps.

(** ** lcc_simple.py without a network *)

Module OfflineProps.
Import Sqlite Pipeline SqliteFacts PipelineFacts.

Section Offline.

Variable requote_uri : string -> option string.
Variable parseString : string -> option Dom.node.
Variable json_loads : string -> option Json.json.
Variable BeautifulSoup : string -> Dom.node.
Variable recursion_limit : nat.
Variable fix_isbn : string -> option string.

Hypothesis positive_limit : 0 < recursion_limit.

Local Abbreviation World := (list string).
Local Abbreviation state := (Pipeline.state World).
Local Abbreviation mkState := (Pipeline.mkState World).
Local Abbreviation oclc :=
  (Wiring.get_oclc_data requote_uri Mock.offline parseString recursion_limit).
Local Abbreviation harvard := (Wiring.harvard_get Mock.offline json_loads Simple).
Local Abbreviation loc := (Remote.loc_search MockPages.sru_offline).
Local Abbreviation blacklight := (Remote.get_blacklight Mock.offline BeautifulSoup).
Local Abbreviation adapters := (Pipeline.adapters World oclc harvard loc blacklight).
Local Abbreviation attempts := (Pipeline.attempts World).
Local Abbreviation search := (Pipeline.search World Simple).
Local Abbreviation resolve := (Pipeline.resolve World Simple oclc harvard loc blacklight 2).
Local Abbreviation process_row :=
  (Pipeline.process_row World Simple fix_isbn oclc harvard loc blacklight 2 0).
Local Abbreviation process_rows :=
  (Pipeline.process_rows World Simple fix_isbn oclc harvard loc blacklight 2 0).

Lemma offline_oclc (parmtype parmvalue : string) (w : World) :
  exists w', oclc parmtype parmvalue w = (Ret None, w').
Proof.
  unfold Wiring.get_oclc_data.
  destruct recursion_limit as [|d]; [inversion positive_limit|].
  cbn [Classify.get_oclc_data].
  destruct (requote_uri parmvalue); now eexists.
Qed.

Lemma offline_harvard (m_isbn : string) (w : World) :
  harvard m_isbn w = (Ret None, w ++ [Harvard.service_url m_isbn]).
Proof. reflexivity. Qed.

Lemma offline_loc (isbn sru_base : string) (w : World) :
  loc isbn sru_base w = (Ret None, w ++ [sru_base]).
Proof. reflexivity. Qed.

Lemma offline_blacklight (base_url1 institution paramvalue : string) (w : World) :
  blacklight base_url1 institution paramvalue w
  = (Ret None, w ++ [Blacklight.URL_TITLE base_url1 paramvalue]).
Proof. reflexivity. Qed.

(** Without a network every adapter returns [None]. *)
Lemma offline_all_notfound (i : string) (w : World) :
  exists w', Pipeline.all_notfound World (adapters i) w = Some w'.
Proof.
  unfold Pipeline.adapters. cbn [Pipeline.all_notfound].
  destruct (offline_oclc "isbn" i w) as [w1 ->]. cbn [truthy].
  rewrite offline_harvard. cbn [truthy].
  rewrite offline_loc. cbn [truthy].
  repeat (rewrite offline_blacklight; cbn [truthy]).
  now eexists.
Qed.

Lemma offline_search (i : string) (st : state) :
  db st <> Unopenable ->
  exists e,
    fst (search i st) = Ret e
    /\ db (snd (search i st)) <> Unopenable
    /\ match e with
       | Some r => In r (rows_of (db st))
       | None => True
       end.
Proof.
  intros Hdb. unfold Pipeline.search, sqlite_search.
  destruct (db st) as [| | |rows]; [now destruct Hdb| | |]; cbn.
  - exists None. repeat split. discriminate.
  - exists None. repeat split. discriminate.
  - destruct (where_pattern i) as [p|]; cbn.
    + exists (find (fun r => sqlite_like p (row_isbn r)) rows).
      split; [reflexivity|]. split; [discriminate|].
      destruct (find _ rows) as [r|] eqn:F; [|exact I].
      now apply find_some in F.
    + exists None. repeat split. discriminate.
Qed.

Lemma offline_resolve (row : list string) (o i : string) (st : state) :
  db st <> Unopenable ->
  lcc st = None ->
  fst (resolve row o i st) = Ret tt
  /\ db (snd (resolve row o i st)) <> Unopenable
  /\ rows_of (db (snd (resolve row o i st))) = rows_of (db st)
  /\ exists l s,
       out (snd (resolve row o i st)) = out st ++ [[o; l; i; s]]
       /\ ((l = "" /\ s = "NOTFOUND")
           \/ (l <> "" /\ exists i', In (i', l, s) (rows_of (db st)))).
Proof.
  intros Hdb Hlcc. rewrite resolve_eq.
  destruct (offline_search i st Hdb) as (e & Hs & Hd & He).
  destruct (search_frame World Simple i st) as (_ & Hw & Ho & _ & Hl & _ & Hr & _).
  destruct (search i st) as [x st1]. cbn [fst snd] in *. subst x.
  set (st2 := match e with
              | Some r => mkState (db st1) (world st1) (out st1) (log st1)
                                  (calls st1) (Some (row_lc r)) (row_source r)
              | None => st1
              end).
  assert (H2 : db st2 = db st1 /\ out st2 = out st1)
    by (unfold st2; now destruct e).
  destruct H2 as [H2d H2o].
  rewrite chain_attempts.
  destruct (truthy (lcc st2)) eqn:Ht.
  - (* a cached call number *)
    destruct e as [[[i' l] s]|]; [|unfold st2 in Ht; rewrite Hl, Hlcc in Ht; discriminate Ht].
    rewrite attempts_resolved by exact Ht.
    rewrite write_results_eq. cbv zeta. rewrite Ht. cbn [andb fst snd].
    cbn [lcc source db out st2 row_lc row_source fst snd].
    split; [reflexivity|]. split; [exact Hd|]. split; [exact Hr|].
    exists l, s. unfold Pipeline.newdata. cbn [Z.eqb Pos.eqb].
    cbn [lcc st2 row_lc fst snd] in Ht. rewrite Ht. cbn [lcc_text]. rewrite Ho.
    split; [reflexivity|]. right. split.
    + intros ->. discriminate Ht.
    + now exists i'.
  - (* nothing cached, or an empty call number: the chain runs *)
    destruct (offline_all_notfound i (world st2)) as [w' Hall].
    destruct (attempts_none_found World (adapters i) st2 w' Ht Hall) as (found & Hf & ->).
    rewrite write_results_eq. cbv zeta. cbn [lcc source db world out log calls].
    rewrite Hf. cbn [andb fst snd db out].
    rewrite H2d, H2o, Ho.
    split; [reflexivity|]. split; [exact Hd|]. split; [exact Hr|].
    exists "", "NOTFOUND". unfold Pipeline.newdata. cbn [Z.eqb Pos.eqb]. rewrite Hf.
    split; [reflexivity|]. now left.
Qed.

Lemma offline_row (row : list string) (st : state) :
  db st <> Unopenable ->
  fst (process_row row st) = Ret tt
  /\ db (snd (process_row row st)) <> Unopenable
  /\ rows_of (db (snd (process_row row st))) = rows_of (db st)
  /\ exists rs,
       out (snd (process_row row st)) = out st ++ rs
       /\ Forall (fun r => exists o l i s,
                    r = [o; l; i; s]
                    /\ ((l = "" /\ s = "NOTFOUND")
                        \/ (l <> "" /\ exists i', In (i', l, s) (rows_of (db st))))) rs.
Proof.
  intros Hdb.
  assert (Hnone : fst (Ret tt : res unit, st) = Ret tt
                  /\ db st <> Unopenable /\ rows_of (db st) = rows_of (db st)
                  /\ exists rs, out st = out st ++ rs
                       /\ Forall (fun r => exists o l i s,
                                    r = [o; l; i; s]
                                    /\ ((l = "" /\ s = "NOTFOUND")
                                        \/ (l <> "" /\ exists i',
                                              In (i', l, s) (rows_of (db st))))) rs).
  { repeat split; try assumption. exists []. now rewrite app_nil_r. }
  destruct row as [|row0 rest]; [exact Hnone|].
  rewrite process_row_eq. cbv zeta.
  replace (Z.of_nat (List.length (row0 :: rest)) <? 0 - 1)%Z with false
    by (symmetry; apply Z.ltb_ge; lia).
  change (2 =? 1)%Z with false. cbv iota.
  destruct (String.eqb row0 "").
  { cbn [fst snd db out]. rewrite app_nil_r. exact Hnone. }
  change (py_index (row0 :: rest) 0) with (Some row0). cbv iota.
  assert (Hnorm : forall lg,
            let st0 := mkState (db st) (world st) (out st) lg (calls st) None (source st) in
            let r := Pipeline.normalize World Simple fix_isbn oclc harvard loc blacklight 2
                                        (row0 :: rest) row0 st0 in
            fst r = Ret tt
            /\ db (snd r) <> Unopenable
            /\ rows_of (db (snd r)) = rows_of (db st)
            /\ exists rs,
                 out (snd r) = out st ++ rs
                 /\ Forall (fun r => exists o l i s,
                              r = [o; l; i; s]
                              /\ ((l = "" /\ s = "NOTFOUND")
                                  \/ (l <> "" /\ exists i',
                                        In (i', l, s) (rows_of (db st))))) rs).
  { intros lg st0 r. unfold r. rewrite normalize_eq.
    destruct (truthy (fix_isbn row0)).
    - destruct (offline_resolve (row0 :: rest) row0 (lcc_text (fix_isbn row0)) st0 Hdb eq_refl)
        as (H1 & H2 & H3 & l & s & H4 & H5).
      split; [exact H1|]. split; [exact H2|]. split; [exact H3|].
      exists [[row0; l; lcc_text (fix_isbn row0); s]]. split; [exact H4|].
      constructor; [|constructor]. now exists row0, l, (lcc_text (fix_isbn row0)), s.
    - change (2 =? 1)%Z with false. cbn [fst snd db out st0].
      repeat split; try assumption. exists []. split; [reflexivity | constructor]. }
  destruct (String.length row0 <? 10); apply Hnorm.
Qed.

Lemma offline_rows (rows : list (list string)) (st : state) :
  db st <> Unopenable ->
  fst (process_rows rows st) = Ret tt
  /\ rows_of (db (snd (process_rows rows st))) = rows_of (db st)
  /\ exists rs,
       out (snd (process_rows rows st)) = out st ++ rs
       /\ Forall (fun r => exists o l i s,
                    r = [o; l; i; s]
                    /\ ((l = "" /\ s = "NOTFOUND")
                        \/ (l <> "" /\ exists i', In (i', l, s) (rows_of (db st))))) rs.
Proof.
  revert st. induction rows as [|row rows IH]; intros st Hdb.
  - cbn. repeat split. exists []. now rewrite app_nil_r.
  - cbn [Pipeline.process_rows]. unfold bind.
    destruct (offline_row row st Hdb) as (H1 & H2 & H3 & rs1 & H4 & H5).
    destruct (process_row row st) as [x st1]. cbn [fst snd] in *. subst x.
    destruct (IH st1 H2) as (G1 & G3 & rs2 & G4 & G5).
    split; [exact G1|]. split; [now rewrite G3|].
    exists (rs1 ++ rs2). split; [now rewrite G4, H4, app_assoc|].
    apply Forall_app. split; [exact H5|]. now rewrite H3 in G5.
Qed.

(** X29: lcc_simple.py with no network.  When no request gets through
    and the cache file can be opened, the run over any input ends without
    an exception; every ISBN that passes [fix_isbn] gets a row of four
    fields, with the call number and the source of a cached row that has
    a call number, or else with an empty call number and [NOTFOUND]; and
    the cache holds the rows it held. *)
Theorem simple_offline_run (input : list (list string)) (st : state) :
  db st <> Unopenable ->
  let run := Remote.script requote_uri Mock.offline parseString json_loads
                           MockPages.sru_offline BeautifulSoup recursion_limit
                           Simple fix_isbn 2 0 0 input st in
  fst run = Ret tt
  /\ rows_of (db (snd run)) = rows_of (db st)
  /\ exists rs,
       out (snd run) = out st ++ rs
       /\ Forall (fun r => exists o l i s,
                    r = [o; l; i; s]
                    /\ ((l = "" /\ s = "NOTFOUND")
                        \/ (l <> "" /\ exists i', In (i', l, s) (rows_of (db st))))) rs.
Proof.
  intros Hdb run.
  assert (E : run = process_rows input st).
  { unfold run, Remote.script, Pipeline.main, Pipeline.startup, bind, ret.
    cbn [Z.to_nat Pipeline.skip_lines]. reflexivity. }
  rewrite E. now apply offline_rows.
Qed.

End Offline.

(** A cache with one row, an input with that ISBN and another. *)
Lemma simple_offline_run_witness :
  fst (Remote.script Mock.requote_uri Mock.offline Mock.parseString Mock.json_loads
                     MockPages.sru_offline MockPages.BeautifulSoup 1000
                     Simple Mock.fix_isbn 2 0 0
                     [["080442957X"]; ["9780143127741"]]
                     (Mock.start (Table [("080442957X", "PZ3", "OCLC")])))
  = Ret tt.
Proof.
  apply (simple_offline_run Mock.requote_uri Mock.parseString Mock.json_loads
           MockPages.BeautifulSoup 1000 Mock.fix_isbn).
  - lia.
  - discriminate.
Defined.

End OfflineProps.
